(** * CellWay: route proximity search, route scoring and selection

    A shallow embedding of the algorithmic core of the CellWay backend:

    - [backend/utils/geometry.py]: [haversine_distance] and
      [find_towers_near_route_shapely];
    - [backend/services/tower_service.py]: [find_towers_along_route] and
      [_generate_mock_towers];
    - [backend/services/routing_service.py]: [_parse_graphhopper_path],
      [_calculate_graphhopper_routes], [_select_optimized_routes],
      [_get_optimized_route] and the three public functions
      [get_route_fastest], [get_route_cell_coverage], [get_route_balanced];
    - [backend/routes/routing_routes.py]: the endpoint [calculate_route].

    Python floats are modelled as real numbers: rounding, NaN and the
    infinities are outside the model, except for the one infinity that
    [haversine_distance] returns on purpose, which is a value of [pyfloat].
    Python booleans behave as the numbers 0 and 1 in every operation used
    here and are not kept apart from them.  Exceptions are values of the
    error monad [exn]; a [try]/[except] is a [match] on them.  What leaves
    the program (the HTTP request, the [random] module, the clock, the
    conversion of strings to numbers) is a parameter of the definitions
    that use it. *)

From Stdlib Require Import Reals Lra Lia.
From stdpp Require Import base decidable option list gmap strings sorting pretty.

Set Warnings "-register-all,-clear-no-such-hyp".
Open Scope R_scope.

(** ** Exceptions *)

Inductive exc : Type :=
| TypeError
| ValueError
| KeyError
| IndexError
| AttributeError.

Inductive exn (A : Type) : Type :=
| Return (a : A)
| Raise (e : exc).
Arguments Return {A} a.
Arguments Raise {A} e.

#[global] Instance exn_ret : MRet exn := λ A a, Return a.
#[global] Instance exn_bind : MBind exn := λ A B f m,
  match m with
  | Return a => f a
  | Raise e => Raise e
  end.

(** [returns m]: the computation ends without an exception. *)
Definition returns {A} (m : exn A) : Prop := ∃ a, m = Return a.

(** [try: m except Exception: return d]. *)
Definition except_Exception {A} (m : exn A) (d : A) : A :=
  match m with
  | Return a => a
  | Raise _ => d
  end.

(** ** Python values

    The values a decoded JSON document or a CSV record holds. *)

Inductive pyval : Type :=
| PyNone
| PyNum (x : R)
| PyStr (s : string)
| PyList (xs : list pyval)
| PyDict (d : gmap string pyval).

#[global] Instance Rlt_decision (x y : R) : Decision (x < y) := Rlt_dec x y.
#[global] Instance Rle_decision (x y : R) : Decision (x <= y) := Rle_dec x y.
#[global] Instance Req_decision : EqDecision R := Req_dec_T.

(** [bool(v)]. *)
Definition py_truthy (v : pyval) : bool :=
  match v with
  | PyNone => false
  | PyNum x => bool_decide (x ≠ 0)
  | PyStr s => bool_decide (s ≠ EmptyString)
  | PyList xs => match xs with [] => false | _ :: _ => true end
  | PyDict d => bool_decide (size d ≠ 0%nat)
  end.

(** [len(v)]: a [TypeError] on a value that has no length. *)
Definition py_len (v : pyval) : exn nat :=
  match v with
  | PyStr s => Return (String.length s)
  | PyList xs => Return (length xs)
  | PyDict d => Return (size d)
  | PyNone | PyNum _ => Raise TypeError
  end.

(** [for x in v]: the elements of a list, the characters of a string, the
    keys of a dict; a [TypeError] on a value that is not iterable. *)
Definition py_iter (v : pyval) : exn (list pyval) :=
  match v with
  | PyList xs => Return xs
  | PyStr s => Return ((λ c, PyStr (String c EmptyString)) <$> String.list_ascii_of_string s)
  | PyDict d => Return (PyStr <$> (map_to_list d).*1)
  | PyNone | PyNum _ => Raise TypeError
  end.

Definition is_str (k : string) (v : pyval) : bool :=
  match v with
  | PyStr s => bool_decide (s = k)
  | _ => false
  end.

(** [k in v] for a string [k]: key membership in a dict, element membership
    in a list, substring test in a string. *)
Definition py_contains (k : string) (v : pyval) : exn bool :=
  match v with
  | PyDict d => Return (bool_decide (is_Some (d !! k)))
  | PyList xs => Return (existsb (is_str k) xs)
  | PyStr s => Return (bool_decide (is_Some (String.index 0 k s)))
  | PyNone | PyNum _ => Raise TypeError
  end.

(** [v[k]] for a string [k]. *)
Definition py_getitem (v : pyval) (k : string) : exn pyval :=
  match v with
  | PyDict d =>
      match d !! k with
      | Some x => Return x
      | None => Raise KeyError
      end
  | _ => Raise TypeError
  end.

(** [v.copy()] followed by item assignments with string keys: only a dict
    supports both. *)
Definition py_copy (v : pyval) : exn (gmap string pyval) :=
  match v with
  | PyDict d => Return d
  | PyList _ => Raise TypeError
  | _ => Raise AttributeError
  end.

(** A number where the code needs one ([float(v)], arithmetic). *)
Definition py_float (v : pyval) : exn R :=
  match v with
  | PyNum x => Return x
  | _ => Raise TypeError
  end.

(** ** The [math] module *)

Definition math_radians (v : pyval) : exn R :=
  x ← py_float v; Return (x * (PI / 180)).

Definition math_sqrt (x : R) : exn R :=
  if decide (x < 0) then Raise ValueError else Return (sqrt x).

Definition math_asin (x : R) : exn R :=
  if decide (x < -1) then Raise ValueError
  else if decide (1 < x) then Raise ValueError
  else Return (asin x).

(** A float that may be [float('inf')]. *)
Inductive pyfloat : Type :=
| Fin (x : R)
| PosInf.

(** [d <= m] for a finite [m]. *)
Definition pyfloat_le (d : pyfloat) (m : R) : bool :=
  match d with
  | Fin x => bool_decide (x <= m)
  | PosInf => false
  end.

(** ** [geometry.py]: the haversine distance *)

Definition earth_radius : R := 6371000.

(** The haversine term [a] of two points given in radians. *)
Definition haversine_a (lat1 lon1 lat2 lon2 : R) : R :=
  let dlat := lat2 - lat1 in
  let dlon := lon2 - lon1 in
  (sin (dlat / 2))² + cos lat1 * cos lat2 * (sin (dlon / 2))².

(** The body of the [try] block. *)
Definition haversine_body (lat1 lon1 lat2 lon2 : pyval) : exn R :=
  lat1_rad ← math_radians lat1;
  lon1_rad ← math_radians lon1;
  lat2_rad ← math_radians lat2;
  lon2_rad ← math_radians lon2;
  let a := haversine_a lat1_rad lon1_rad lat2_rad lon2_rad in
  r ← math_sqrt a;
  h ← math_asin r;
  let c := 2 * h in
  Return (earth_radius * c).

Definition haversine_distance (lat1 lon1 lat2 lon2 : pyval) : exn pyfloat :=
  match haversine_body lat1 lon1 lat2 lon2 with
  | Return d => Return (Fin d)
  | Raise TypeError | Raise ValueError => Return PosInf
  | Raise e => Raise e
  end.

(** ** The planar geometry library

    [geometry.py] imports [LineString], [Point] and [nearest_points] from a
    third-party geometry library that is not part of the repository. *)

(** A planar point [(x, y)]: longitude first, then latitude. *)
Definition point : Type := R * R.

(** Modelled from the spec: the [Point] constructor of the geometry library;
    coordinates are numbers (3: Coordinate), anything else raises. *)
Definition Point (x y : pyval) : exn point :=
  px ← py_float x; py ← py_float y; Return (px, py).

(** A polyline: its first vertex and the vertices after it. *)
Record linestring : Type := {
  ls_start : point;
  ls_rest : list point
}.

Definition coordinate (v : pyval) : exn point :=
  match v with
  | PyList [x; y] => Point x y
  | _ => Raise ValueError
  end.

(** Modelled from the spec: the [LineString] constructor of the geometry
    library, on the documented input, a list of [lng, lat] pairs with at
    least two entries (3: RoutePolyline); anything else raises. *)
Definition LineString (v : pyval) : exn linestring :=
  match v with
  | PyList cs =>
      pts ← mapM coordinate cs;
      match pts with
      | a :: (_ :: _) as rest => Return {| ls_start := a; ls_rest := rest |}
      | _ => Raise ValueError
      end
  | _ => Raise TypeError
  end.

Definition planar_dist (p q : point) : R :=
  sqrt ((p.1 - q.1)² + (p.2 - q.2)²).

(** [max(0.0, min(1.0, x))]. *)
Definition clamp01 (x : R) : R := Rmax 0 (Rmin 1 x).

(** The parameter in [0, 1] of the point of segment [a b] nearest to [p]. *)
Definition segment_param (a b p : point) : R :=
  let d2 := (b.1 - a.1)² + (b.2 - a.2)² in
  if decide (d2 = 0) then 0
  else clamp01 (((p.1 - a.1) * (b.1 - a.1) + (p.2 - a.2) * (b.2 - a.2)) / d2).

Definition segment_nearest (a b p : point) : point :=
  let t := segment_param a b p in
  (a.1 + t * (b.1 - a.1), a.2 + t * (b.2 - a.2)).

(** The point of a polyline nearest to a query point, its planar distance
    to the query and its arc length from the start of the polyline. *)
Record nearest : Type := {
  near_point : point;
  near_dist : R;
  near_along : R
}.

(** Walks the segments [a -> b -> ...] keeping the first nearest point;
    [walked] is the arc length from the start of the polyline to [a]. *)
Fixpoint line_scan (p a : point) (rest : list point) (walked : R)
    (best : nearest) : nearest :=
  match rest with
  | [] => best
  | b :: rest' =>
      let q := segment_nearest a b p in
      let cand := {| near_point := q;
                     near_dist := planar_dist p q;
                     near_along := walked + planar_dist a q |} in
      line_scan p b rest' (walked + planar_dist a b)
        (if decide (near_dist cand < near_dist best) then cand else best)
  end.

(** Modelled from the spec: nearest-point search of the geometry library,
    degrees treated as a flat plane (4.2 step 1 and 9: point-to-segment
    distance and arc-length projection). *)
Definition line_nearest (l : linestring) (p : point) : nearest :=
  line_scan p (ls_start l) (ls_rest l) 0
    {| near_point := ls_start l;
       near_dist := planar_dist p (ls_start l);
       near_along := 0 |}.

Fixpoint path_length (a : point) (rest : list point) : R :=
  match rest with
  | [] => 0
  | b :: rest' => planar_dist a b + path_length b rest'
  end.

(** [route_line.length]. *)
Definition line_length (l : linestring) : R :=
  path_length (ls_start l) (ls_rest l).

(** [route_line.distance(p)]. *)
Definition line_distance (l : linestring) (p : point) : R :=
  near_dist (line_nearest l p).

(** [nearest_points(route_line, p)[0]]. *)
Definition nearest_points (l : linestring) (p : point) : point :=
  near_point (line_nearest l p).

(** [route_line.project(q)]. *)
Definition line_project (l : linestring) (q : point) : R :=
  near_along (line_nearest l q).

(** ** Stable sorting

    [sorted(l, key=...)] and [l.sort(key=...)] are stable: [lt x y] says
    that the key of [x] is strictly below the key of [y]. *)

Section Sorting.
Context {A : Type} (lt : A → A → bool).

Fixpoint insert_sorted (x : A) (l : list A) : list A :=
  match l with
  | [] => [x]
  | y :: l' => if lt y x then y :: insert_sorted x l' else x :: y :: l'
  end.

Definition sorted (l : list A) : list A := foldr insert_sorted [] l.

End Sorting.

(** Sorting on a numeric key. *)
Definition key_lt {A} (key : A → R) (x y : A) : bool :=
  bool_decide (key x < key y).

(** ** [geometry.py]: towers near a route *)

(** A tower record. *)
Abbreviation tower_dict := (gmap string pyval).

(** The body of the inner [try] for one tower: [Return (Some c)] when the
    copy [c] is appended to [nearby_towers], [Return None] when the tower is
    too far. *)
Definition process_tower (route_line : linestring)
    (route_length max_dist_degrees_approx max_distance_meters : R)
    (tower : pyval) : exn (option tower_dict) :=
  lon ← py_getitem tower "lon";
  lat ← py_getitem tower "lat";
  tower_point ← Point lon lat;
  let distance_degrees := line_distance route_line tower_point in
  if bool_decide (distance_degrees <= max_dist_degrees_approx * 1.5) then
    let nearest_route_point_geom := nearest_points route_line tower_point in
    distance_meters ← haversine_distance
      (PyNum tower_point.2) (PyNum tower_point.1)
      (PyNum nearest_route_point_geom.2) (PyNum nearest_route_point_geom.1);
    match distance_meters with
    | Fin d =>
        if bool_decide (d <= max_distance_meters) then
          tower_copy ← py_copy tower;
          let tower_copy := <["distanceToRoute" := PyNum d]> tower_copy in
          let position_degrees :=
            line_project route_line nearest_route_point_geom in
          let position_normalized :=
            if decide (0 < route_length)
            then position_degrees / route_length else 0 in
          Return (Some (<["positionAlongRoute" :=
                           PyNum (clamp01 position_normalized)]> tower_copy))
        else Return None
    | PosInf => Return None
    end
  else Return None.

(** The [for tower in towers] loop: the key tests run outside the inner
    [try], the rest of the body inside it. *)
Fixpoint scan_towers (route_line : linestring)
    (route_length max_dist_degrees_approx max_distance_meters : R)
    (towers : list pyval) (nearby_towers : list tower_dict)
    : exn (list tower_dict) :=
  match towers with
  | [] => Return nearby_towers
  | tower :: rest =>
      has_lat ← py_contains "lat" tower;
      has_lon ← (if has_lat : bool then py_contains "lon" tower else Return false);
      scan_towers route_line route_length max_dist_degrees_approx
        max_distance_meters rest
        (if has_lon : bool then
           match process_tower route_line route_length
                   max_dist_degrees_approx max_distance_meters tower with
           | Return (Some tower_copy) => nearby_towers ++ [tower_copy]
           | Return None => nearby_towers
           | Raise _ => nearby_towers
           end
         else nearby_towers)
  end.

(** [t.get('positionAlongRoute', 0)], a number on every appended copy. *)
Definition position_key (t : tower_dict) : R :=
  match t !! "positionAlongRoute" with
  | Some (PyNum x) => x
  | _ => 0
  end.

(** The body of the outer [try]. *)
Definition find_towers_try (route_coords towers max_distance_meters : pyval)
    : exn (list tower_dict) :=
  route_line ← LineString route_coords;
  let route_length := line_length route_line in
  max_m ← py_float max_distance_meters;
  let max_dist_degrees_approx := max_m / 111000 in
  ts ← py_iter towers;
  nearby_towers ← scan_towers route_line route_length
                    max_dist_degrees_approx max_m ts [];
  Return (sorted (key_lt position_key) nearby_towers).

Definition find_towers_near_route_shapely
    (route_coords towers max_distance_meters : pyval)
    : exn (list tower_dict) :=
  if negb (py_truthy route_coords) then Return []
  else
    n ← py_len route_coords;
    if bool_decide (n < 2)%nat then Return []
    else if negb (py_truthy towers) then Return []
    else Return (except_Exception
                   (find_towers_try route_coords towers max_distance_meters)
                   []).

(** ** [tower_service.py]: towers along a route *)

Definition MAX_TOWERS_ALONG_ROUTE : nat := 200.

(** [int(i * (n / MAX_TOWERS_ALONG_ROUTE))] for [i] in
    [range(MAX_TOWERS_ALONG_ROUTE)], the division taken exactly. *)
Definition sample_indices (n : nat) : list nat :=
  (λ i, i * n / MAX_TOWERS_ALONG_ROUTE)%nat <$> seq 0 MAX_TOWERS_ALONG_ROUTE.

(** [[nearby[index] for index in sample_indices]]. *)
Definition sampled_towers {A} (nearby : list A) : exn (list A) :=
  mapM (λ index, match nearby !! index with
                 | Some t => Return t
                 | None => Raise IndexError
                 end)
       (sample_indices (length nearby)).

Definition find_towers_along_route
    (route_coordinates area_towers max_distance_meters : pyval)
    : exn (list tower_dict) :=
  if negb (py_truthy route_coordinates) || negb (py_truthy area_towers)
  then Return []
  else
    (* the log line formats [len(route_coordinates)] and [len(area_towers)] *)
    _ ← py_len route_coordinates;
    _ ← py_len area_towers;
    nearby_cell_towers ← find_towers_near_route_shapely
                           route_coordinates area_towers max_distance_meters;
    let num_nearby_towers := length nearby_cell_towers in
    if bool_decide (MAX_TOWERS_ALONG_ROUTE < num_nearby_towers)%nat
    then sampled_towers nearby_cell_towers
    else Return nearby_cell_towers.

(** ** [routing_service.py]: scoring the route alternatives *)

Definition TOWER_SEARCH_BUFFER : R := 0.1.
Definition TOWER_PROXIMITY_METERS : R := 2500.

(** A parsed route alternative, as [_parse_graphhopper_path] builds it:
    [coordinates] is [route["geometry"]["coordinates"]], whatever the
    routing provider sent there; the duration is always present. *)
Record candidate_route : Type := {
  coordinates : pyval;
  route_duration : R;
  route_distance : R
}.

(** An entry of [routes_with_scores] before normalisation. *)
Record route_score : Type := {
  route : candidate_route;
  towers : list tower_dict;
  tower_count : nat;
  avg_signal : R;
  duration : R;
  index : nat
}.

(** [tower.get("averageSignal", -120)] as a term of the sum. *)
Definition tower_signal (tower : tower_dict) : exn R :=
  match tower !! "averageSignal" with
  | None => Return (-120)
  | Some v => py_float v
  end.

(** [sum(tower.get("averageSignal", -120) for tower in towers)], from the
    accumulator [acc]. *)
Fixpoint signal_sum (acc : R) (towers_along_route : list tower_dict) : exn R :=
  match towers_along_route with
  | [] => Return acc
  | tower :: rest => s ← tower_signal tower; signal_sum (acc + s) rest
  end.

(** The average signal of a route: [-120] when no tower lies along it. *)
Definition average_signal (towers_along_route : list tower_dict) : exn R :=
  let tower_count := length towers_along_route in
  if bool_decide (0 < tower_count)%nat then
    signal_sum ← signal_sum 0 towers_along_route;
    Return (signal_sum / INR tower_count)
  else Return (-120).

(** One round of the scoring loop. *)
Definition score_route (index : nat) (r : candidate_route)
    (towers_in_area : pyval) : exn route_score :=
  let route_coordinates := coordinates r in
  towers_along_route ← find_towers_along_route route_coordinates
                         towers_in_area (PyNum TOWER_PROXIMITY_METERS);
  avg_signal_strength ← average_signal towers_along_route;
  Return {| route := r;
            towers := towers_along_route;
            tower_count := length towers_along_route;
            avg_signal := avg_signal_strength;
            duration := route_duration r;
            index := index |}.

(** [for index, route in enumerate(alternative_routes)], from [index]. *)
Fixpoint score_routes (index : nat) (alternative_routes : list candidate_route)
    (towers_in_area : pyval) : exn (list route_score) :=
  match alternative_routes with
  | [] => Return []
  | r :: rest =>
      s ← score_route index r towers_in_area;
      ss ← score_routes (S index) rest towers_in_area;
      Return (s :: ss)
  end.

(** ** Normalisation *)

(** [min(...)] and [max(...)] of a generator: a [ValueError] when empty. *)
Definition py_min (l : list R) : exn R :=
  match l with
  | [] => Raise ValueError
  | x :: l' => Return (foldl Rmin x l')
  end.

Definition py_max (l : list R) : exn R :=
  match l with
  | [] => Raise ValueError
  | x :: l' => Return (foldl Rmax x l')
  end.

(** An entry of [routes_with_scores] after normalisation. *)
Record scored_route : Type := {
  score : route_score;
  norm_duration : R;
  norm_signal : R;
  balanced_score : R
}.

Definition normalize_one (min_duration duration_range min_signal signal_range : R)
    (route_score : route_score) : scored_route :=
  let norm_duration :=
    1 - Rmax 0 (Rmin 1 ((duration route_score - min_duration) / duration_range)) in
  let norm_signal :=
    Rmax 0 (Rmin 1 ((avg_signal route_score - min_signal) / signal_range)) in
  {| score := route_score;
     norm_duration := norm_duration;
     norm_signal := norm_signal;
     balanced_score := norm_duration * 0.5 + norm_signal * 0.5 |}.

Definition normalize_scores (routes_with_scores : list route_score)
    : exn (list scored_route) :=
  min_duration ← py_min (duration <$> routes_with_scores);
  max_duration ← py_max (duration <$> routes_with_scores);
  let duration_range := Rmax 1 (max_duration - min_duration) in
  min_signal ← py_min (avg_signal <$> routes_with_scores);
  max_signal ← py_max (avg_signal <$> routes_with_scores);
  let signal_range := Rmax 1 (max_signal - min_signal) in
  Return (normalize_one min_duration duration_range min_signal signal_range
            <$> routes_with_scores).

(** ** Ranking and the diversity pass *)

(** [key=lambda x: x["duration"]]. *)
Definition duration_lt : scored_route → scored_route → bool :=
  key_lt (λ x, duration (score x)).

(** [key=lambda x: (-x["avg_signal"], -x["tower_count"])]: tuples compare
    on the first component where they differ. *)
Definition signal_lt (x y : scored_route) : bool :=
  if decide (- avg_signal (score x) = - avg_signal (score y))
  then bool_decide (- Z.of_nat (tower_count (score x))
                    < - Z.of_nat (tower_count (score y)))%Z
  else bool_decide (- avg_signal (score x) < - avg_signal (score y)).

(** [key=lambda x: -x["balanced_score"]]. *)
Definition balanced_lt : scored_route → scored_route → bool :=
  key_lt (λ x, - balanced_score x).

(** The loop over [ranking[1:]]: the first alternative whose index is not
    selected yet. *)
Definition first_unselected (selected_route_indices : gset nat)
    (alternatives : list scored_route) : option scored_route :=
  List.find (λ alt, bool_decide (index (score alt) ∉ selected_route_indices))
            alternatives.

(** A pick that moves to the next unselected alternative of its ranking
    when its index is taken, and stays when there is none. *)
Definition diversify (selected_route_indices : gset nat)
    (ranking : list scored_route) : option scored_route :=
  match ranking with
  | [] => None
  | top :: alternatives =>
      if bool_decide (index (score top) ∈ selected_route_indices) then
        match first_unselected selected_route_indices alternatives with
        | Some alt => Some alt
        | None => Some top
        end
      else Some top
  end.

Definition add_index (pick : option scored_route)
    (selected_route_indices : gset nat) : gset nat :=
  match pick with
  | Some p => {[ index (score p) ]} ∪ selected_route_indices
  | None => selected_route_indices
  end.

(** The three entries of [final_route_selection]; [None] stands for the
    placeholder [{"route": None, "towers": []}]. *)
Record final_selection : Type := {
  pick_fastest : option scored_route;
  pick_cell_coverage : option scored_route;
  pick_balanced : option scored_route
}.

Definition final_route_selection (routes_with_scores : list scored_route)
    : final_selection :=
  let routes_sorted_by_duration := sorted duration_lt routes_with_scores in
  let selected_fastest_route := head routes_sorted_by_duration in
  let routes_sorted_by_signal := sorted signal_lt routes_with_scores in
  let routes_sorted_by_balanced := sorted balanced_lt routes_with_scores in
  let selected_route_indices := add_index selected_fastest_route ∅ in
  let current_cell_route :=
    diversify selected_route_indices routes_sorted_by_signal in
  let selected_route_indices :=
    add_index current_cell_route selected_route_indices in
  let current_balanced_route :=
    diversify selected_route_indices routes_sorted_by_balanced in
  {| pick_fastest := selected_fastest_route;
     pick_cell_coverage := current_cell_route;
     pick_balanced := current_balanced_route |}.

(** ** The selection result *)

(** [{"route": ..., "towers": [...]}]. *)
Record selection_entry : Type := {
  entry_route : option candidate_route;
  entry_towers : list tower_dict
}.

Record SelectionResult : Type := {
  fastest : selection_entry;
  cell_coverage : selection_entry;
  balanced : selection_entry
}.

Definition no_route : selection_entry :=
  {| entry_route := None; entry_towers := [] |}.

Definition default_empty_routes : SelectionResult :=
  {| fastest := no_route; cell_coverage := no_route; balanced := no_route |}.

Definition structure_entry (pick : option scored_route) : selection_entry :=
  match pick with
  | Some p => {| entry_route := Some (route (score p));
                 entry_towers := towers (score p) |}
  | None => no_route
  end.

Definition structure_output (final : final_selection) : SelectionResult :=
  {| fastest := structure_entry (pick_fastest final);
     cell_coverage := structure_entry (pick_cell_coverage final);
     balanced := structure_entry (pick_balanced final) |}.

Definition _select_optimized_routes (alternative_routes : list candidate_route)
    (towers_in_area : pyval) : exn SelectionResult :=
  match alternative_routes with
  | [] => Return default_empty_routes
  | _ :: _ =>
      routes_with_scores ← score_routes 0 alternative_routes towers_in_area;
      match routes_with_scores with
      | [] => Return default_empty_routes
      | _ :: _ =>
          routes_with_scores ← normalize_scores routes_with_scores;
          Return (structure_output (final_route_selection routes_with_scores))
      end
  end.

(** ** [routing_service.py]: the orchestrator *)

Inductive error_code : Type :=
| Error
| PointNotFound
| NoRoute
| DistanceLimitExceeded.

(** [{"name": ..., "location": [lng, lat]}]. *)
Record waypoint : Type := {
  waypoint_name : string;
  location : point
}.

(** What [_calculate_graphhopper_routes] returns: [code] is ["Ok"] with the
    routes and the waypoints, or a failure code with a message. *)
Inductive routing_response : Type :=
| RoutingOk (routes : list candidate_route) (waypoints : list waypoint)
| RoutingFailure (code : error_code) (message : string).

(** What [get_cell_towers] returns. *)
Record towers_response : Type := {
  response_towers : list tower_dict;
  response_source : string
}.

(** What [_get_optimized_route] returns: a failure with its code and
    message, or the result with code ["Ok"]. *)
Inductive response : Type :=
| Failure (code : error_code) (message : string)
| Success (routes : list candidate_route) (waypoints : list waypoint)
    (towers : list tower_dict) (optimization_type : string)
    (tower_data_source : string).

(** A call to an external provider, with its arguments. *)
Inductive provider_call : Type :=
| RoutingCall (start_lat start_lng end_lat end_lng : R)
| TowerCall (min_latitude min_longitude max_latitude max_longitude : R).

(** Computations that call the providers and may raise: the calls made so
    far are threaded through. *)
Definition io (A : Type) : Type := list provider_call → exn A * list provider_call.

#[global] Instance io_ret : MRet io := λ A a calls, (Return a, calls).
#[global] Instance io_bind : MBind io := λ A B f m calls,
  match m calls with
  | (Return a, calls') => f a calls'
  | (Raise e, calls') => (Raise e, calls')
  end.

(** A computation that calls no provider. *)
Definition lift_exn {A} (m : exn A) : io A := λ calls, (m, calls).

(** [optimized_route_selection.get(key)]. *)
Definition selection_get (selection : SelectionResult) (key : string)
    : option selection_entry :=
  if decide (key = "fastest") then Some (fastest selection)
  else if decide (key = "cell_coverage") then Some (cell_coverage selection)
  else if decide (key = "balanced") then Some (balanced selection)
  else None.

(** An entry that is present and holds a route. *)
Definition has_route (info : option selection_entry) : option selection_entry :=
  match info with
  | Some entry =>
      match entry_route entry with
      | Some _ => Some entry
      | None => None
      end
  | None => None
  end.

(** Steps 3 and 4 of [_get_optimized_route]: the entry of the requested
    type, the fastest one when that has no route, and the result. *)
Definition select_response (optimized_route_selection : SelectionResult)
    (optimization_type : string) (waypoints : list waypoint)
    (tower_data_source_info : string) : response :=
  let selected_route_information :=
    match has_route (selection_get optimized_route_selection optimization_type) with
    | Some info => Some info
    | None => has_route (selection_get optimized_route_selection "fastest")
    end in
  match selected_route_information with
  | Some {| entry_route := Some final_route;
            entry_towers := final_towers_along_route |} =>
      Success [final_route] waypoints final_towers_along_route
        optimization_type tower_data_source_info
  | _ =>
      Failure NoRoute ("Could not determine any suitable route for '"
                       +:+ optimization_type +:+ "'.")
  end.

(** The great-circle distance of the precheck, in kilometres. *)
Definition precheck_distance_km (start_lat start_lng end_lat end_lng : R)
    : exn R :=
  let lat1 := start_lat * (PI / 180) in
  let lng1 := start_lng * (PI / 180) in
  let lat2 := end_lat * (PI / 180) in
  let lng2 := end_lng * (PI / 180) in
  let a := haversine_a lat1 lng1 lat2 lng2 in
  s ← math_sqrt a;
  h ← math_asin s;
  let c := 2 * h in
  let r := 6371 in
  Return (r * c).

Section Orchestrator.

(** The two external collaborators. *)
Variable _calculate_graphhopper_routes : R → R → R → R → routing_response.
Variable get_cell_towers : R → R → R → R → towers_response.

Definition call_routing (start_lat start_lng end_lat end_lng : R)
    : io routing_response := λ calls,
  (Return (_calculate_graphhopper_routes start_lat start_lng end_lat end_lng),
   calls ++ [RoutingCall start_lat start_lng end_lat end_lng]).

Definition call_towers (min_latitude min_longitude max_latitude max_longitude : R)
    : io towers_response := λ calls,
  (Return (get_cell_towers min_latitude min_longitude max_latitude max_longitude),
   calls ++ [TowerCall min_latitude min_longitude max_latitude max_longitude]).

(** [_get_optimized_route] after the distance precheck. *)
Definition fetch_and_select (start_lat start_lng end_lat end_lng : R)
    (optimization_type : string) : io response :=
  route_alternatives_response ← call_routing start_lat start_lng end_lat end_lng;
  match route_alternatives_response with
  | RoutingFailure code message => mret (Failure code message)
  | RoutingOk [] _ =>
      mret (Failure NoRoute "No routes found between the specified points.")
  | RoutingOk alternative_routes waypoints =>
      let min_latitude := Rmin start_lat end_lat - TOWER_SEARCH_BUFFER in
      let max_latitude := Rmax start_lat end_lat + TOWER_SEARCH_BUFFER in
      let min_longitude := Rmin start_lng end_lng - TOWER_SEARCH_BUFFER in
      let max_longitude := Rmax start_lng end_lng + TOWER_SEARCH_BUFFER in
      cell_towers_data ← call_towers min_latitude min_longitude
                           max_latitude max_longitude;
      let all_cell_towers_in_area :=
        PyList (PyDict <$> response_towers cell_towers_data) in
      let tower_data_source_info := response_source cell_towers_data in
      optimized_route_selection ←
        lift_exn (_select_optimized_routes alternative_routes
                    all_cell_towers_in_area);
      mret (select_response optimized_route_selection optimization_type
              waypoints tower_data_source_info)
  end.

Definition _get_optimized_route (start_lat start_lng end_lat end_lng : R)
    (optimization_type : string) : io response :=
  distance_km ← lift_exn (precheck_distance_km start_lat start_lng
                            end_lat end_lng);
  if decide (900 < distance_km) then
    mret (Failure DistanceLimitExceeded
            "Route exceeds the maximum waypoint distance limit of the GraphHopper API free tier.")
  else fetch_and_select start_lat start_lng end_lat end_lng optimization_type.

End Orchestrator.

(** ** [routing_service.py]: the public functions *)

Section PublicFunctions.
Variable _calculate_graphhopper_routes : R → R → R → R → routing_response.
Variable get_cell_towers : R → R → R → R → towers_response.

Definition get_route_fastest (start_lat start_lng end_lat end_lng : R)
    : io response :=
  _get_optimized_route _calculate_graphhopper_routes get_cell_towers
    start_lat start_lng end_lat end_lng "fastest".

Definition get_route_cell_coverage (start_lat start_lng end_lat end_lng : R)
    : io response :=
  _get_optimized_route _calculate_graphhopper_routes get_cell_towers
    start_lat start_lng end_lat end_lng "cell_coverage".

Definition get_route_balanced (start_lat start_lng end_lat end_lng : R)
    : io response :=
  _get_optimized_route _calculate_graphhopper_routes get_cell_towers
    start_lat start_lng end_lat end_lng "balanced".

End PublicFunctions.

(** ** More operations on Python values

    The values that [_parse_graphhopper_path] and
    [_calculate_graphhopper_routes] read come from decoded JSON.  A number
    stands for an [int] where it is integral: the model does not keep the
    float [2.0] apart from the int [2]. *)

(** [v.get(k, fallback)]: only a dict has the method. *)
Definition py_get (v : pyval) (k : string) (fallback : pyval) : exn pyval :=
  match v with
  | PyDict d => Return (default fallback (d !! k))
  | _ => Raise AttributeError
  end.

(** [v[i]] for a non-negative integer [i]; the keys of a dict are strings. *)
Definition py_item (v : pyval) (i : nat) : exn pyval :=
  match v with
  | PyList xs =>
      match xs !! i with
      | Some x => Return x
      | None => Raise IndexError
      end
  | PyStr s =>
      match String.get i s with
      | Some c => Return (PyStr (String c EmptyString))
      | None => Raise IndexError
      end
  | PyDict _ => Raise KeyError
  | PyNone | PyNum _ => Raise TypeError
  end.

(** [v[-1]]. *)
Definition py_last (v : pyval) : exn pyval :=
  match v with
  | PyList xs =>
      match last xs with
      | Some x => Return x
      | None => Raise IndexError
      end
  | PyStr s =>
      match last (String.list_ascii_of_string s) with
      | Some c => Return (PyStr (String c EmptyString))
      | None => Raise IndexError
      end
  | PyDict _ => Raise KeyError
  | PyNone | PyNum _ => Raise TypeError
  end.

(** [max(0, x)] and [min(x, n)] as Python computes them: the first argument
    unless the second is strictly better. *)
Definition max_with_0 (x : R) : R := if decide (0 < x) then x else 0.
Definition min_with_len (x : R) (n : nat) : R :=
  if decide (INR n < x) then INR n else x.

(** A bound of a slice has to be an integer. *)
Definition slice_bound (x : R) : exn nat :=
  if decide (IZR (Int_part x) = x) then Return (Z.to_nat (Int_part x))
  else Raise TypeError.

(** [v[start:stop]] for bounds between 0 and [len(v)]. *)
Definition py_slice (v : pyval) (start stop : nat) : exn pyval :=
  match v with
  | PyList xs => Return (PyList (take (stop - start) (drop start xs)))
  | PyStr s => Return (PyStr (String.substring start (stop - start) s))
  | PyDict _ | PyNone | PyNum _ => Raise TypeError
  end.

(** A dict display [{k1: v1, ...}]. *)
Definition py_dict (items : list (string * pyval)) : pyval :=
  PyDict (list_to_map items).

(** ** [routing_service.py]: parsing a GraphHopper path *)

(** The coordinates of one step: the slice of the route's coordinates that
    the instruction's [interval] names, both bounds clamped to the length
    of the route. *)
Definition segment_coordinates (coordinates interval : pyval) : exn pyval :=
  if py_truthy interval then
    n ← py_len interval;
    if bool_decide (n = 2%nat) && py_truthy coordinates then
      first ← py_item interval 0;
      first ← py_float first;
      len ← py_len coordinates;
      let start_index := min_with_len (max_with_0 first) len in
      second ← py_item interval 1;
      second ← py_float second;
      let end_index := min_with_len (max_with_0 (second + 1)) len in
      start ← slice_bound start_index;
      stop ← slice_bound end_index;
      py_slice coordinates start stop
    else Return (PyList [])
  else Return (PyList []).

(** The body of the loop over the instructions: one step. *)
Definition parse_instruction (coordinates instruction : pyval) : exn pyval :=
  interval ← py_get instruction "interval" (PyList [PyNum 0; PyNum 0]);
  segment ← segment_coordinates coordinates interval;
  name ← py_get instruction "street_name" (PyStr "");
  distance ← py_get instruction "distance" (PyNum 0);
  time ← py_get instruction "time" (PyNum 0);
  time ← py_float time;
  sign ← py_get instruction "sign" (PyNum 0);
  text ← py_get instruction "text" (PyStr "");
  exit_number ← py_get instruction "exit_number" PyNone;
  turn_angle ← py_get instruction "turn_angle" PyNone;
  Return (py_dict
    [("name", name);
     ("distance", distance);
     ("duration", PyNum (time / 1000));
     ("geometry", py_dict [("coordinates", segment);
                           ("type", PyStr "LineString")]);
     ("maneuver", py_dict [("type", sign);
                           ("modifier", text);
                           ("exit_number", exit_number);
                           ("turn_angle", turn_angle)]);
     ("instruction_text", text);
     ("interval", interval)]).

(** The legs of a route: one leg with a step per instruction when the path
    has a list of instructions, no leg otherwise. *)
Definition parse_legs (path_data coordinates : pyval) : exn (list pyval) :=
  has_instructions ← py_contains "instructions" path_data;
  if has_instructions : bool then
    instructions ← py_getitem path_data "instructions";
    match instructions with
    | PyList l =>
        steps ← mapM (parse_instruction coordinates) l;
        Return [py_dict [("steps", PyList steps)]]
    | _ => Return []
    end
  else Return [].

Definition _parse_graphhopper_path (path_data : pyval) (profile : string)
    : exn (option tower_dict) :=
  has_points ← py_contains "points" path_data;
  has_coordinates ←
    (if has_points : bool then
       points ← py_getitem path_data "points";
       py_contains "coordinates" points
     else Return false);
  if has_coordinates : bool then
    points ← py_getitem path_data "points";
    coordinates ← py_getitem points "coordinates";
    distance ← py_get path_data "distance" (PyNum 0);
    time ← py_get path_data "time" (PyNum 0);
    time ← py_float time;
    weight ← py_get path_data "weight" (PyNum 0);
    ascend ← py_get path_data "ascend" (PyNum 0);
    descend ← py_get path_data "descend" (PyNum 0);
    legs ← parse_legs path_data coordinates;
    Return (Some (list_to_map
      [("geometry", py_dict [("coordinates", coordinates);
                             ("type", PyStr "LineString")]);
       ("legs", PyList legs);
       ("distance", distance);
       ("duration", PyNum (time / 1000));
       ("weight", weight);
       ("weight_name", PyStr "routability");
       ("ascend", ascend);
       ("descend", descend);
       ("profile_used", PyStr profile)]))
  else Return None.

(** ** [routing_service.py]: the GraphHopper request

    The HTTP request is the one step of [_calculate_graphhopper_routes]
    that leaves the program.  Its outcome is a value of [http_outcome]: the
    decoded JSON body when the request and [raise_for_status] succeed, or
    the exception that the [try] block receives. *)

Definition DEFAULT_ALTERNATIVES : Z := 5.
Definition MAX_ALTERNATIVES : Z := 10.

(** The parameters of the request that depend on the arguments. *)
Record route_request : Type := {
  request_start : R * R;
  request_end : R * R;
  max_paths : Z;
  request_key : string
}.

Inductive http_outcome : Type :=
| HttpJson (data : pyval)
    (** [response.json()] after a response without an error status *)
| HttpTimeout
    (** [requests.exceptions.Timeout] *)
| HttpRequestException (status_code : option Z) (error_body : exn pyval)
    (** another [RequestException]; [status_code] is the value of
        [e.response.status_code if e.response else None] and [error_body]
        what [e.response.json()] gives *)
| HttpException
    (** any other exception *).

(** [{"name": ..., "location": [lng, lat]}] as the provider builds it. *)
Record snapped_waypoint : Type := {
  snapped_name : string;
  snapped_location : pyval * pyval
}.

(** The dict that [_calculate_graphhopper_routes] returns. *)
Inductive graphhopper_response : Type :=
| GraphhopperOk (routes : list tower_dict) (waypoints : list snapped_waypoint)
| GraphhopperFailure (code : error_code) (message : string).

Section GraphHopper.

(** [Config.GRAPHHOPPER_KEY]: the environment variable, if it is set. *)
Variable GRAPHHOPPER_KEY : option string.
Variable requests_get : route_request → http_outcome.
(** [str(v)] of a value that is not a string. *)
Variable py_repr : pyval → string.

(** A value inside an f-string. *)
Definition py_format (v : pyval) : string :=
  match v with
  | PyStr s => s
  | _ => py_repr v
  end.

(** The branch for a response without paths. *)
Definition no_paths_response (data : pyval) : exn graphhopper_response :=
  error_message ← py_get data "message" (PyStr "No route found");
  cannot_find ← py_contains "Cannot find point" error_message;
  if cannot_find : bool then
    Return (GraphhopperFailure PointNotFound
      ("Could not find a valid road near the specified start or end point. "
       +:+ py_format error_message))
  else
    not_connected ←
      py_contains "Connection between locations not found" error_message;
    if not_connected : bool then
      Return (GraphhopperFailure NoRoute
        "No route found between the specified start and end points.")
    else Return (GraphhopperFailure NoRoute "No route found.").

(** [[r for r in map(_parse_graphhopper_path, paths) if r]]: a parsed route
    is a dict with nine keys, hence truthy. *)
Definition parse_paths (paths : list pyval) : exn (list tower_dict) :=
  parsed ← mapM (λ path, _parse_graphhopper_path path "car") paths;
  Return (omap Datatypes.id parsed).

(** The start and end waypoints: the first and the last of the snapped
    waypoints of the response, or the requested points. *)
Definition snapped_waypoints (data : pyval)
    (start_lat start_lng end_lat end_lng : R) : exn (list snapped_waypoint) :=
  snapped ← py_get data "snapped_waypoints" (PyDict ∅);
  coordinates ← py_get snapped "coordinates"
                  (PyList [PyList [PyNum start_lng; PyNum start_lat]]);
  origin_coords ← py_item coordinates 0;
  snapped ← py_get data "snapped_waypoints" (PyDict ∅);
  coordinates ← py_get snapped "coordinates"
                  (PyList [PyList [PyNum end_lng; PyNum end_lat]]);
  destination_coords ← py_last coordinates;
  origin_lng ← py_item origin_coords 0;
  origin_lat ← py_item origin_coords 1;
  destination_lng ← py_item destination_coords 0;
  destination_lat ← py_item destination_coords 1;
  Return [ {| snapped_name := "Origin";
              snapped_location := (origin_lng, origin_lat) |};
           {| snapped_name := "Destination";
              snapped_location := (destination_lng, destination_lat) |} ].

(** The [try] block after the request. *)
Definition process_response (data : pyval)
    (start_lat start_lng end_lat end_lng : R) : exn graphhopper_response :=
  has_paths ← py_contains "paths" data;
  no_paths ← (if has_paths : bool then
                paths ← py_getitem data "paths";
                Return (negb (py_truthy paths))
              else Return true);
  if no_paths : bool then no_paths_response data
  else
    paths ← py_getitem data "paths";
    _ ← py_len paths;
    paths ← py_iter paths;
    parsed_routes ← parse_paths paths;
    match parsed_routes with
    | [] =>
        Return (GraphhopperFailure Error
          "Failed to process route data received from routing service.")
    | _ :: _ =>
        waypoints ← snapped_waypoints data start_lat start_lng end_lat end_lng;
        Return (GraphhopperOk parsed_routes waypoints)
    end.

(** The handler of a [RequestException] that is not a timeout. *)
Definition request_exception_response (status_code : option Z)
    (error_body : exn pyval) : exn graphhopper_response :=
  match status_code with
  | None => Raise TypeError
  | Some status =>
      if decide (status = 401%Z) then
        Return (GraphhopperFailure Error
          "Routing service authentication failed (Invalid API Key?).")
      else if decide (status = 400%Z) then
        body ← error_body;
        detail ← py_get body "message" (PyStr "Bad Request");
        Return (GraphhopperFailure Error
          ("Invalid request to routing service: " +:+ py_format detail))
      else if decide (status = 429%Z) then
        Return (GraphhopperFailure Error
          "Routing service rate limit exceeded. Please try again later.")
      else if decide (500 <= status)%Z then
        Return (GraphhopperFailure Error
          "Routing service is currently unavailable or encountered an internal error.")
      else Return (GraphhopperFailure Error "Routing service request failed")
  end.

Definition unexpected_error : graphhopper_response :=
  GraphhopperFailure Error
    "An unexpected error occurred during route calculation.".

Definition graphhopper_request (start_lat start_lng end_lat end_lng : R)
    (alternatives : Z) (key : string) : route_request :=
  {| request_start := (start_lat, start_lng);
     request_end := (end_lat, end_lng);
     max_paths := Z.min (Z.max 1 alternatives) MAX_ALTERNATIVES;
     request_key := key |}.

Definition _calculate_graphhopper_routes
    (start_lat start_lng end_lat end_lng : R) (alternatives : Z)
    : exn graphhopper_response :=
  match GRAPHHOPPER_KEY with
  | None | Some EmptyString =>
      Return (GraphhopperFailure Error
        "Routing service configuration error: API key missing.")
  | Some key =>
      match requests_get (graphhopper_request start_lat start_lng
                            end_lat end_lng alternatives key) with
      | HttpJson data =>
          Return (except_Exception
                    (process_response data start_lat start_lng end_lat end_lng)
                    unexpected_error)
      | HttpTimeout =>
          Return (GraphhopperFailure Error "Routing service request timed out.")
      | HttpRequestException status_code error_body =>
          request_exception_response status_code error_body
      | HttpException => Return unexpected_error
      end
  end.

End GraphHopper.

(** ** [routing_routes.py]: the endpoint [/routing/calculate]

    The query string is a map from names to strings.  [float] is the
    conversion of a string to a number, [None] where Python raises a
    [ValueError].  [str.lower] is modelled on the ASCII letters, which is
    all that the comparison with the three route types depends on. *)

Definition ascii_lower (c : Ascii.ascii) : Ascii.ascii :=
  let n := Ascii.nat_of_ascii c in
  if (65 <=? n)%nat && (n <=? 90)%nat then Ascii.ascii_of_nat (n + 32) else c.

Fixpoint lower (s : string) : string :=
  match s with
  | EmptyString => EmptyString
  | String c s' => String (ascii_lower c) (lower s')
  end.

(** The JSON body of a response of the endpoint. *)
Inductive api_body : Type :=
| ErrorBody (error : string)
| ResultBody (result : response).

Definition valid_route_types : list string :=
  ["fastest"; "cell_coverage"; "balanced"].

(** A query parameter that is present and not empty. *)
Definition provided (value : option string) : bool :=
  match value with
  | Some (String _ _) => true
  | Some EmptyString | None => false
  end.

(** The route type of the request after defaulting. *)
Definition requested_route_type (args : gmap string string) : string :=
  let route_type := lower (default "balanced" (args !! "route_type")) in
  if bool_decide (route_type ∈ valid_route_types) then route_type
  else "balanced".

(** The HTTP status for a failure of the routing service. *)
Definition failure_status (code : error_code) : nat :=
  match code with
  | Error => 503
  | PointNotFound | NoRoute => 400
  | DistanceLimitExceeded => 400
  end.

Section RoutingEndpoint.
Variable float : string → option R.
Variable _calculate_graphhopper_routes : R → R → R → R → routing_response.
Variable get_cell_towers : R → R → R → R → towers_response.

(** The four conversions of the first [try] block. *)
Definition coordinates_of (start_lat_str start_lng_str end_lat_str
    end_lng_str : option string) : option (R * R * R * R) :=
  start_lat ← start_lat_str ≫= float;
  start_lng ← start_lng_str ≫= float;
  end_lat ← end_lat_str ≫= float;
  end_lng ← end_lng_str ≫= float;
  Some (start_lat, start_lng, end_lat, end_lng).

Definition calculate_route (args : gmap string string)
    : list provider_call → (api_body * nat) * list provider_call := λ calls,
  let start_lat_str := args !! "start_lat" in
  let start_lng_str := args !! "start_lng" in
  let end_lat_str := args !! "end_lat" in
  let end_lng_str := args !! "end_lng" in
  if negb (forallb provided
             [start_lat_str; start_lng_str; end_lat_str; end_lng_str]) then
    ((ErrorBody
        "Missing required coordinates (start_lat, start_lng, end_lat, end_lng)",
      400%nat), calls)
  else
    match coordinates_of start_lat_str start_lng_str end_lat_str
            end_lng_str with
    | None => ((ErrorBody "Coordinates must be valid numbers", 400%nat), calls)
    | Some (start_lat, start_lng, end_lat, end_lng) =>
        let route_type := requested_route_type args in
        let service :=
          if decide (route_type = "cell_coverage") then
            get_route_cell_coverage _calculate_graphhopper_routes
              get_cell_towers
          else if decide (route_type = "fastest") then
            get_route_fastest _calculate_graphhopper_routes get_cell_towers
          else
            get_route_balanced _calculate_graphhopper_routes get_cell_towers in
        match service start_lat start_lng end_lat end_lng calls with
        | (Return (Failure code message), calls') =>
            ((ErrorBody message, failure_status code), calls')
        | (Return result, calls') => ((ResultBody result, 200%nat), calls')
        | (Raise _, calls') =>
            ((ErrorBody "An unexpected error occurred during route calculation.",
              500%nat), calls')
        end
    end.

End RoutingEndpoint.

(** ** [tower_service.py]: mock towers

    The [random] module is a source of draws: each draw returns a value and
    the source after the draw.  [time_time] is [int(time.time())]. *)

Section MockTowers.
Context {rng : Type}.
Variable random_random : rng → R * rng.
Variable random_randint : Z → Z → rng → Z * rng.
Variable random_choice : list string → rng → string * rng.
Variable time_time : Z.

Definition radio_technologies : list string :=
  ["LTE"; "LTE"; "LTE"; "5G"; "5G"; "UMTS"; "GSM"].

(** The body of the loop: tower number [i]. *)
Definition mock_tower (min_latitude min_longitude latitude_range
    longitude_range : R) (i : nat) (g : rng) : tower_dict * rng :=
  let '(u, g) := random_random g in
  let latitude := min_latitude + u * latitude_range in
  let '(v, g) := random_random g in
  let longitude := min_longitude + v * longitude_range in
  let '(signal_strength_dbm, g) := random_randint (-115) (-65) g in
  let '(radio_type, g) := random_choice radio_technologies g in
  let '(range_meters, g) :=
    if decide (radio_type = "5G") then random_randint 500 2000 g
    else random_randint 1000 5000 g in
  let '(net, g) := random_randint 10 410 g in
  let '(area, g) := random_randint 1000 60000 g in
  let '(cell, g) := random_randint 10000 999999 g in
  let '(samples, g) := random_randint 1 50 g in
  let '(age, g) := random_randint 3600 (86400 * 30) g in
  (list_to_map
     [("id", PyStr ("mock_" +:+ pretty i));
      ("lat", PyNum latitude);
      ("lon", PyNum longitude);
      ("radio", PyStr radio_type);
      ("mcc", PyNum 310);
      ("net", PyNum (IZR net));
      ("area", PyNum (IZR area));
      ("cell", PyNum (IZR cell));
      ("range", PyNum (IZR range_meters));
      ("averageSignal", PyNum (IZR signal_strength_dbm));
      ("samples", PyNum (IZR samples));
      ("updated", PyNum (IZR (time_time - age)))],
   g).

Fixpoint mock_loop (min_latitude min_longitude latitude_range
    longitude_range : R) (indices : list nat) (g : rng)
    : list tower_dict * rng :=
  match indices with
  | [] => ([], g)
  | i :: indices =>
      let '(tower, g) := mock_tower min_latitude min_longitude latitude_range
                           longitude_range i g in
      let '(towers, g) := mock_loop min_latitude min_longitude latitude_range
                            longitude_range indices g in
      (tower :: towers, g)
  end.

Definition _generate_mock_towers (min_latitude min_longitude max_latitude
    max_longitude : R) (num_towers : option Z) (g : rng)
    : list tower_dict * rng :=
  let '(num_towers, g) :=
    match num_towers with
    | None => random_randint 30 80 g
    | Some n => (n, g)
    end in
  let latitude_range := max_latitude - min_latitude in
  let longitude_range := max_longitude - min_longitude in
  if bool_decide (latitude_range <= 0) || bool_decide (longitude_range <= 0)
  then ([], g)
  else mock_loop min_latitude min_longitude latitude_range longitude_range
         (seq 0 (Z.to_nat num_towers)) g.

End MockTowers.

(** * Definitions used by the statements *)

(** ** Haversine *)

(** The central angle the haversine formula computes, in radians. *)
Definition central_angle (lat1 lon1 lat2 lon2 : R) : R :=
  2 * asin (sqrt (haversine_a (lat1 * (PI / 180)) (lon1 * (PI / 180))
                              (lat2 * (PI / 180)) (lon2 * (PI / 180)))).

(** ** Tower records and the proximity search *)

(** A tower record that carries a numeric latitude and longitude. *)
Definition well_formed_tower (d : tower_dict) (lat lon : R) : Prop :=
  d !! "lat" = Some (PyNum lat) ∧ d !! "lon" = Some (PyNum lon).

(** A tower record on which the key tests of the loop raise. *)
Definition not_a_container (v : pyval) : Prop :=
  v = PyNone ∨ ∃ x, v = PyNum x.

(** A route argument that is truthy and has no length. *)
Definition nonzero_number (v : pyval) : Prop := ∃ x, v = PyNum x ∧ x ≠ 0.

(** What one tower adds to [nearby_towers]. *)
Definition kept (route_line : linestring)
    (route_length max_dist_degrees_approx max_distance_meters : R)
    (tower : pyval) : list tower_dict :=
  match tower with
  | PyDict d =>
      match process_tower route_line route_length max_dist_degrees_approx
              max_distance_meters tower with
      | Return (Some c) => [c]
      | _ => []
      end
  | _ => []
  end.

(** The towers the search keeps, in the order of the tower list. *)
Definition kept_towers (line : linestring) (m : R) (ts : list pyval)
    : list tower_dict :=
  ts ≫= kept line (line_length line) (m / 111000) m.

(** [distanceToRoute] of a tower at [(lat, lon)]: the haversine distance to
    its nearest point on the polyline, in metres. *)
Definition distance_to_route (line : linestring) (lat lon : R) : R :=
  let q := nearest_points line (lon, lat) in
  earth_radius * central_angle lat lon q.2 q.1.

(** [positionAlongRoute] of a tower at [(lat, lon)]. *)
Definition position_along_route (line : linestring) (lat lon : R) : R :=
  let q := nearest_points line (lon, lat) in
  clamp01 (if decide (0 < line_length line)
           then line_project line q / line_length line else 0).

(** The copy of tower [d] that the search appends. *)
Definition tower_copy (line : linestring) (d : tower_dict) (lat lon : R)
    : tower_dict :=
  <["positionAlongRoute" := PyNum (position_along_route line lat lon)]>
    (<["distanceToRoute" := PyNum (distance_to_route line lat lon)]> d).

(** The coarse test in degrees, for a search radius of [m] metres. *)
Definition within_prefilter (line : linestring) (m lat lon : R) : Prop :=
  line_distance line (lon, lat) <= m / 111000 * 1.5.

(** Both tests of the search. *)
Definition near_route (line : linestring) (m lat lon : R) : Prop :=
  within_prefilter line m lat lon ∧ distance_to_route line lat lon <= m.

#[global] Instance near_route_dec line m lat lon :
  Decision (near_route line m lat lon) := and_dec _ _.

(** ** Signal strengths *)

(** The signal strength a tower contributes to the average. *)
Definition signal_value (tower : tower_dict) : R :=
  match tower !! "averageSignal" with
  | Some (PyNum x) => x
  | _ => -120
  end.

(** The sum of the signal strengths of a tower list. *)
Fixpoint signal_total (towers : list tower_dict) : R :=
  match towers with
  | [] => 0
  | tower :: rest => signal_value tower + signal_total rest
  end.

(** The arithmetic mean of the signal strengths, [-120] for no tower. *)
Definition mean_signal (towers : list tower_dict) : R :=
  match towers with
  | [] => -120
  | _ :: _ => signal_total towers / INR (length towers)
  end.

(** ** Normalisation and selection *)

(** [m] is the least element of [l]. *)
Definition is_min (m : R) (l : list R) : Prop := m ∈ l ∧ ∀ x, x ∈ l → m <= x.

(** [m] is the greatest element of [l]. *)
Definition is_max (m : R) (l : list R) : Prop := m ∈ l ∧ ∀ x, x ∈ l → x <= m.

(** The range as the code guards it: a range below one becomes one. *)
Definition guarded_range (lo hi : R) : R := Rmax 1 (hi - lo).

(** The range as the specification words it: only a range of zero becomes
    one. *)
Definition zero_guarded_range (lo hi : R) : R :=
  if decide (hi - lo = 0) then 1 else hi - lo.

(** The index of the candidate a scored entry stands for. *)
Definition candidate_index (x : scored_route) : nat := index (score x).

(** The scored entry of route [r] at [index] when no tower is in the area. *)
Definition score_no_towers (index : nat) (r : candidate_route) : route_score :=
  {| route := r; towers := []; tower_count := 0; avg_signal := -120;
     duration := route_duration r; index := index |}.

(** The message of the [NoRoute] failure of the fallback. *)
Definition no_suitable_route_message (optimization_type : string) : string :=
  "Could not determine any suitable route for '" +:+ optimization_type +:+ "'.".

(** ** Inputs of the examples *)

(** A route running north along the meridian from latitude 60, and a tower
    0.034 degrees of longitude to the west of its start. *)
Definition route_north : pyval :=
  PyList [PyList [PyNum 0; PyNum 60]; PyList [PyNum 0; PyNum 61]].

Definition line_north : linestring :=
  {| ls_start := (0, 60); ls_rest := [(0, 61)] |}.

Definition tower_west : tower_dict :=
  <["lat" := PyNum 60]> (<["lon" := PyNum (-0.034)]> ∅).

(** A route along the equator and a tower on its first vertex; the tower
    record carries no signal strength. *)
Definition route_east : pyval :=
  PyList [PyList [PyNum 0; PyNum 0]; PyList [PyNum 1; PyNum 0]].

Definition line_east : linestring :=
  {| ls_start := (0, 0); ls_rest := [(1, 0)] |}.

Definition tower_origin : tower_dict :=
  <["lat" := PyNum 0]> (<["lon" := PyNum 0]> ∅).

Definition copy_origin : tower_dict := tower_copy line_east tower_origin 0 0.

(** 201 towers on the first vertex of the equator route. *)
Definition towers_201 : pyval := PyList (replicate 201 (PyDict tower_origin)).

Definition candidate_east : candidate_route :=
  {| coordinates := route_east; route_duration := 100; route_distance := 1000 |}.

Definition candidate_half : candidate_route :=
  {| coordinates := route_east; route_duration := 100.5; route_distance := 1000 |}.

Definition candidate_slow : candidate_route :=
  {| coordinates := route_east; route_duration := 300; route_distance := 3000 |}.

Definition three_candidates : list candidate_route :=
  [candidate_east; candidate_half; candidate_slow].

Definition three_scores : list route_score :=
  [score_no_towers 0 candidate_east; score_no_towers 1 candidate_half;
   score_no_towers 2 candidate_slow].

(** The normalised entries of [three_scores]: durations 100, 100.5 and
    300, equal signals. *)
Definition three_normed : list scored_route :=
  normalize_one (Rmin (Rmin 100 100.5) 300)
    (Rmax 1 (Rmax (Rmax 100 100.5) 300 - Rmin (Rmin 100 100.5) 300))
    (Rmin (Rmin (-120) (-120)) (-120))
    (Rmax 1 (Rmax (Rmax (-120) (-120)) (-120) - Rmin (Rmin (-120) (-120)) (-120)))
    <$> three_scores.

Definition two_candidates : list candidate_route :=
  [candidate_east; candidate_slow].

Definition two_scores : list route_score :=
  [score_no_towers 0 candidate_east; score_no_towers 1 candidate_slow].

Definition two_normed : list scored_route :=
  normalize_one (Rmin 100 300) (Rmax 1 (Rmax 100 300 - Rmin 100 300))
    (Rmin (-120) (-120)) (Rmax 1 (Rmax (-120) (-120) - Rmin (-120) (-120)))
    <$> two_scores.


(** ** Order of a sorted list *)

(** [x] may stand before [y] in a list sorted by [lt]. *)
Definition not_after {A : Type} (lt : A → A → bool) (x y : A) : Prop :=
  lt y x = false.

(** The key comparison is a strict weak order. *)
Definition strict_weak_order {A : Type} (lt : A → A → bool) : Prop :=
  (∀ x y, lt x y = true → lt y x = false)
  ∧ (∀ x y z, lt x y = true → lt x z = true ∨ lt z y = true).

(** In the order of [positionAlongRoute]. *)
Definition position_le (a b : tower_dict) : Prop :=
  position_key a <= position_key b.

(** ** Numbers *)

(** Whether a value is a number. *)
Definition is_number (v : pyval) : Prop := ∃ x, v = PyNum x.

#[global] Instance is_number_dec v : Decision (is_number v).
Proof.
  destruct v as [|x| | |]; [right | left; by exists x | right ..];
    by intros [? ?].
Defined.

(** ** Selection entries and responses *)

(** An entry that holds route [r] with the towers found along it. *)
Definition entry_for (routes : list candidate_route) (towers_in_area : pyval)
    (entry : selection_entry) : Prop :=
  ∃ r, r ∈ routes
       ∧ entry_route entry = Some r
       ∧ find_towers_along_route (coordinates r) towers_in_area
           (PyNum TOWER_PROXIMITY_METERS) = Return (entry_towers entry).

(** The bounding box of the tower request for a start and an end point. *)
Definition tower_search_box (start_lat start_lng end_lat end_lng : R)
    : provider_call :=
  TowerCall (Rmin start_lat end_lat - TOWER_SEARCH_BUFFER)
            (Rmin start_lng end_lng - TOWER_SEARCH_BUFFER)
            (Rmax start_lat end_lat + TOWER_SEARCH_BUFFER)
            (Rmax start_lng end_lng + TOWER_SEARCH_BUFFER).

(** The response is a success that answers the request for
    [optimization_type] on the alternatives [alternatives]. *)
Definition success_from (alternatives : list candidate_route)
    (waypoints : list waypoint) (all_towers : pyval)
    (optimization_type source : string) (result : response) : Prop :=
  ∃ r towers_along,
    result = Success [r] waypoints towers_along optimization_type source
    ∧ r ∈ alternatives
    ∧ find_towers_along_route (coordinates r) all_towers
        (PyNum TOWER_PROXIMITY_METERS) = Return towers_along.

(** Stand-ins for the two providers. *)
Definition routing_three : R → R → R → R → routing_response :=
  λ _ _ _ _, RoutingOk three_candidates [].

Definition routing_fails : R → R → R → R → routing_response :=
  λ _ _ _ _, RoutingFailure PointNotFound "Cannot find point".

Definition towers_none : R → R → R → R → towers_response :=
  λ _ _ _ _, {| response_towers := []; response_source := "mock" |}.

(** ** Parsed paths *)

(** The Python slice [xs[start:stop]] for bounds within the list. *)
Definition slice {A} (xs : list A) (start stop : nat) : list A :=
  take (stop - start) (drop start xs).

(** An index clamped as [min(max(0, i), n)]. *)
Definition clamp_index (i : Z) (n : nat) : nat :=
  Z.to_nat (Z.min (Z.max 0 i) (Z.of_nat n)).

(** A GeoJSON line string. *)
Definition geojson_line (coordinates : pyval) : pyval :=
  py_dict [("coordinates", coordinates); ("type", PyStr "LineString")].

(** A path of three points with two instructions, as GraphHopper sends it. *)
Definition three_points : list pyval :=
  [PyList [PyNum 0; PyNum 0]; PyList [PyNum 1; PyNum 0];
   PyList [PyNum 2; PyNum 0]].

Definition path_example : gmap string pyval :=
  list_to_map
    [("points", py_dict [("coordinates", PyList three_points)]);
     ("time", PyNum 60000);
     ("distance", PyNum 1500);
     ("instructions",
      PyList [py_dict [("interval", PyList [PyNum 0; PyNum 1]);
                       ("time", PyNum 20000)];
              py_dict [("interval", PyList [PyNum 1; PyNum 2]);
                       ("time", PyNum 40000)]])].

(** ** The GraphHopper request *)

(** The key is configured: set and not empty. *)
Definition configured (key : option string) (k : string) : Prop :=
  key = Some k ∧ k ≠ EmptyString.

(** The waypoints are the origin and the destination, in this order. *)
Definition origin_and_destination (waypoints : list snapped_waypoint) : Prop :=
  ∃ origin destination,
    waypoints = [ {| snapped_name := "Origin"; snapped_location := origin |};
                  {| snapped_name := "Destination";
                     snapped_location := destination |} ].

(** Stand-ins for the request: a response with the example path and a path
    without points; a failure without a response. *)
Definition requests_get_example : route_request → http_outcome :=
  λ _, HttpJson (py_dict [("paths", PyList [PyDict path_example;
                                             PyDict ∅])]).

Definition requests_get_refused : route_request → http_outcome :=
  λ _, HttpRequestException None (Raise ValueError).

(** A response in which the second path is not an object. *)
Definition requests_get_malformed : route_request → http_outcome :=
  λ _, HttpJson (py_dict [("paths", PyList [PyDict path_example; PyNone])]).

Definition repr_stub : pyval → string := λ _, "".

(** ** The endpoint *)

(** The coordinates of a request, converted. *)
Definition request_coordinates (float : string → option R)
    (args : gmap string string) : option (R * R * R * R) :=
  coordinates_of float (args !! "start_lat") (args !! "start_lng")
    (args !! "end_lat") (args !! "end_lng").

Definition coordinate_names : list string :=
  ["start_lat"; "start_lng"; "end_lat"; "end_lng"].

Definition unexpected_error_body : api_body :=
  ErrorBody "An unexpected error occurred during route calculation.".

(** A conversion that knows two numerals. *)
Definition float_example (s : string) : option R :=
  if decide (s = "0") then Some 0
  else if decide (s = "180") then Some 180
  else None.

(** A request from a point to itself, and one to the antipode. *)
Definition args_near : gmap string string :=
  list_to_map [("start_lat", "0"); ("start_lng", "0"); ("end_lat", "0");
               ("end_lng", "0"); ("route_type", "FASTEST")].

Definition args_far : gmap string string :=
  list_to_map [("start_lat", "0"); ("start_lng", "0"); ("end_lat", "0");
               ("end_lng", "180")].

Definition args_incomplete : gmap string string :=
  list_to_map [("start_lat", "0"); ("start_lng", "0"); ("end_lat", "0")].

(** ** Mock towers *)

(** A tower that lies in a box and has a signal strength in a range. *)
Definition tower_in_box (min_latitude min_longitude max_latitude
    max_longitude : R) (tower : tower_dict) : Prop :=
  ∃ lat lon (signal : Z),
    tower !! "lat" = Some (PyNum lat)
    ∧ min_latitude <= lat < max_latitude
    ∧ tower !! "lon" = Some (PyNum lon)
    ∧ min_longitude <= lon < max_longitude
    ∧ tower !! "averageSignal" = Some (PyNum (IZR signal))
    ∧ (-115 <= signal <= -65)%Z.

(** A source of draws that always returns the least value. *)
Definition least_random : () → R * () := λ g, (0, g).
Definition least_randint : Z → Z → () → Z * () := λ a _ g, (a, g).
Definition first_choice : list string → () → string * () :=
  λ l g, (default EmptyString (head l), g).

(** * Lemmas and theorems *)

(** ** The haversine distance *)

Lemma haversine_a_sym lat1 lon1 lat2 lon2 :
  haversine_a lat1 lon1 lat2 lon2 = haversine_a lat2 lon2 lat1 lon1.
Proof.
  unfold haversine_a; cbv zeta.
  replace ((lat1 - lat2) / 2) with (- ((lat2 - lat1) / 2)) by lra.
  replace ((lon1 - lon2) / 2) with (- ((lon2 - lon1) / 2)) by lra.
  rewrite !sin_neg, <- !Rsqr_neg. ring.
Qed.

Lemma sin_half_sqr x : (sin (x / 2))² = (1 - cos x) / 2.
Proof.
  replace x with (2 * (x / 2)) at 2 by lra.
  rewrite cos_2a_sin. unfold Rsqr. lra.
Qed.

Lemma haversine_a_bounds lat1 lon1 lat2 lon2 :
  0 <= haversine_a lat1 lon1 lat2 lon2 <= 1.
Proof.
  unfold haversine_a; cbv zeta.
  rewrite (sin_half_sqr (lat2 - lat1)), cos_minus.
  pose proof (COS_bound (lat2 - lat1)) as Hm. rewrite cos_minus in Hm.
  pose proof (COS_bound (lat2 + lat1)) as Hp. rewrite cos_plus in Hp.
  pose proof (Rle_0_sqr (sin ((lon2 - lon1) / 2))) as Hs0.
  assert (Hs1 : (sin ((lon2 - lon1) / 2))² <= 1).
  { rewrite sin2. pose proof (Rle_0_sqr (cos ((lon2 - lon1) / 2))). lra. }
  set (s := (sin ((lon2 - lon1) / 2))²) in *.
  set (P := cos lat2 * cos lat1) in *.
  set (Q := sin lat2 * sin lat1) in *.
  replace (cos lat1 * cos lat2) with P by (unfold P; ring).
  split; nra.
Qed.

Lemma math_sqrt_nonneg x : 0 <= x → math_sqrt x = Return (sqrt x).
Proof. intros Hx. unfold math_sqrt. case_decide; [lra | done]. Qed.

Lemma math_asin_unit x : -1 <= x <= 1 → math_asin x = Return (asin x).
Proof. intros Hx. unfold math_asin. repeat case_decide; (lra || done). Qed.

Lemma sqrt_unit x : 0 <= x <= 1 → 0 <= sqrt x <= 1.
Proof.
  intros [H0 H1]. split; [apply sqrt_pos |].
  rewrite <- sqrt_1. by apply sqrt_le_1_alt.
Qed.

Lemma haversine_body_num lat1 lon1 lat2 lon2 :
  haversine_body (PyNum lat1) (PyNum lon1) (PyNum lat2) (PyNum lon2)
  = Return (earth_radius * central_angle lat1 lon1 lat2 lon2).
Proof.
  unfold haversine_body, math_radians; simpl.
  pose proof (haversine_a_bounds (lat1 * (PI / 180)) (lon1 * (PI / 180))
                (lat2 * (PI / 180)) (lon2 * (PI / 180))) as Ha.
  rewrite math_sqrt_nonneg by lra; simpl.
  pose proof (sqrt_unit _ Ha).
  rewrite math_asin_unit by lra. done.
Qed.

Lemma haversine_distance_num lat1 lon1 lat2 lon2 :
  haversine_distance (PyNum lat1) (PyNum lon1) (PyNum lat2) (PyNum lon2)
  = Return (Fin (earth_radius * central_angle lat1 lon1 lat2 lon2)).
Proof. unfold haversine_distance. by rewrite haversine_body_num. Qed.

Lemma central_angle_sym lat1 lon1 lat2 lon2 :
  central_angle lat1 lon1 lat2 lon2 = central_angle lat2 lon2 lat1 lon1.
Proof. unfold central_angle. by rewrite haversine_a_sym. Qed.

Lemma haversine_a_same lat lon : haversine_a lat lon lat lon = 0.
Proof.
  unfold haversine_a; cbv zeta.
  replace ((lat - lat) / 2) with 0 by lra.
  replace ((lon - lon) / 2) with 0 by lra.
  rewrite sin_0. unfold Rsqr. ring.
Qed.

Lemma central_angle_same lat lon : central_angle lat lon lat lon = 0.
Proof.
  unfold central_angle. rewrite haversine_a_same, sqrt_0, asin_0. ring.
Qed.

(** C8: on numeric coordinates the haversine distance is symmetric, and the
    distance from a point to itself is zero. *)
Theorem haversine_distance_symmetric (latA lonA latB lonB : R) :
  haversine_distance (PyNum latA) (PyNum lonA) (PyNum latB) (PyNum lonB)
  = haversine_distance (PyNum latB) (PyNum lonB) (PyNum latA) (PyNum lonA)
  ∧ haversine_distance (PyNum latA) (PyNum lonA) (PyNum latA) (PyNum lonA)
    = Return (Fin 0).
Proof.
  rewrite !haversine_distance_num. split.
  - by rewrite central_angle_sym.
  - rewrite central_angle_same. do 2 f_equal. ring.
Qed.

(** ** The proximity search *)

Lemma not_a_container_dec v : {not_a_container v} + {¬ not_a_container v}.
Proof.
  destruct v as [|x|s|xs|d];
    first [ left; by left | left; right; by eexists
          | right; by intros [? | [? ?]] ].
Qed.

Lemma returns_Return {A} (a : A) : returns (Return a).
Proof. by exists a. Qed.

Lemma returns_Raise {A} (e : exc) : ¬ returns (@Raise A e).
Proof. by intros [a ?]. Qed.

Lemma find_towers_returns_iff route_coords towers max_distance_meters :
  returns (find_towers_near_route_shapely route_coords towers max_distance_meters)
  ↔ ¬ nonzero_number route_coords.
Proof.
  unfold find_towers_near_route_shapely, nonzero_number.
  destruct route_coords as [|x|s|xs|d]; simpl.
  - split; [intros _ (x & ? & _); done | intros _; apply returns_Return].
  - case_bool_decide as Hx; simpl.
    + split; [intros H; by apply returns_Raise in H |].
      intros H. destruct H. by exists x.
    + split; [| intros _; apply returns_Return].
      intros _ (y & [= <-] & Hy). done.
  - split; [intros _ (x & ? & _); done |]. intros _.
    repeat case_match; apply returns_Return.
  - split; [intros _ (x & ? & _); done |]. intros _.
    repeat case_match; apply returns_Return.
  - split; [intros _ (x & ? & _); done |]. intros _.
    repeat case_match; apply returns_Return.
Qed.

Section Scan.
Variables (route_line : linestring) (route_length deg max_m : R).

Local Abbreviation scan := (scan_towers route_line route_length deg max_m).
Local Abbreviation process := (process_tower route_line route_length deg max_m).
Local Abbreviation keep := (kept route_line route_length deg max_m).

Lemma process_tower_not_dict tower :
  (∀ d, tower ≠ PyDict d) → ∃ e, process tower = Raise e.
Proof.
  intros H. destruct tower; try (by eexists); by destruct (H d).
Qed.

Lemma scan_towers_step tower rest nearby :
  ¬ not_a_container tower →
  scan (tower :: rest) nearby = scan rest (nearby ++ keep tower).
Proof.
  intros Hc. unfold kept. destruct tower as [|x|s|xs|d]; simpl.
  - destruct Hc. by left.
  - destruct Hc. right. by exists x.
  - rewrite app_nil_r. by repeat (case_bool_decide; simpl).
  - rewrite app_nil_r. by repeat (case_match; simpl).
  - case_bool_decide as Hlat; simpl.
    + case_bool_decide as Hlon; simpl.
      * repeat case_match; simplify_eq/=; by rewrite ?app_nil_r.
      * destruct Hlat as [v Hv].
        unfold process_tower; simpl.
        destruct (d !! "lon") eqn:E; [destruct Hlon; by eexists |].
        simpl. by rewrite app_nil_r.
    + unfold process_tower; simpl.
      destruct (d !! "lon") eqn:E; simpl; [| by rewrite app_nil_r].
      destruct (d !! "lat") eqn:E'; [destruct Hlat; by eexists |].
      simpl. by rewrite app_nil_r.
Qed.

Lemma scan_towers_abort tower rest nearby :
  not_a_container tower → scan (tower :: rest) nearby = Raise TypeError.
Proof. by intros [-> | [x ->]]. Qed.

Lemma scan_towers_containers towers nearby :
  Forall (λ t, ¬ not_a_container t) towers →
  scan towers nearby = Return (nearby ++ (towers ≫= keep)).
Proof.
  intros H. revert nearby. induction H as [|t ts Ht _ IH]; intros nearby.
  - by rewrite app_nil_r.
  - rewrite scan_towers_step by done. rewrite IH. simpl.
    by rewrite <- app_assoc.
Qed.

Lemma scan_towers_raises towers nearby :
  Exists not_a_container towers → scan towers nearby = Raise TypeError.
Proof.
  intros H. revert nearby. induction H as [t ts Ht | t ts _ IH]; intros nearby.
  - by apply scan_towers_abort.
  - destruct (not_a_container_dec t) as [Hc | Hc].
    + by apply scan_towers_abort.
    + rewrite scan_towers_step by done. apply IH.
Qed.

End Scan.

Lemma process_tower_well_formed line m d lat lon :
  well_formed_tower d lat lon →
  process_tower line (line_length line) (m / 111000) m (PyDict d)
  = Return (if decide (near_route line m lat lon)
            then Some (tower_copy line d lat lon) else None).
Proof.
  intros [Hlat Hlon]. unfold process_tower; simpl.
  rewrite Hlon, Hlat; simpl.
  destruct (decide (near_route line m lat lon)) as [[Hpre Hd] | Hnear].
  -     unfold within_prefilter in Hpre. unfold distance_to_route in Hd.
    rewrite bool_decide_eq_true_2 by done; simpl.
    rewrite haversine_distance_num; simpl.
    by rewrite bool_decide_eq_true_2 by done.
  - case_bool_decide as Hpre; simpl; [| done].
    rewrite haversine_distance_num; simpl.
    case_bool_decide as Hd; simpl; [| done].
    destruct Hnear. by split.
Qed.

Lemma process_tower_malformed line len deg m d :
  (∀ lat lon, ¬ well_formed_tower d lat lon) →
  ∃ e, process_tower line len deg m (PyDict d) = Raise e.
Proof.
  intros H. unfold process_tower; simpl.
  destruct (d !! "lon") as [vlon|] eqn:Elon; simpl; [| by eexists].
  destruct (d !! "lat") as [vlat|] eqn:Elat; simpl; [| by eexists].
  destruct vlon as [|x| | |]; try by eexists.
  destruct vlat as [|y| | |]; try by eexists.
  destruct (H y x). by split.
Qed.

Lemma kept_well_formed line m d lat lon :
  well_formed_tower d lat lon →
  kept line (line_length line) (m / 111000) m (PyDict d)
  = if decide (near_route line m lat lon) then [tower_copy line d lat lon] else [].
Proof.
  intros H. unfold kept. rewrite (process_tower_well_formed _ _ _ _ _ H).
  by case_decide.
Qed.

Lemma kept_malformed line len deg m d :
  (∀ lat lon, ¬ well_formed_tower d lat lon) →
  kept line len deg m (PyDict d) = [].
Proof.
  intros H. unfold kept.
  by destruct (process_tower_malformed line len deg m d H) as [e ->].
Qed.

Lemma well_formed_tower_dec d :
  {p : R * R | well_formed_tower d p.1 p.2}
  + {∀ lat lon, ¬ well_formed_tower d lat lon}.
Proof.
  unfold well_formed_tower.
  destruct (d !! "lat") as [[|y| | |]|], (d !! "lon") as [[|x| | |]|];
    first [ left; by exists (y, x) | right; by intros ?? [? ?] ].
Qed.

Lemma kept_elem line m t c :
  c ∈ kept line (line_length line) (m / 111000) m t →
  ∃ d lat lon, t = PyDict d ∧ well_formed_tower d lat lon
               ∧ near_route line m lat lon ∧ c = tower_copy line d lat lon.
Proof.
  destruct t as [| | | |d]; try (by intros ?%elem_of_nil).
  destruct (well_formed_tower_dec d) as [[[lat lon] Hwf] | Hno].
  - simpl in Hwf. rewrite (kept_well_formed _ _ _ _ _ Hwf).
    case_decide; [| by intros ?%elem_of_nil].
    intros ->%list_elem_of_singleton. by exists d, lat, lon.
  - rewrite kept_malformed by done. by intros ?%elem_of_nil.
Qed.

Lemma tower_copy_lookup line d lat lon k :
  k ≠ "positionAlongRoute" → k ≠ "distanceToRoute" →
  tower_copy line d lat lon !! k = d !! k.
Proof.
  intros H1 H2. unfold tower_copy. by rewrite !lookup_insert_ne.
Qed.

Lemma tower_copy_position line d lat lon :
  position_key (tower_copy line d lat lon) = position_along_route line lat lon.
Proof. unfold position_key, tower_copy. by rewrite lookup_insert_eq. Qed.

Section SortingFacts.
Context {A : Type} (lt : A → A → bool).

Lemma insert_sorted_Permutation x l : insert_sorted lt x l ≡ₚ x :: l.
Proof.
  induction l as [|y l IH]; simpl; [done |].
  destruct (lt y x); [| done].
  rewrite IH. apply Permutation_swap.
Qed.

Lemma sorted_Permutation l : sorted lt l ≡ₚ l.
Proof.
  induction l as [|x l IH]; simpl; [done |].
  by rewrite insert_sorted_Permutation, IH.
Qed.

Lemma sorted_elem x l : x ∈ sorted lt l ↔ x ∈ l.
Proof. by rewrite sorted_Permutation. Qed.

Lemma sorted_length l : length (sorted lt l) = length l.
Proof. by rewrite sorted_Permutation. Qed.

End SortingFacts.

Lemma mapM_exn_length {A B} (f : A → exn B) l k :
  mapM f l = Return k → length l = length k.
Proof.
  revert k. induction l as [|x l IH]; intros k; simpl.
  - by intros [= <-].
  - destruct (f x) as [y|]; simpl; [| done].
    destruct (mapM f l) as [k'|]; simpl; [| done].
    intros [= <-]. simpl. f_equal. by apply IH.
Qed.

Lemma LineString_inv route_coords line :
  LineString route_coords = Return line →
  ∃ cs, route_coords = PyList cs ∧ (2 <= length cs)%nat.
Proof.
  destruct route_coords as [| | |cs|]; try done. simpl.
  destruct (mapM coordinate cs) as [pts|] eqn:E; simpl; [| done].
  apply mapM_exn_length in E.
  destruct pts as [|a [|b rest]]; try done.
  intros _. exists cs. split; [done |]. rewrite E. simpl. lia.
Qed.

Lemma find_towers_try_containers route_coords line ts m :
  LineString route_coords = Return line →
  Forall (λ t, ¬ not_a_container t) ts →
  find_towers_try route_coords (PyList ts) (PyNum m)
  = Return (sorted (key_lt position_key) (kept_towers line m ts)).
Proof.
  intros Hline Hts. unfold find_towers_try. rewrite Hline; simpl.
  by rewrite scan_towers_containers.
Qed.

Lemma find_towers_containers route_coords line t ts m :
  LineString route_coords = Return line →
  Forall (λ t, ¬ not_a_container t) (t :: ts) →
  find_towers_near_route_shapely route_coords (PyList (t :: ts)) (PyNum m)
  = Return (sorted (key_lt position_key) (kept_towers line m (t :: ts))).
Proof.
  intros Hline Hts.
  destruct (LineString_inv _ _ Hline) as (cs & -> & Hlen).
  unfold find_towers_near_route_shapely.
  destruct cs as [|c cs]; [simpl in Hlen; lia |]. simpl.
  rewrite bool_decide_eq_false_2 by (simpl in Hlen; lia).
  by rewrite (find_towers_try_containers _ line).
Qed.

Lemma dicts_are_containers (ds : list tower_dict) :
  Forall (λ t, ¬ not_a_container t) (PyDict <$> ds).
Proof.
  apply Forall_fmap, Forall_forall. intros d _ [? | [? ?]]; done.
Qed.

(** X1: for a route that builds a polyline and a list of tower records, a
    well-formed tower of the list appears in the output (as its augmented
    copy) exactly when it passes both the coarse test in degrees and the
    haversine test against its nearest point. *)
Theorem tower_appears_iff_near_route route_coords line ds m d lat lon :
  LineString route_coords = Return line →
  d ∈ ds →
  well_formed_tower d lat lon →
  ∃ out,
    find_towers_near_route_shapely route_coords (PyList (PyDict <$> ds)) (PyNum m)
    = Return out
    ∧ (tower_copy line d lat lon ∈ out
       ↔ within_prefilter line m lat lon ∧ distance_to_route line lat lon <= m).
Proof.
  intros Hline Hd Hwf.
  exists (sorted (key_lt position_key) (kept_towers line m (PyDict <$> ds))).
  split.
  { destruct ds as [|d0 ds0]; [by apply elem_of_nil in Hd |].
    rewrite fmap_cons.
    apply (find_towers_containers _ line); [done |].
    rewrite <- fmap_cons. apply dicts_are_containers. }
  rewrite sorted_elem. unfold kept_towers.
  rewrite list_elem_of_bind. split.
  - intros (t & Hin & _).
    apply kept_elem in Hin as (d' & lat' & lon' & -> & [Hlat' Hlon'] & Hnear & Heq).
    destruct Hwf as [Hlat Hlon].
    assert (lat' = lat) as ->.
    { apply (f_equal (λ c : tower_dict, c !! "lat")) in Heq.
      rewrite !tower_copy_lookup in Heq by done. congruence. }
    assert (lon' = lon) as ->.
    { apply (f_equal (λ c : tower_dict, c !! "lon")) in Heq.
      rewrite !tower_copy_lookup in Heq by done. congruence. }
    exact Hnear.
  - intros Hnear. exists (PyDict d). split.
    + rewrite (kept_well_formed _ _ _ _ _ Hwf).
      rewrite decide_True by exact Hnear. apply list_elem_of_singleton; done.
    + by apply list_elem_of_fmap_2.
Qed.

(** *** A tower the coarse test drops *)

Lemma clamp01_unit x : 0 <= x <= 1 → clamp01 x = x.
Proof.
  intros [H0 H1]. unfold clamp01.
  rewrite (Rmin_right 1 x) by done. by rewrite Rmax_right.
Qed.

Lemma clamp01_bounds x : 0 <= clamp01 x <= 1.
Proof.
  unfold clamp01. split; [apply Rmax_l |].
  apply Rmax_lub; [lra | apply Rmin_l].
Qed.

Lemma asin_le_of_le_sin x θ :
  -1 <= x <= 1 → - (PI / 2) <= θ <= PI / 2 → x <= sin θ → asin x <= θ.
Proof.
  intros Hx [Hθ0 Hθ1] Hle.
  destruct (Rle_dec (asin x) θ) as [|Hgt]; [done |].
  apply Rnot_le_lt in Hgt.
  destruct (asin_bound x) as [Ha0 Ha1].
  pose proof (sin_increasing_1 θ (asin x) Hθ0 Hθ1 Ha0 Ha1 Hgt) as Hs.
  rewrite sin_asin in Hs by done. lra.
Qed.

Lemma sin_cubic_lb a : 0 <= a <= PI → a - a * a * a / 6 <= sin a.
Proof.
  intros [H0 H1]. destruct (sin_bound a 0 H0 H1) as [H _].
  unfold sin_approx, sin_term in H. simpl in H. lra.
Qed.

Lemma PI_gt_3 : 3 < PI.
Proof. pose proof PI2_3_2. lra. Qed.

Lemma segment_nearest_north :
  segment_nearest (0, 60) (0, 61) (-0.034, 60) = (0, 60).
Proof.
  unfold segment_nearest, segment_param; simpl.
  case_decide as Hd; [unfold Rsqr in Hd; lra |].
  replace ((-0.034 - 0) * (0 - 0) + (60 - 60) * (61 - 60)) with 0 by lra.
  unfold Rdiv. rewrite Rmult_0_l, clamp01_unit by lra.
  f_equal; lra.
Qed.

Lemma planar_dist_west : planar_dist (-0.034, 60) (0, 60) = 0.034.
Proof.
  unfold planar_dist; simpl.
  replace ((-0.034 - 0)² + (60 - 60)²) with (0.034²) by (unfold Rsqr; lra).
  apply sqrt_Rsqr. lra.
Qed.

Lemma line_nearest_north :
  line_nearest line_north (-0.034, 60)
  = {| near_point := (0, 60); near_dist := 0.034; near_along := 0 |}.
Proof.
  unfold line_nearest, line_north; simpl.
  rewrite segment_nearest_north, planar_dist_west.
  by rewrite decide_False by lra.
Qed.

Lemma central_angle_west : central_angle 60 (-0.034) 60 0 <= 2 * (1 / 5100).
Proof.
  unfold central_angle, haversine_a; cbv zeta.
  set (δ := 0.017 * (PI / 180)).
  replace ((60 * (PI / 180) - 60 * (PI / 180)) / 2) with 0 by lra.
  replace ((0 * (PI / 180) - -0.034 * (PI / 180)) / 2) with δ
    by (unfold δ; lra).
  replace (60 * (PI / 180)) with (PI / 3) by lra.
  rewrite sin_0, cos_PI3.
  pose proof PI_gt_3 as Hpi3. pose proof PI_4 as Hpi4.
  assert (Hδ : 0 < δ <= 0.017 * 4 / 180) by (unfold δ; lra).
  assert (Hs0 : 0 <= sin δ) by (apply sin_ge_0; lra).
  assert (Hs1 : sin δ < δ) by (apply sin_lt_x; lra).
  replace (0² + 1 / 2 * (1 / 2) * (sin δ)²) with ((sin δ / 2)²)
    by (unfold Rsqr; lra).
  rewrite sqrt_Rsqr by lra.
  apply Rmult_le_compat_l; [lra |].
  apply asin_le_of_le_sin; [lra | lra |].
  pose proof (sin_cubic_lb (1 / 5100)) as Hlb.
  lra.
Qed.

Lemma kept_towers_cons line m t ts :
  kept_towers line m (t :: ts)
  = kept line (line_length line) (m / 111000) m t ++ kept_towers line m ts.
Proof. reflexivity. Qed.

Lemma tower_west_well_formed : well_formed_tower tower_west 60 (-0.034).
Proof. by split. Qed.

Lemma LineString_route_north : LineString route_north = Return line_north.
Proof. reflexivity. Qed.

Lemma tower_west_outside_prefilter :
  ¬ within_prefilter line_north 2500 60 (-0.034).
Proof.
  unfold within_prefilter, line_distance.
  rewrite line_nearest_north; simpl. lra.
Qed.

Lemma tower_west_distance : distance_to_route line_north 60 (-0.034) <= 2500.
Proof.
  unfold distance_to_route, nearest_points.
  rewrite line_nearest_north; simpl.
  pose proof central_angle_west. unfold earth_radius. lra.
Qed.

(** C2 fails on the code: at latitude 60 a tower 0.034 degrees west of the
    route is about 1.9 km from its nearest route point, so within 2500 m,
    but 0.034 degrees exceeds the coarse bound 1.5 * 2500 / 111000, and
    the search returns nothing. *)
Lemma prefilter_drops_near_tower :
  LineString route_north = Return line_north
  ∧ well_formed_tower tower_west 60 (-0.034)
  ∧ haversine_distance (PyNum 60) (PyNum (-0.034))
      (PyNum (nearest_points line_north (-0.034, 60)).2)
      (PyNum (nearest_points line_north (-0.034, 60)).1)
    = Return (Fin (distance_to_route line_north 60 (-0.034)))
  ∧ distance_to_route line_north 60 (-0.034) <= 2500
  ∧ find_towers_near_route_shapely route_north (PyList [PyDict tower_west])
      (PyNum 2500) = Return [].
Proof.
  split; [exact LineString_route_north |].
  split; [exact tower_west_well_formed |].
  split; [apply haversine_distance_num |].
  split; [exact tower_west_distance |].
  rewrite (find_towers_containers _ line_north)
    by (done || apply (dicts_are_containers [tower_west])).
  rewrite kept_towers_cons.
  rewrite (kept_well_formed _ _ _ _ _ tower_west_well_formed).
  rewrite decide_False; [done |].
  intros [Hpre _]. by apply tower_west_outside_prefilter.
Qed.

(** *** A tower on the route *)

Lemma tower_origin_well_formed : well_formed_tower tower_origin 0 0.
Proof. by split. Qed.

Lemma planar_dist_same p : planar_dist p p = 0.
Proof.
  unfold planar_dist.
  replace ((p.1 - p.1)² + (p.2 - p.2)²) with 0 by (unfold Rsqr; lra).
  apply sqrt_0.
Qed.

Lemma line_scan_zero p a rest walked best :
  near_dist best = 0 → line_scan p a rest walked best = best.
Proof.
  intros Hbest. revert a walked.
  induction rest as [|b rest IH]; intros a walked; simpl; [done |].
  rewrite decide_False; [apply IH |].
  rewrite Hbest. unfold planar_dist. apply Rle_not_lt, sqrt_pos.
Qed.

Lemma line_nearest_start l :
  line_nearest l (ls_start l)
  = {| near_point := ls_start l; near_dist := 0; near_along := 0 |}.
Proof.
  unfold line_nearest. rewrite planar_dist_same. by apply line_scan_zero.
Qed.

Lemma tower_origin_near : near_route line_east 2500 0 0.
Proof.
  unfold near_route, within_prefilter, distance_to_route,
    line_distance, nearest_points.
  change (0, 0) with (ls_start line_east).
  rewrite line_nearest_start; simpl.
  rewrite central_angle_same. unfold earth_radius. lra.
Qed.

(** X1, witness. *)
Lemma tower_appears_iff_near_route_witness :
  ∃ out,
    find_towers_near_route_shapely route_east
      (PyList (PyDict <$> [tower_origin])) (PyNum 2500) = Return out
    ∧ (tower_copy line_east tower_origin 0 0 ∈ out
       ↔ within_prefilter line_east 2500 0 0
         ∧ distance_to_route line_east 0 0 <= 2500).
Proof.
  apply (tower_appears_iff_near_route route_east line_east [tower_origin]
           2500 tower_origin 0 0).
  - reflexivity.
  - apply list_elem_of_singleton. reflexivity.
  - split; reflexivity.
Defined.

(** *** Malformed input *)

Lemma scan_towers_skip line len deg m ts1 d ts2 nearby :
  (∀ lat lon, ¬ well_formed_tower d lat lon) →
  scan_towers line len deg m (ts1 ++ PyDict d :: ts2) nearby
  = scan_towers line len deg m (ts1 ++ ts2) nearby.
Proof.
  intros Hbad. revert nearby.
  induction ts1 as [|t ts1 IH]; intros nearby.
  - rewrite !app_nil_l, scan_towers_step by (by intros [? | [? ?]]).
    by rewrite kept_malformed, app_nil_r.
  - rewrite <- !app_comm_cons.
    destruct (not_a_container_dec t) as [Hc | Hc].
    + by rewrite !scan_towers_abort.
    + rewrite !scan_towers_step by done. apply IH.
Qed.

Lemma find_towers_try_skip route_coords max_distance_meters ts1 d ts2 :
  (∀ lat lon, ¬ well_formed_tower d lat lon) →
  find_towers_try route_coords (PyList (ts1 ++ PyDict d :: ts2)) max_distance_meters
  = find_towers_try route_coords (PyList (ts1 ++ ts2)) max_distance_meters.
Proof.
  intros Hbad. unfold find_towers_try.
  destruct (LineString route_coords) as [line|]; simpl; [| done].
  destruct (py_float max_distance_meters) as [m|]; simpl; [| done].
  by rewrite scan_towers_skip.
Qed.

Lemma find_towers_try_no_towers route_coords max_distance_meters :
  except_Exception (find_towers_try route_coords (PyList []) max_distance_meters) []
  = [].
Proof.
  unfold find_towers_try.
  destruct (LineString route_coords) as [line|]; simpl; [| done].
  by destruct (py_float max_distance_meters) as [m|].
Qed.

Lemma find_towers_skip route_coords max_distance_meters ts1 d ts2 :
  (∀ lat lon, ¬ well_formed_tower d lat lon) →
  find_towers_near_route_shapely route_coords
    (PyList (ts1 ++ PyDict d :: ts2)) max_distance_meters
  = find_towers_near_route_shapely route_coords
      (PyList (ts1 ++ ts2)) max_distance_meters.
Proof.
  intros Hbad. unfold find_towers_near_route_shapely.
  destruct (py_truthy route_coords); simpl; [| done].
  destruct (py_len route_coords) as [n|]; simpl; [| done].
  case_bool_decide; [done |].
  rewrite find_towers_try_skip by done.
  destruct (ts1 ++ ts2) as [|t ts] eqn:E.
  - destruct ts1; [| done]. simpl. by rewrite find_towers_try_no_towers.
  - by destruct ts1.
Qed.

Lemma find_towers_try_abort route_coords max_distance_meters ts bad :
  bad ∈ ts → not_a_container bad →
  ∃ e, find_towers_try route_coords (PyList ts) max_distance_meters = Raise e.
Proof.
  intros Hin Hbad. unfold find_towers_try.
  destruct (LineString route_coords) as [line|]; simpl; [| by eexists].
  destruct (py_float max_distance_meters) as [m|]; simpl; [| by eexists].
  rewrite scan_towers_raises; [by eexists |].
  apply Exists_exists. by exists bad.
Qed.

Lemma find_towers_failure route_coords towers max_distance_meters e l :
  find_towers_try route_coords towers max_distance_meters = Raise e →
  find_towers_near_route_shapely route_coords towers max_distance_meters
  = Return l → l = [].
Proof.
  intros Htry. unfold find_towers_near_route_shapely. rewrite Htry.
  destruct (py_truthy route_coords); simpl; [| by intros [= <-]].
  destruct (py_len route_coords) as [n|]; simpl; [| done].
  repeat case_match; by intros [= <-].
Qed.

(** C9, as the code has it: the search returns a list for every route
    argument except a non-zero number, whose [len] raises in front of the
    [try]; any failure inside the [try] gives the empty list; a tower dict
    without numeric coordinates is skipped on its own; and a tower record
    that is not a container fails the whole search, which then returns
    the empty list. *)
Theorem find_towers_returns_unless_route_is_number :
  (∀ route_coords towers max_distance_meters,
     returns (find_towers_near_route_shapely route_coords towers
                max_distance_meters)
     ↔ ¬ nonzero_number route_coords)
  ∧ (∀ route_coords towers max_distance_meters e l,
       find_towers_try route_coords towers max_distance_meters = Raise e →
       find_towers_near_route_shapely route_coords towers max_distance_meters
       = Return l → l = [])
  ∧ (∀ route_coords max_distance_meters ts1 d ts2,
       (∀ lat lon, ¬ well_formed_tower d lat lon) →
       find_towers_near_route_shapely route_coords
         (PyList (ts1 ++ PyDict d :: ts2)) max_distance_meters
       = find_towers_near_route_shapely route_coords
           (PyList (ts1 ++ ts2)) max_distance_meters)
  ∧ (∀ route_coords max_distance_meters ts bad,
       bad ∈ ts → not_a_container bad → ¬ nonzero_number route_coords →
       find_towers_near_route_shapely route_coords (PyList ts)
         max_distance_meters = Return []).
Proof.
  split; [exact find_towers_returns_iff |].
  split; [exact find_towers_failure |].
  split; [exact find_towers_skip |].
  intros route_coords max_distance_meters ts bad Hin Hbad Hroute.
  apply (find_towers_returns_iff route_coords (PyList ts) max_distance_meters)
    in Hroute as [l Hl].
  destruct (find_towers_try_abort route_coords max_distance_meters ts bad
              Hin Hbad) as [e He].
  by rewrite Hl, (find_towers_failure _ _ _ _ _ He Hl).
Qed.

(** C9, counterexample: a route argument that is the number 5 is truthy and
    has no length, so the guard in front of the [try] raises [TypeError]. *)
Lemma find_towers_raises_on_number :
  find_towers_near_route_shapely (PyNum 5) (PyList [PyDict tower_origin])
    (PyNum 2500) = Raise TypeError.
Proof.
  unfold find_towers_near_route_shapely; simpl.
  by rewrite bool_decide_eq_true_2 by lra.
Qed.

(** ** Scoring a route *)

Lemma tower_signal_Return tower x :
  tower_signal tower = Return x → x = signal_value tower.
Proof.
  unfold tower_signal, signal_value.
  destruct (tower !! "averageSignal") as [[| | | |]|]; simpl; congruence.
Qed.

Lemma signal_sum_Return towers acc s :
  signal_sum acc towers = Return s → s = acc + signal_total towers.
Proof.
  revert acc. induction towers as [|t ts IH]; intros acc; simpl.
  - intros [= <-]. lra.
  - destruct (tower_signal t) as [x|] eqn:E; simpl; [| done].
    intros ->%IH. apply tower_signal_Return in E as ->. simpl. lra.
Qed.

Lemma signal_sum_returns towers acc :
  Forall (λ t, returns (tower_signal t)) towers →
  signal_sum acc towers = Return (acc + signal_total towers).
Proof.
  intros H. revert acc. induction H as [|t ts [x Hx] _ IH]; intros acc; simpl.
  - f_equal. lra.
  - rewrite Hx; simpl. rewrite IH.
    apply tower_signal_Return in Hx as ->. f_equal. simpl. lra.
Qed.

Lemma signal_sum_numeric towers acc s :
  signal_sum acc towers = Return s →
  Forall (λ t, returns (tower_signal t)) towers.
Proof.
  revert acc. induction towers as [|t ts IH]; intros acc; simpl; [done |].
  destruct (tower_signal t) as [x|] eqn:E; simpl; [| done].
  intros H. constructor; [by exists x | by eapply IH].
Qed.

Lemma average_signal_Return towers avg :
  average_signal towers = Return avg → avg = mean_signal towers.
Proof.
  unfold average_signal, mean_signal. destruct towers as [|t ts].
  - simpl. by intros [= <-].
  - rewrite bool_decide_eq_true_2 by (simpl; lia).
    destruct (signal_sum 0 (t :: ts)) as [s|] eqn:E; simpl; [| done].
    intros [= <-]. apply signal_sum_Return in E as ->.
    by rewrite Rplus_0_l.
Qed.

Lemma average_signal_returns towers :
  Forall (λ t, returns (tower_signal t)) towers →
  average_signal towers = Return (mean_signal towers).
Proof.
  intros H. unfold average_signal, mean_signal. destruct towers as [|t ts].
  - done.
  - rewrite bool_decide_eq_true_2 by (simpl; lia).
    rewrite signal_sum_returns by done. by rewrite Rplus_0_l.
Qed.

(** *** The size cap of [find_towers_along_route] *)

Lemma sample_index_lt n i :
  (i < MAX_TOWERS_ALONG_ROUTE)%nat → (0 < n)%nat →
  (i * n / MAX_TOWERS_ALONG_ROUTE < n)%nat.
Proof.
  unfold MAX_TOWERS_ALONG_ROUTE. intros Hi Hn.
  apply Nat.Div0.div_lt_upper_bound. nia.
Qed.

Lemma mapM_exn_returns {A B} (f : A → exn B) l :
  Forall (λ x, returns (f x)) l →
  ∃ k, mapM f l = Return k ∧ Forall2 (λ x y, f x = Return y) l k.
Proof.
  induction 1 as [|x l [y Hy] _ (k & Hk & IH)]; simpl.
  - by exists [].
  - exists (y :: k). rewrite Hy; simpl. rewrite Hk; simpl.
    split; [done | by constructor].
Qed.

Lemma sampled_towers_returns {A} (nearby : list A) :
  (0 < length nearby)%nat →
  ∃ sampled, sampled_towers nearby = Return sampled
             ∧ length sampled = MAX_TOWERS_ALONG_ROUTE
             ∧ sampled ⊆ nearby.
Proof.
  intros Hn. unfold sampled_towers.
  destruct (mapM_exn_returns
              (λ index, match nearby !! index with
                        | Some t => Return t
                        | None => Raise IndexError
                        end) (sample_indices (length nearby)))
    as (sampled & Hs & Hall).
  - apply Forall_forall. intros idx Hidx. unfold sample_indices in Hidx.
    apply list_elem_of_fmap in Hidx as (i & -> & Hi).
    apply elem_of_seq in Hi.
    destruct (lookup_lt_is_Some_2 nearby (i * length nearby / MAX_TOWERS_ALONG_ROUTE))
      as [t Ht]; [apply sample_index_lt; lia |].
    rewrite Ht. by exists t.
  - exists sampled. split; [done |]. split.
    + apply Forall2_length in Hall. rewrite <- Hall.
      unfold sample_indices. by rewrite length_fmap, length_seq.
    + intros t Ht. apply list_elem_of_lookup in Ht as [j Hj].
      destruct (Forall2_lookup_r _ _ _ _ _ Hall Hj) as (idx & _ & Hidx).
      destruct (nearby !! idx) as [t'|] eqn:E; [| done].
      injection Hidx as ->. by eapply list_elem_of_lookup_2.
Qed.

Lemma find_towers_along_route_cap route_coordinates area_towers max_distance_meters along :
  find_towers_along_route route_coordinates area_towers max_distance_meters
  = Return along →
  ∀ near,
    find_towers_near_route_shapely route_coordinates area_towers
      max_distance_meters = Return near →
    ((length near <= MAX_TOWERS_ALONG_ROUTE)%nat → along = near)
    ∧ ((MAX_TOWERS_ALONG_ROUTE < length near)%nat →
       length along = MAX_TOWERS_ALONG_ROUTE ∧ along ⊆ near).
Proof.
  unfold find_towers_along_route. intros Halong near Hnear.
  destruct (py_truthy route_coordinates) eqn:Er; simpl in Halong.
  - destruct (py_truthy area_towers) eqn:Et; simpl in Halong.
    + destruct (py_len route_coordinates) as [n|]; simpl in Halong; [| done].
      destruct (py_len area_towers) as [k|]; simpl in Halong; [| done].
      rewrite Hnear in Halong; simpl in Halong.
      case_bool_decide as Hcap.
      * split; [lia |]. intros _.
        destruct (sampled_towers_returns near) as (s & Hs & Hlen & Hsub);
          [unfold MAX_TOWERS_ALONG_ROUTE in Hcap; lia |].
        rewrite Hs in Halong. by injection Halong as <-.
      * split; [| lia]. intros _. by injection Halong as <-.
    + injection Halong as <-.
      unfold find_towers_near_route_shapely in Hnear.
      rewrite Er, Et in Hnear; simpl in Hnear.
      destruct (py_len route_coordinates) as [n|]; simpl in Hnear; [| done].
      case_bool_decide; injection Hnear as <-;
        (split; [done | simpl; unfold MAX_TOWERS_ALONG_ROUTE; lia]).
  - injection Halong as <-.
    unfold find_towers_near_route_shapely in Hnear.
    rewrite Er in Hnear; simpl in Hnear. injection Hnear as <-.
    split; [done | simpl; unfold MAX_TOWERS_ALONG_ROUTE; lia].
Qed.

Lemma score_route_inv i r towers_in_area s :
  score_route i r towers_in_area = Return s →
  find_towers_along_route (coordinates r) towers_in_area
    (PyNum TOWER_PROXIMITY_METERS) = Return (towers s)
  ∧ route s = r
  ∧ index s = i
  ∧ duration s = route_duration r
  ∧ tower_count s = length (towers s)
  ∧ avg_signal s = mean_signal (towers s).
Proof.
  unfold score_route.
  destruct (find_towers_along_route _ _ _) as [along|]; simpl; [| done].
  destruct (average_signal along) as [avg|] eqn:E; simpl; [| done].
  intros [= <-]; simpl. apply average_signal_Return in E. by repeat split.
Qed.

Lemma score_route_returns i r towers_in_area along :
  find_towers_along_route (coordinates r) towers_in_area
    (PyNum TOWER_PROXIMITY_METERS) = Return along →
  Forall (λ t, returns (tower_signal t)) along →
  score_route i r towers_in_area
  = Return {| route := r; towers := along; tower_count := length along;
              avg_signal := mean_signal along;
              duration := route_duration r; index := i |}.
Proof.
  intros Halong Hnum. unfold score_route. rewrite Halong; simpl.
  by rewrite average_signal_returns.
Qed.

(** C4, as the code has it: the scored entry holds the list that
    [find_towers_along_route] returns for the route and the tower set with
    a radius of 2500 m, its length as tower count and the mean of its
    signal strengths ([-120] for the empty list); that list is the result
    of the proximity search when it has at most 200 towers, and 200 towers
    sampled from it otherwise. *)
Theorem score_route_counts_capped_towers i r towers_in_area s :
  score_route i r towers_in_area = Return s →
  find_towers_along_route (coordinates r) towers_in_area (PyNum 2500)
  = Return (towers s)
  ∧ tower_count s = length (towers s)
  ∧ avg_signal s = mean_signal (towers s)
  ∧ ∀ near,
      find_towers_near_route_shapely (coordinates r) towers_in_area
        (PyNum 2500) = Return near →
      ((length near <= 200)%nat → towers s = near)
      ∧ ((200 < length near)%nat →
         length (towers s) = 200%nat ∧ towers s ⊆ near).
Proof.
  intros Hs. apply score_route_inv in Hs as (Halong & _ & _ & _ & Hn & Havg).
  split; [exact Halong |]. split; [exact Hn |]. split; [exact Havg |].
  intros near Hnear.
  exact (find_towers_along_route_cap _ _ _ _ Halong near Hnear).
Qed.

Lemma kept_towers_replicate n :
  kept_towers line_east 2500 (replicate n (PyDict tower_origin))
  = replicate n copy_origin.
Proof.
  induction n as [|n IH]; [done |].
  simpl replicate. rewrite kept_towers_cons, IH.
  rewrite (kept_well_formed _ _ _ _ _ tower_origin_well_formed).
  by rewrite decide_True by exact tower_origin_near.
Qed.

Lemma find_towers_near_201 :
  find_towers_near_route_shapely route_east towers_201 (PyNum 2500)
  = Return (sorted (key_lt position_key) (replicate 201 copy_origin)).
Proof.
  unfold towers_201.
  change (replicate 201 (PyDict tower_origin))
    with (PyDict tower_origin :: replicate 200 (PyDict tower_origin)).
  rewrite (find_towers_containers _ line_east); [| done |].
  - change (PyDict tower_origin :: replicate 200 (PyDict tower_origin))
      with (replicate 201 (PyDict tower_origin)).
    by rewrite kept_towers_replicate.
  - change (Forall (λ t, ¬ not_a_container t)
              (PyDict <$> replicate 201 tower_origin)).
    apply dicts_are_containers.
Qed.

Lemma copy_origin_signal : tower_signal copy_origin = Return (-120).
Proof.
  unfold tower_signal, copy_origin. by rewrite tower_copy_lookup.
Qed.

Lemma find_towers_along_201 :
  ∃ along,
    find_towers_along_route route_east towers_201 (PyNum 2500) = Return along
    ∧ length along = 200%nat
    ∧ Forall (λ t, returns (tower_signal t)) along.
Proof.
  destruct (sampled_towers_returns
              (sorted (key_lt position_key) (replicate 201 copy_origin)))
    as (along & Hs & Hlen & Hsub).
  { rewrite sorted_length, length_replicate. lia. }
  exists along. split; [| split; [done |]].
  - unfold find_towers_along_route.
    change (py_truthy route_east) with true.
    change (py_truthy towers_201) with true.
    cbn [negb orb].
    change (py_len route_east) with (Return 2%nat).
    change (py_len towers_201)
      with (Return (length (replicate 201 (PyDict tower_origin)))).
    rewrite find_towers_near_201. cbn [mbind exn_bind].
    rewrite bool_decide_eq_true_2; [done |].
    rewrite sorted_length, length_replicate.
    unfold MAX_TOWERS_ALONG_ROUTE. lia.
  - apply Forall_forall. intros t Ht. apply Hsub in Ht.
    apply sorted_elem, elem_of_replicate in Ht as [-> _].
    rewrite copy_origin_signal. by eexists.
Qed.

(** C4, counterexample: with 201 towers within reach of the route the
    proximity search returns 201 towers and the scored entry counts 200. *)
Lemma tower_count_capped_at_200 :
  ∃ s near,
    score_route 0 candidate_east towers_201 = Return s
    ∧ find_towers_near_route_shapely (coordinates candidate_east) towers_201
        (PyNum 2500) = Return near
    ∧ length near = 201%nat
    ∧ tower_count s = 200%nat.
Proof.
  destruct find_towers_along_201 as (along & Halong & Hlen & Hnum).
  eexists _, _. split; [by apply (score_route_returns 0 candidate_east) |].
  split; [exact find_towers_near_201 |].
  split; [by rewrite sorted_length, length_replicate | exact Hlen].
Qed.

(** A route scored against an empty tower set. *)
Lemma score_route_no_towers i r :
  score_route i r (PyList []) = Return (score_no_towers i r).
Proof.
  unfold score_route, find_towers_along_route.
  by destruct (py_truthy (coordinates r)).
Qed.

(** C4, witness. *)
Lemma score_route_counts_capped_towers_witness :
  ∃ s, score_route 0 candidate_east towers_201 = Return s
       ∧ tower_count s = length (towers s)
       ∧ avg_signal s = mean_signal (towers s)
       ∧ length (towers s) = 200%nat.
Proof.
  destruct find_towers_along_201 as (along & Halong & Hlen & Hnum).
  pose proof (score_route_returns 0 candidate_east towers_201 along
                Halong Hnum) as Hs.
  eexists. split; [exact Hs |].
  destruct (score_route_counts_capped_towers 0 candidate_east towers_201 _ Hs)
    as (_ & Hn & Havg & Hcap).
  split; [exact Hn |]. split; [exact Havg |].
  destruct (Hcap _ find_towers_near_201) as [_ Hbig].
  apply Hbig. rewrite sorted_length, length_replicate. lia.
Defined.

Lemma signal_sum_shift towers acc c s :
  signal_sum acc towers = Return s →
  signal_sum (acc + c) towers = Return (s + c).
Proof.
  intros H. pose proof (signal_sum_numeric _ _ _ H) as Hnum.
  apply signal_sum_Return in H as ->.
  rewrite signal_sum_returns by done. apply (f_equal Return). lra.
Qed.

Lemma signal_sum_app l1 l2 acc :
  signal_sum acc (l1 ++ l2) = signal_sum acc l1 ≫= λ s, signal_sum s l2.
Proof.
  revert acc. induction l1 as [|t l1 IH]; intros acc; simpl; [done |].
  destruct (tower_signal t) as [x|]; simpl; [apply IH | done].
Qed.

(** C10: a tower along the route that has no [averageSignal] field enters
    the sum as -120 and counts in the number of towers the sum is divided
    by; the copy the search makes of a tower without the field has none
    either. *)
Theorem missing_signal_counts_as_minus_120 (tower : tower_dict) :
  tower !! "averageSignal" = None →
  tower_signal tower = Return (-120)
  ∧ (∀ line lat lon, tower_copy line tower lat lon !! "averageSignal" = None)
  ∧ ∀ l1 l2 s,
      signal_sum 0 (l1 ++ l2) = Return s →
      signal_sum 0 (l1 ++ tower :: l2) = Return (s + -120)
      ∧ average_signal (l1 ++ tower :: l2)
        = Return ((s + -120) / INR (S (length (l1 ++ l2)))).
Proof.
  intros Hnone.
  assert (Hsig : tower_signal tower = Return (-120))
    by (unfold tower_signal; by rewrite Hnone).
  split; [done |]. split.
  { intros line lat lon. by rewrite tower_copy_lookup. }
  intros l1 l2 s Hs.
  assert (Hsum : signal_sum 0 (l1 ++ tower :: l2) = Return (s + -120)).
  { rewrite signal_sum_app in Hs |- *.
    destruct (signal_sum 0 l1) as [s1|]; simpl in *; [| done].
    rewrite Hsig; simpl. by apply signal_sum_shift. }
  split; [done |].
  unfold average_signal.
  rewrite bool_decide_eq_true_2 by (rewrite length_app; simpl; lia).
  rewrite Hsum; simpl.
  replace (length (l1 ++ tower :: l2)) with (S (length (l1 ++ l2)));
    [done | rewrite !length_app; simpl; lia].
Qed.

(** C10, witness. *)
Lemma missing_signal_counts_as_minus_120_witness :
  tower_signal tower_origin = Return (-120).
Proof.
  apply (missing_signal_counts_as_minus_120 tower_origin). reflexivity.
Defined.

(** ** Normalisation *)

Lemma foldl_Rmin_spec l x : is_min (foldl Rmin x l) (x :: l).
Proof.
  revert x. induction l as [|y l IH]; intros x; simpl.
  - split; [left |]. intros z ->%list_elem_of_singleton. lra.
  - destruct (IH (Rmin x y)) as [Hin Hle]. split.
    + apply elem_of_cons in Hin as [Heq | Hin]; [| by do 2 right].
      rewrite Heq. unfold Rmin. destruct (Rle_dec x y); [left | right; left].
    + intros z Hz.
      assert (Hm : foldl Rmin (Rmin x y) l <= Rmin x y) by (apply Hle; left).
      apply elem_of_cons in Hz as [-> | Hz].
      * pose proof (Rmin_l x y). lra.
      * apply elem_of_cons in Hz as [-> | Hz].
        -- pose proof (Rmin_r x y). lra.
        -- apply Hle. by right.
Qed.

Lemma foldl_Rmax_spec l x : is_max (foldl Rmax x l) (x :: l).
Proof.
  revert x. induction l as [|y l IH]; intros x; simpl.
  - split; [left |]. intros z ->%list_elem_of_singleton. lra.
  - destruct (IH (Rmax x y)) as [Hin Hle]. split.
    + apply elem_of_cons in Hin as [Heq | Hin]; [| by do 2 right].
      rewrite Heq. unfold Rmax. destruct (Rle_dec x y); [right; left | left].
    + intros z Hz.
      assert (Hm : Rmax x y <= foldl Rmax (Rmax x y) l) by (apply Hle; left).
      apply elem_of_cons in Hz as [-> | Hz].
      * pose proof (Rmax_l x y). lra.
      * apply elem_of_cons in Hz as [-> | Hz].
        -- pose proof (Rmax_r x y). lra.
        -- apply Hle. by right.
Qed.

Lemma py_min_spec l : l ≠ [] → ∃ m, py_min l = Return m ∧ is_min m l.
Proof.
  destruct l as [|x l]; [done |]. intros _.
  exists (foldl Rmin x l). split; [done | apply foldl_Rmin_spec].
Qed.

Lemma py_max_spec l : l ≠ [] → ∃ m, py_max l = Return m ∧ is_max m l.
Proof.
  destruct l as [|x l]; [done |]. intros _.
  exists (foldl Rmax x l). split; [done | apply foldl_Rmax_spec].
Qed.

Lemma normalize_scores_returns scores :
  scores ≠ [] →
  ∃ min_duration max_duration min_signal max_signal,
    is_min min_duration (duration <$> scores)
    ∧ is_max max_duration (duration <$> scores)
    ∧ is_min min_signal (avg_signal <$> scores)
    ∧ is_max max_signal (avg_signal <$> scores)
    ∧ normalize_scores scores
      = Return (normalize_one min_duration
                  (guarded_range min_duration max_duration) min_signal
                  (guarded_range min_signal max_signal) <$> scores).
Proof.
  intros Hne. unfold normalize_scores.
  destruct (py_min_spec (duration <$> scores)) as (mind & -> & Hmind);
    [by destruct scores |].
  destruct (py_max_spec (duration <$> scores)) as (maxd & -> & Hmaxd);
    [by destruct scores |].
  destruct (py_min_spec (avg_signal <$> scores)) as (mins & -> & Hmins);
    [by destruct scores |].
  destruct (py_max_spec (avg_signal <$> scores)) as (maxs & -> & Hmaxs);
    [by destruct scores |].
  by exists mind, maxd, mins, maxs.
Qed.

Lemma normalize_scores_inv scores normed :
  normalize_scores scores = Return normed → score <$> normed = scores.
Proof.
  unfold normalize_scores.
  destruct (py_min (duration <$> scores)); simpl; [| done].
  destruct (py_max (duration <$> scores)); simpl; [| done].
  destruct (py_min (avg_signal <$> scores)); simpl; [| done].
  destruct (py_max (avg_signal <$> scores)); simpl; [| done].
  intros [= <-]. rewrite <- list_fmap_compose.
  rewrite <- (list_fmap_id scores) at 2. by apply list_fmap_ext.
Qed.

(** C3, as the code has it: each entry gets
    [norm_duration = 1 - clamp((duration - min) / range)],
    [norm_signal = clamp((avg_signal - min) / range)] and
    [balanced_score = 0.5 * norm_duration + 0.5 * norm_signal], where each
    range is [max(1, max - min)]: every range below one, not only zero, is
    replaced by one.  The range agrees with the zero-guarded range when it
    is zero or at least one. *)
Theorem normalize_scores_formula scores :
  scores ≠ [] →
  ∃ min_duration max_duration min_signal max_signal normed,
    is_min min_duration (duration <$> scores)
    ∧ is_max max_duration (duration <$> scores)
    ∧ is_min min_signal (avg_signal <$> scores)
    ∧ is_max max_signal (avg_signal <$> scores)
    ∧ normalize_scores scores = Return normed
    ∧ score <$> normed = scores
    ∧ (∀ n, n ∈ normed →
        norm_duration n
        = 1 - clamp01 ((duration (score n) - min_duration)
                       / guarded_range min_duration max_duration)
        ∧ norm_signal n
          = clamp01 ((avg_signal (score n) - min_signal)
                     / guarded_range min_signal max_signal)
        ∧ balanced_score n = 0.5 * norm_duration n + 0.5 * norm_signal n)
    ∧ (∀ lo hi, hi - lo = 0 ∨ 1 <= hi - lo →
        guarded_range lo hi = zero_guarded_range lo hi).
Proof.
  intros Hne.
  destruct (normalize_scores_returns scores Hne)
    as (mind & maxd & mins & maxs & Hmind & Hmaxd & Hmins & Hmaxs & Hnorm).
  eexists mind, maxd, mins, maxs, _.
  do 4 (split; [done |]). split; [exact Hnorm |].
  split; [by apply normalize_scores_inv in Hnorm |]. split.
  - intros n (s & -> & _)%list_elem_of_fmap. simpl.
    unfold clamp01. repeat split; lra.
  - intros lo hi Hrange. unfold guarded_range, zero_guarded_range.
    case_decide as Hz.
    + rewrite Hz. apply Rmax_left. lra.
    + apply Rmax_right. lra.
Qed.

Ltac eval_Rminmax :=
  repeat match goal with
    | |- context [Rmin ?a ?b] =>
        first [rewrite (Rmin_left a b) by lra | rewrite (Rmin_right a b) by lra]
    | |- context [Rmax ?a ?b] =>
        first [rewrite (Rmax_left a b) by lra | rewrite (Rmax_right a b) by lra]
    end.

Lemma score_routes_no_towers i routes :
  score_routes i routes (PyList [])
  = Return (imap (λ j, score_no_towers (i + j)) routes).
Proof.
  revert i. induction routes as [|r routes IH]; intros i; [done |].
  simpl. rewrite score_route_no_towers; simpl. rewrite IH; simpl.
  rewrite Nat.add_0_r. do 2 f_equal.
  apply imap_ext. intros j x _. simpl. f_equal. lia.
Qed.

(** C3, counterexample: two candidates of 100 s and 100.5 s have a duration
    range of 0.5, which is not zero; the code divides by 1 and scores the
    slower one 0.5, the stated formula divides by 0.5 and scores it 0. *)
Lemma small_duration_range_is_widened :
  score_routes 0 [candidate_east; candidate_half] (PyList [])
  = Return [score_no_towers 0 candidate_east; score_no_towers 1 candidate_half]
  ∧ is_min 100 [100; 100.5]
  ∧ is_max 100.5 [100; 100.5]
  ∧ ∃ n_east n_half,
      normalize_scores
        [score_no_towers 0 candidate_east; score_no_towers 1 candidate_half]
      = Return [n_east; n_half]
      ∧ score n_half = score_no_towers 1 candidate_half
      ∧ norm_duration n_half = 0.5
      ∧ 1 - clamp01 ((duration (score n_half) - 100)
                     / zero_guarded_range 100 100.5) = 0.
Proof.
  split; [by rewrite score_routes_no_towers |].
  split.
  { split; [left |]. intros x Hx. set_unfold in Hx. lra. }
  split.
  { split; [right; left |]. intros x Hx. set_unfold in Hx. lra. }
  eexists _, _. split; [reflexivity |]. split; [reflexivity |]. split.
  - simpl. eval_Rminmax. lra.
  - simpl. unfold zero_guarded_range, clamp01.
    rewrite decide_False by lra.
    replace ((100.5 - 100) / (100.5 - 100)) with 1 by lra.
    eval_Rminmax. lra.
Qed.

(** C3, witness. *)
Lemma normalize_scores_formula_witness :
  ∃ min_duration max_duration normed,
    is_min min_duration [100; 100.5] ∧ is_max max_duration [100; 100.5]
    ∧ normalize_scores
        [score_no_towers 0 candidate_east; score_no_towers 1 candidate_half]
      = Return normed.
Proof.
  destruct (normalize_scores_formula
              [score_no_towers 0 candidate_east; score_no_towers 1 candidate_half])
    as (mind & maxd & mins & maxs & normed & Hmind & Hmaxd & _ & _ & Hn & _).
  - discriminate.
  - exists mind, maxd, normed. split; [exact Hmind |].
    split; [exact Hmaxd | exact Hn].
Defined.

(** ** The diversity pass *)

Lemma score_routes_indices i routes towers_in_area scores :
  score_routes i routes towers_in_area = Return scores →
  index <$> scores = seq i (length routes).
Proof.
  revert i scores.
  induction routes as [|r routes IH]; intros i scores; simpl.
  - by intros [= <-].
  - destruct (score_route i r towers_in_area) as [s|] eqn:Es; simpl; [| done].
    destruct (score_routes (S i) routes towers_in_area) as [ss|] eqn:Ess;
      simpl; [| done].
    intros [= <-]. simpl. apply score_route_inv in Es as (_ & _ & -> & _).
    f_equal. by apply IH.
Qed.

Lemma normalized_indices i routes towers_in_area scores normed :
  score_routes i routes towers_in_area = Return scores →
  normalize_scores scores = Return normed →
  candidate_index <$> normed = seq i (length routes).
Proof.
  intros Hs Hn. apply normalize_scores_inv in Hn.
  apply score_routes_indices in Hs. rewrite <- Hs, <- Hn.
  by rewrite <- list_fmap_compose.
Qed.

Lemma first_unselected_Some used alternatives alt :
  first_unselected used alternatives = Some alt →
  alt ∈ alternatives ∧ candidate_index alt ∉ used.
Proof.
  unfold first_unselected. intros [Hin Hb]%find_some.
  split; [by apply list_elem_of_In |]. by apply bool_decide_eq_true in Hb.
Qed.


Lemma diversify_elem used ranking p :
  diversify used ranking = Some p → p ∈ ranking.
Proof.
  destruct ranking as [|top alternatives]; simpl; [done |].
  case_bool_decide; [| intros [= <-]; left].
  destruct (first_unselected used alternatives) as [alt|] eqn:E.
  - intros [= <-]. right. by apply first_unselected_Some in E as [? _].
  - intros [= <-]. left.
Qed.

Lemma diversify_is_Some used ranking :
  ranking ≠ [] → is_Some (diversify used ranking).
Proof.
  destruct ranking as [|top alternatives]; [done |]. intros _. simpl.
  by repeat case_match.
Qed.







Lemma three_candidates_scores :
  score_routes 0 three_candidates (PyList []) = Return three_scores.
Proof. by rewrite score_routes_no_towers. Qed.

Lemma three_scores_normed : normalize_scores three_scores = Return three_normed.
Proof. reflexivity. Qed.


Ltac eval_bool_decide :=
  repeat match goal with
    | |- context [bool_decide (?a < ?b)] =>
        first [rewrite (bool_decide_eq_true_2 (a < b)) by lra
              | rewrite (bool_decide_eq_false_2 (a < b)) by lra]
    end.

(** The picks on the three candidates: the fastest is candidate 0; it
    also tops the signal and the balanced rankings, so the cell-coverage
    pick moves to candidate 1 and the balanced pick to candidate 2. *)
Example three_candidates_picks :
  ∃ f c b,
    final_route_selection three_normed
    = {| pick_fastest := Some f; pick_cell_coverage := Some c;
         pick_balanced := Some b |}
    ∧ candidate_index f = 0%nat
    ∧ candidate_index c = 1%nat
    ∧ candidate_index b = 2%nat.
Proof.
  unfold final_route_selection, three_normed, three_scores. cbv zeta.
  unfold sorted, duration_lt, balanced_lt, signal_lt, key_lt. simpl.
  eval_Rminmax.
  replace ((100.5 - 100) / (300 - 100)) with 0.0025 by lra.
  replace ((100 - 100) / (300 - 100)) with 0 by lra.
  replace ((300 - 100) / (300 - 100)) with 1 by lra.
  replace ((-120 - -120) / 1) with 0 by lra.
  repeat (first [ progress eval_Rminmax
                | progress eval_bool_decide
                | rewrite decide_True by lra
                | rewrite decide_False by lra
                | rewrite bool_decide_eq_true_2 by set_solver
                | rewrite bool_decide_eq_false_2 by set_solver ]; simpl).
  eexists _, _, _. split; [reflexivity |]. by repeat split.
Qed.

Ltac eval_selection :=
  repeat (first [ progress eval_Rminmax
                | progress eval_bool_decide
                | rewrite decide_True by lra
                | rewrite decide_False by lra
                | rewrite bool_decide_eq_true_2 by set_solver
                | rewrite bool_decide_eq_false_2 by set_solver ]; simpl).

(** With two candidates the balanced pick finds every index taken and
    repeats the fastest pick. *)
Example two_candidates_repeat_a_pick :
  score_routes 0 two_candidates (PyList []) = Return two_scores
  ∧ normalize_scores two_scores = Return two_normed
  ∧ ∃ f c b,
      final_route_selection two_normed
      = {| pick_fastest := Some f; pick_cell_coverage := Some c;
           pick_balanced := Some b |}
      ∧ candidate_index f = 0%nat
      ∧ candidate_index c = 1%nat
      ∧ candidate_index b = 0%nat.
Proof.
  split; [by rewrite score_routes_no_towers |]. split; [reflexivity |].
  unfold final_route_selection, two_normed, two_scores. cbv zeta.
  unfold sorted, duration_lt, balanced_lt, signal_lt, key_lt. simpl.
  eval_Rminmax.
  replace ((100 - 100) / (300 - 100)) with 0 by lra.
  replace ((300 - 100) / (300 - 100)) with 1 by lra.
  replace ((-120 - -120) / 1) with 0 by lra.
  eval_selection.
  eexists _, _, _. split; [reflexivity |]. by repeat split.
Qed.

(** ** The selection result and the orchestrator *)

(** C7: on an empty candidate list the selector returns, without raising
    and whatever the tower set is, a result whose three keys hold no route
    and no towers. *)
Theorem select_optimized_routes_empty (towers_in_area : pyval) :
  ∃ selection,
    _select_optimized_routes [] towers_in_area = Return selection
    ∧ entry_route (fastest selection) = None
    ∧ entry_towers (fastest selection) = []
    ∧ entry_route (cell_coverage selection) = None
    ∧ entry_towers (cell_coverage selection) = []
    ∧ entry_route (balanced selection) = None
    ∧ entry_towers (balanced selection) = [].
Proof. by exists default_empty_routes. Qed.



(** The requested entry is used when it holds a route. *)
Lemma select_response_requested selection optimization_type waypoints
    tower_data_source entry r :
  selection_get selection optimization_type = Some entry →
  entry_route entry = Some r →
  select_response selection optimization_type waypoints tower_data_source
  = Success [r] waypoints (entry_towers entry) optimization_type
      tower_data_source.
Proof.
  intros Hget Hr. unfold select_response. rewrite Hget.
  unfold has_route. rewrite Hr. destruct entry; simpl in *. by subst.
Qed.

Lemma precheck_distance_km_returns start_lat start_lng end_lat end_lng :
  precheck_distance_km start_lat start_lng end_lat end_lng
  = Return (6371 * central_angle start_lat start_lng end_lat end_lng).
Proof.
  unfold precheck_distance_km; cbv zeta.
  pose proof (haversine_a_bounds (start_lat * (PI / 180))
                (start_lng * (PI / 180)) (end_lat * (PI / 180))
                (end_lng * (PI / 180))) as Ha.
  rewrite math_sqrt_nonneg by lra; simpl.
  pose proof (sqrt_unit _ Ha).
  by rewrite math_asin_unit by lra.
Qed.

Section OrchestratorFacts.
Variable routing : R → R → R → R → routing_response.
Variable cell_towers : R → R → R → R → towers_response.

Lemma fetch_and_select_calls_routing start_lat start_lng end_lat end_lng
    optimization_type calls :
  ∃ result more,
    fetch_and_select routing cell_towers start_lat start_lng end_lat end_lng
      optimization_type calls
    = (result,
       calls ++ RoutingCall start_lat start_lng end_lat end_lng :: more).
Proof.
  unfold fetch_and_select, call_routing, call_towers, lift_exn.
  unfold mbind, io_bind, mret, io_ret.
  destruct (routing start_lat start_lng end_lat end_lng)
    as [[|r routes] waypoints | code message].
  - by exists (Return (Failure NoRoute
                    "No routes found between the specified points.")), [].
  - match goal with
    | |- context [_select_optimized_routes ?rs ?ts] =>
        destruct (_select_optimized_routes rs ts) as [sel|e]
    end; eexists _, [_]; by rewrite <- app_assoc.
  - by exists (Return (Failure code message)), [].
Qed.

(** With routes from the routing provider, the towers of the bounding box
    of start and end widened by 0.1 degrees, and a selection from the
    selector, the result is the response built from that selection; the two
    providers have been called once each, the routing provider first. *)
Lemma fetch_and_select_result start_lat start_lng end_lat end_lng
    optimization_type calls r routes waypoints selection :
  let min_latitude := Rmin start_lat end_lat - 0.1 in
  let min_longitude := Rmin start_lng end_lng - 0.1 in
  let max_latitude := Rmax start_lat end_lat + 0.1 in
  let max_longitude := Rmax start_lng end_lng + 0.1 in
  let cell_towers_data :=
    cell_towers min_latitude min_longitude max_latitude max_longitude in
  routing start_lat start_lng end_lat end_lng
  = RoutingOk (r :: routes) waypoints →
  _select_optimized_routes (r :: routes)
    (PyList (PyDict <$> response_towers cell_towers_data))
  = Return selection →
  fetch_and_select routing cell_towers start_lat start_lng end_lat end_lng
    optimization_type calls
  = (Return (select_response selection optimization_type waypoints
               (response_source cell_towers_data)),
     calls ++ [RoutingCall start_lat start_lng end_lat end_lng;
               TowerCall min_latitude min_longitude max_latitude
                 max_longitude]).
Proof.
  intros min_latitude min_longitude max_latitude max_longitude
    cell_towers_data Hrouting Hselect.
  unfold fetch_and_select, call_routing, call_towers, lift_exn.
  unfold mbind, io_bind, mret, io_ret.
  subst cell_towers_data min_latitude min_longitude max_latitude
    max_longitude.
  rewrite Hrouting. unfold TOWER_SEARCH_BUFFER.
  rewrite Hselect. by rewrite <- app_assoc.
Qed.

(** C5: the precheck always yields a distance; above 900 km the result is
    the [DistanceLimitExceeded] failure and the list of provider calls is
    unchanged; at or below 900 km the orchestrator goes on, and its first
    step is the call to the routing provider. *)
Theorem distance_precheck start_lat start_lng end_lat end_lng
    optimization_type calls :
  ∃ distance_km,
    precheck_distance_km start_lat start_lng end_lat end_lng
    = Return distance_km
    ∧ (900 < distance_km →
       ∃ message,
         _get_optimized_route routing cell_towers start_lat start_lng
           end_lat end_lng optimization_type calls
         = (Return (Failure DistanceLimitExceeded message), calls))
    ∧ (distance_km <= 900 →
       _get_optimized_route routing cell_towers start_lat start_lng
         end_lat end_lng optimization_type calls
       = fetch_and_select routing cell_towers start_lat start_lng
           end_lat end_lng optimization_type calls
       ∧ ∃ result more,
           _get_optimized_route routing cell_towers start_lat start_lng
             end_lat end_lng optimization_type calls
           = (result,
              calls ++ RoutingCall start_lat start_lng end_lat end_lng :: more)).
Proof.
  eexists. split; [apply precheck_distance_km_returns |].
  unfold _get_optimized_route, lift_exn.
  unfold mbind, io_bind, mret, io_ret.
  rewrite precheck_distance_km_returns.
  split.
  - intros Hfar. rewrite decide_True by done. by eexists.
  - intros Hnear. rewrite decide_False by lra.
    split; [done | apply fetch_and_select_calls_routing].
Qed.

End OrchestratorFacts.

Lemma central_angle_antimeridian : central_angle 0 0 0 180 = PI.
Proof.
  unfold central_angle, haversine_a; cbv zeta.
  replace ((0 * (PI / 180) - 0 * (PI / 180)) / 2) with 0 by lra.
  replace ((180 * (PI / 180) - 0 * (PI / 180)) / 2) with (PI / 2) by lra.
  replace (0 * (PI / 180)) with 0 by lra.
  rewrite sin_0, cos_0, sin_PI2.
  replace (0² + 1 * 1 * 1²) with 1 by (unfold Rsqr; lra).
  rewrite sqrt_1, asin_1. lra.
Qed.

(** A pair of points half the equator apart is beyond the limit. *)
Lemma precheck_far :
  ∃ d, precheck_distance_km 0 0 0 180 = Return d ∧ 900 < d.
Proof.
  eexists. split; [apply precheck_distance_km_returns |].
  rewrite central_angle_antimeridian. pose proof PI_gt_3. lra.
Qed.

(** A pair of equal points is within the limit. *)
Lemma precheck_near :
  ∃ d, precheck_distance_km 0 0 0 0 = Return d ∧ d <= 900.
Proof.
  eexists. split; [apply precheck_distance_km_returns |].
  rewrite central_angle_same. lra.
Qed.

(** ** Sorting: order and stability *)

Section SortingOrder.
Context {A : Type} (lt : A → A → bool).

Hypothesis Hlt : strict_weak_order lt.

Lemma lt_asym x y : lt x y = true → lt y x = false.
Proof. destruct Hlt as [Hasym _]. apply Hasym. Qed.

Lemma not_after_trans x y z :
  not_after lt x y → not_after lt y z → not_after lt x z.
Proof.
  destruct Hlt as [Hirr Hneg]. unfold not_after. intros Hxy Hyz.
  destruct (lt z x) eqn:Hzx; [| done].
  destruct (Hneg z x y Hzx) as [H | H]; congruence.
Qed.

Lemma insert_sorted_StronglySorted x l :
  StronglySorted (not_after lt) l →
  StronglySorted (not_after lt) (insert_sorted lt x l).
Proof.
  induction 1 as [|y l Hl IH Hy]; simpl.
  - repeat constructor.
  - destruct (lt y x) eqn:Hyx.
    + constructor; [done |].
      rewrite insert_sorted_Permutation. constructor; [| done].
      by apply lt_asym.
    + constructor; [by constructor |]. constructor; [done |].
      eapply Forall_impl; [exact Hy |]. intros z Hz.
      by apply (not_after_trans x y z).
Qed.

Lemma sorted_StronglySorted l : StronglySorted (not_after lt) (sorted lt l).
Proof.
  induction l as [|x l IH]; simpl; [constructor |].
  by apply insert_sorted_StronglySorted.
Qed.

Lemma head_insert_sorted x l :
  head (insert_sorted lt x l)
  = match head l with
    | Some h => if lt h x then Some h else Some x
    | None => Some x
    end.
Proof. destruct l as [|y l]; simpl; [done |]. by destruct (lt y x). Qed.

(** The head of the sorted list is the leftmost least element of the
    input: what stands before it is strictly greater, what stands after it
    is not smaller. *)
Lemma head_sorted_leftmost l m :
  head (sorted lt l) = Some m →
  ∃ l1 l2, l = l1 ++ m :: l2
           ∧ Forall (λ y, lt m y = true) l1
           ∧ Forall (λ y, lt y m = false) l2.
Proof.
  destruct Hlt as [Hirr Hneg].
  revert m. induction l as [|x l IH]; intros m; simpl; [done |].
  rewrite head_insert_sorted.
  destruct (head (sorted lt l)) as [h|] eqn:Hh.
  - destruct (IH h eq_refl) as (l1 & l2 & -> & H1 & H2).
    destruct (lt h x) eqn:Hhx; intros [= <-].
    + exists (x :: l1), l2. split; [done |]. split; [by constructor | done].
    + exists [], (l1 ++ h :: l2). split; [done |]. split; [constructor |].
      apply Forall_app. split; [| constructor].
      * eapply Forall_impl; [exact H1 |]. intros y Hy. simpl in Hy.
        destruct (lt y x) eqn:Hyx; [| done].
        destruct (Hneg h y x Hy) as [H | H]; [congruence |].
        by rewrite (lt_asym _ _ Hyx) in H.
      * done.
      * eapply Forall_impl; [exact H2 |]. intros y Hy. simpl in Hy.
        destruct (lt y x) eqn:Hyx; [| done].
        destruct (Hneg y x h Hyx) as [H | H]; congruence.
  - intros [= <-]. destruct l as [|y l]; [by exists [], [] |].
    exfalso. assert (Hp := sorted_Permutation lt (y :: l)).
    destruct (sorted lt (y :: l)); [| done].
    by apply Permutation_nil_l in Hp.
Qed.

End SortingOrder.

Lemma key_lt_strict_weak_order {A} (key : A → R) :
  strict_weak_order (key_lt key).
Proof.
  unfold key_lt. split.
  - intros x y Hxy%bool_decide_eq_true. apply bool_decide_eq_false. lra.
  - intros x y z Hxy%bool_decide_eq_true.
    destruct (decide (key x < key z)) as [H | H].
    + left. by apply bool_decide_eq_true.
    + right. apply bool_decide_eq_true. lra.
Qed.



(** ** Haversine: totality and range *)

Lemma asin_nonneg x : 0 <= x <= 1 → 0 <= asin x.
Proof.
  intros Hx. destruct (Rle_dec 0 (asin x)) as [| Hneg]; [done |].
  apply Rnot_le_lt in Hneg. destruct (asin_bound x) as [Ha0 Ha1].
  pose proof PI2_RGT_0.
  pose proof (sin_increasing_1 (asin x) 0 Ha0 Ha1) as Hs.
  rewrite sin_asin, sin_0 in Hs by lra. lra.
Qed.

Lemma central_angle_bounds lat1 lon1 lat2 lon2 :
  0 <= central_angle lat1 lon1 lat2 lon2 <= PI.
Proof.
  unfold central_angle.
  pose proof (sqrt_unit _ (haversine_a_bounds (lat1 * (PI / 180))
      (lon1 * (PI / 180)) (lat2 * (PI / 180)) (lon2 * (PI / 180)))) as Hs.
  pose proof (asin_nonneg _ Hs). destruct (asin_bound (sqrt (haversine_a
      (lat1 * (PI / 180)) (lon1 * (PI / 180)) (lat2 * (PI / 180))
      (lon2 * (PI / 180))))). lra.
Qed.


(** ** The proximity search: what the output holds *)

Lemma scan_towers_Return line len deg m ts nearby out :
  scan_towers line len deg m ts nearby = Return out →
  Forall (λ t, ¬ not_a_container t) ts.
Proof.
  intros Hscan.
  destruct (Forall_Exists_dec (λ t, ¬ not_a_container t) not_a_container
              (λ t, match not_a_container_dec t with
                    | left H => right H
                    | right H => left H
                    end) ts) as [H | H]; [done |].
  by rewrite scan_towers_raises in Hscan.
Qed.

Lemma find_towers_Return_inv route_coords towers max_distance_meters out :
  find_towers_near_route_shapely route_coords towers max_distance_meters
  = Return out →
  out = []
  ∨ ∃ line m ts,
      LineString route_coords = Return line
      ∧ max_distance_meters = PyNum m
      ∧ py_iter towers = Return ts
      ∧ out = sorted (key_lt position_key) (kept_towers line m ts).
Proof.
  unfold find_towers_near_route_shapely.
  destruct (py_truthy route_coords); simpl; [| intros [= <-]; by left].
  destruct (py_len route_coords) as [n|]; simpl; [| done].
  case_bool_decide; [intros [= <-]; by left |].
  destruct (py_truthy towers); simpl; [| intros [= <-]; by left].
  intros [= <-]. unfold find_towers_try.
  destruct (LineString route_coords) as [line|]; simpl; [| by left].
  destruct max_distance_meters as [|m| | |]; simpl; try by left.
  destruct (py_iter towers) as [ts|]; simpl; [| by left].
  destruct (scan_towers _ _ _ _ ts []) as [nearby|] eqn:Hscan; simpl;
    [| by left].
  right. exists line, m, ts. repeat split; try done.
  pose proof (scan_towers_Return _ _ _ _ _ _ _ Hscan) as Hc.
  rewrite scan_towers_containers in Hscan by done.
  by injection Hscan as <-.
Qed.



Lemma StronglySorted_weaken {A} (R1 R2 : A → A → Prop) l :
  (∀ x y, R1 x y → R2 x y) → StronglySorted R1 l → StronglySorted R2 l.
Proof.
  intros HR. induction 1 as [|x l _ IH Hx]; constructor; [done |].
  eapply Forall_impl; [exact Hx | apply HR].
Qed.

Lemma sorted_by_position l :
  StronglySorted position_le (sorted (key_lt position_key) l).
Proof.
  eapply StronglySorted_weaken;
    [| apply sorted_StronglySorted, key_lt_strict_weak_order].
  intros a b. unfold not_after, key_lt, position_le.
  intros H%bool_decide_eq_false. lra.
Qed.

Lemma distance_to_route_nonneg line lat lon : 0 <= distance_to_route line lat lon.
Proof.
  unfold distance_to_route, earth_radius. cbv zeta.
  match goal with
  | |- context [central_angle ?a ?b ?c ?d] =>
      pose proof (central_angle_bounds a b c d)
  end. nra.
Qed.

Lemma position_along_route_bounds line lat lon :
  0 <= position_along_route line lat lon <= 1.
Proof. apply clamp01_bounds. Qed.

Lemma find_towers_StronglySorted route_coords towers max_distance_meters out :
  find_towers_near_route_shapely route_coords towers max_distance_meters
  = Return out →
  StronglySorted position_le out.
Proof.
  intros [-> | (line & m & ts & _ & _ & _ & ->)]%find_towers_Return_inv.
  - constructor.
  - apply sorted_by_position.
Qed.


(** X4: every tower the search returns is the copy of a well-formed tower
    record of the input: it has that record's fields, a [distanceToRoute]
    between 0 and the search radius, and a [positionAlongRoute] between 0
    and 1. *)
Theorem find_towers_output_fields route_coords towers max_distance_meters
    out c :
  find_towers_near_route_shapely route_coords towers max_distance_meters
  = Return out →
  c ∈ out →
  ∃ ts m d lat lon distance position,
    py_iter towers = Return ts
    ∧ max_distance_meters = PyNum m
    ∧ PyDict d ∈ ts
    ∧ well_formed_tower d lat lon
    ∧ c !! "distanceToRoute" = Some (PyNum distance)
    ∧ 0 <= distance <= m
    ∧ c !! "positionAlongRoute" = Some (PyNum position)
    ∧ 0 <= position <= 1
    ∧ ∀ k, k ≠ "distanceToRoute" → k ≠ "positionAlongRoute" →
           c !! k = d !! k.
Proof.
  intros [-> | (line & m & ts & _ & -> & Hts & ->)]%find_towers_Return_inv Hc;
    [by apply elem_of_nil in Hc |].
  apply sorted_elem in Hc. unfold kept_towers in Hc.
  apply list_elem_of_bind in Hc as (t & Hc & Ht).
  apply kept_elem in Hc as (d & lat & lon & -> & Hwf & [_ Hdist] & ->).
  exists ts, m, d, lat, lon, (distance_to_route line lat lon),
    (position_along_route line lat lon).
  do 4 (split; [done |]). split.
  { unfold tower_copy. rewrite lookup_insert_ne by done.
    by rewrite lookup_insert_eq. }
  split; [split; [apply distance_to_route_nonneg | done] |]. split.
  { unfold tower_copy. by rewrite lookup_insert_eq. }
  split; [apply position_along_route_bounds |].
  intros k Hk1 Hk2. by apply tower_copy_lookup.
Qed.

(** X3 and X4, witness: the tower on the first vertex of the equator
    route. *)
Lemma find_towers_origin :
  find_towers_near_route_shapely route_east (PyList [PyDict tower_origin])
    (PyNum 2500) = Return [copy_origin].
Proof.
  rewrite (find_towers_containers _ line_east)
    by (done || apply (dicts_are_containers [tower_origin])).
  rewrite kept_towers_cons.
  rewrite (kept_well_formed _ _ _ _ _ tower_origin_well_formed).
  by rewrite decide_True by exact tower_origin_near.
Qed.


Lemma find_towers_output_fields_witness :
  ∃ distance, copy_origin !! "distanceToRoute" = Some (PyNum distance)
              ∧ 0 <= distance <= 2500.
Proof.
  destruct (find_towers_output_fields route_east
              (PyList [PyDict tower_origin]) (PyNum 2500) [copy_origin]
              copy_origin find_towers_origin)
    as (ts & m & d & lat & lon & distance & position & _ & Hm & _ & _
        & Hdist & Hrange & _).
  - apply list_elem_of_singleton. reflexivity.
  - exists distance. injection Hm as <-. split; [exact Hdist | exact Hrange].
Defined.

(** ** The size cap: an order-preserving sample *)

Lemma lookups_sublist {A} (l : list A) (indices : list nat) (k : list A) off :
  StronglySorted lt indices →
  Forall (λ i, off <= i)%nat indices →
  mapM (λ i, match l !! i with
             | Some t => Return t
             | None => Raise IndexError
             end) indices = Return k →
  k `sublist_of` drop off l.
Proof.
  intros Hsorted. revert off k.
  induction Hsorted as [|i indices _ IH Hi]; intros off k Hoff; simpl.
  - intros [= <-]. apply sublist_nil_l.
  - destruct (l !! i) as [x|] eqn:Hx; simpl; [| done].
    destruct (mapM _ indices) as [k'|] eqn:Hk; simpl; [| done].
    intros [= <-].
    apply Forall_cons in Hoff as [Hoff _].
    assert (Hrest : k' `sublist_of` drop (S i) l).
    { apply IH; [| done]. eapply Forall_impl; [exact Hi |].
      intros j Hj. simpl in Hj. lia. }
    replace off with (off + 0)%nat by lia.
    rewrite <- (take_drop (i - off) (drop (off + 0) l)).
    apply sublist_inserts_l. rewrite drop_drop.
    replace (off + 0 + (i - off))%nat with i by lia.
    rewrite (drop_S _ _ _ Hx). by apply sublist_skip.
Qed.

Lemma stride_increasing n a k :
  (200 < n)%nat →
  StronglySorted lt ((λ i, i * n / 200)%nat <$> seq a k).
Proof.
  intros Hn. revert a.
  induction k as [|k IH]; intros a; cbn [seq fmap list_fmap]; [constructor |].
  constructor; [apply IH |].
  apply Forall_fmap, Forall_forall. intros j Hj%elem_of_seq. cbn beta.
  apply Nat.lt_le_trans with ((a * n + 200) / 200)%nat.
  - replace (a * n + 200)%nat with (a * n + 1 * 200)%nat by lia.
    rewrite Nat.div_add by done. rewrite Nat.add_1_r. apply Nat.lt_succ_diag_r.
  - apply Nat.Div0.div_le_mono. nia.
Qed.

Lemma sample_indices_increasing n :
  (MAX_TOWERS_ALONG_ROUTE < n)%nat → StronglySorted lt (sample_indices n).
Proof. intros Hn. by apply stride_increasing. Qed.

Lemma sampled_towers_sublist {A} (nearby sampled : list A) :
  (MAX_TOWERS_ALONG_ROUTE < length nearby)%nat →
  sampled_towers nearby = Return sampled →
  sampled `sublist_of` nearby.
Proof.
  intros Hn Hs.
  apply (lookups_sublist nearby (sample_indices (length nearby)) sampled 0).
  - by apply sample_indices_increasing.
  - apply Forall_forall. intros; lia.
  - exact Hs.
Qed.

Lemma StronglySorted_sublist {A} (R : A → A → Prop) l k :
  k `sublist_of` l → StronglySorted R l → StronglySorted R k.
Proof.
  induction 1 as [|x k l Hkl IH|x k l Hkl IH]; intros Hl.
  - constructor.
  - apply StronglySorted_inv in Hl as [Hl Hx]. constructor; [by apply IH |].
    apply Forall_forall. intros y Hy. rewrite Forall_forall in Hx.
    apply Hx. by apply (elem_of_sublist k l).
  - apply StronglySorted_inv in Hl as [Hl _]. by apply IH.
Qed.

(** X5: [find_towers_along_route] never returns more than 200 towers, and
    what it returns is a sub-sequence of the result of the proximity
    search, in the same order, hence still sorted by position along the
    route. *)
Theorem find_towers_along_route_sublist route_coordinates area_towers
    max_distance_meters along :
  find_towers_along_route route_coordinates area_towers max_distance_meters
  = Return along →
  (length along <= 200)%nat
  ∧ StronglySorted position_le along
  ∧ ∀ near,
      find_towers_near_route_shapely route_coordinates area_towers
        max_distance_meters = Return near →
      along `sublist_of` near.
Proof.
  intros Halong.
  assert (Hsub : ∀ near,
    find_towers_near_route_shapely route_coordinates area_towers
      max_distance_meters = Return near →
    along `sublist_of` near ∧ (length along <= 200)%nat).
  { intros near Hnear.
    destruct (find_towers_along_route_cap _ _ _ _ Halong near Hnear)
      as [Hsmall Hbig].
    destruct (decide (length near <= MAX_TOWERS_ALONG_ROUTE)%nat) as [Hle | Hgt].
    - rewrite (Hsmall Hle). split; [done |].
      unfold MAX_TOWERS_ALONG_ROUTE in Hle. lia.
    - destruct Hbig as [Hlen _]; [lia |].
      split; [| unfold MAX_TOWERS_ALONG_ROUTE in Hlen; lia].
      unfold find_towers_along_route in Halong.
      destruct (negb (py_truthy route_coordinates) || negb (py_truthy area_towers));
        [injection Halong as <-; apply sublist_nil_l |].
      destruct (py_len route_coordinates); simpl in Halong; [| done].
      destruct (py_len area_towers); simpl in Halong; [| done].
      rewrite Hnear in Halong. simpl in Halong.
      rewrite bool_decide_eq_true_2 in Halong by lia.
      apply sampled_towers_sublist; [lia | done]. }
  unfold find_towers_along_route in Halong.
  destruct (negb (py_truthy route_coordinates) || negb (py_truthy area_towers))
    eqn:Hguard.
  { injection Halong as <-. split; [simpl; lia |]. split; [constructor |].
    intros; apply sublist_nil_l. }
  destruct (py_len route_coordinates); simpl in Halong; [| done].
  destruct (py_len area_towers); simpl in Halong; [| done].
  destruct (find_towers_near_route_shapely route_coordinates area_towers
              max_distance_meters) as [near|] eqn:Hnear; [| done].
  destruct (Hsub near eq_refl) as [Hs Hl].
  split; [done |]. split.
  - eapply StronglySorted_sublist; [exact Hs |].
    by apply (find_towers_StronglySorted _ _ _ _ Hnear).
  - intros near' [= <-]. done.
Qed.

(** X5, witness. *)
Lemma find_towers_along_route_sublist_witness :
  ∃ along,
    find_towers_along_route route_east towers_201 (PyNum 2500) = Return along
    ∧ (length along <= 200)%nat
    ∧ StronglySorted position_le along.
Proof.
  destruct find_towers_along_201 as (along & Halong & _ & _).
  exists along. split; [exact Halong |].
  destruct (find_towers_along_route_sublist route_east towers_201 (PyNum 2500)
              along Halong) as (Hlen & Hsorted & _).
  split; [exact Hlen | exact Hsorted].
Defined.

(** ** Normalised scores *)

Lemma normalize_scores_Return scores normed :
  normalize_scores scores = Return normed →
  ∃ min_duration max_duration min_signal max_signal,
    is_min min_duration (duration <$> scores)
    ∧ is_max max_duration (duration <$> scores)
    ∧ is_min min_signal (avg_signal <$> scores)
    ∧ is_max max_signal (avg_signal <$> scores)
    ∧ normed = normalize_one min_duration
                 (guarded_range min_duration max_duration) min_signal
                 (guarded_range min_signal max_signal) <$> scores.
Proof.
  intros Hn. destruct scores as [|s scores]; [done |].
  destruct (normalize_scores_returns (s :: scores))
    as (mind & maxd & mins & maxs & ? & ? & ? & ? & Hr); [done |].
  rewrite Hr in Hn. injection Hn as <-. by exists mind, maxd, mins, maxs.
Qed.

Lemma clamp01_mono x y : x <= y → clamp01 x <= clamp01 y.
Proof.
  intros Hxy. unfold clamp01.
  apply Rmax_lub; [apply Rmax_l |].
  eapply Rle_trans; [| apply Rmax_r].
  apply Rmin_glb; [apply Rmin_l |].
  eapply Rle_trans; [apply Rmin_r | done].
Qed.

Lemma clamp01_nonpos x : x <= 0 → clamp01 x = 0.
Proof.
  intros Hx. unfold clamp01. rewrite Rmin_right by lra. by apply Rmax_left.
Qed.

Lemma guarded_range_pos lo hi : 1 <= guarded_range lo hi.
Proof. apply Rmax_l. Qed.

Lemma div_range_mono x y r : 1 <= r → x <= y → x / r <= y / r.
Proof.
  intros Hr Hxy. unfold Rdiv. apply Rmult_le_compat_r; [| done].
  apply Rlt_le, Rinv_0_lt_compat. lra.
Qed.

(** X6: the normalised scores lie between 0 and 1; a candidate of least
    duration scores 1 on duration and a candidate of least average signal
    scores 0 on signal; a shorter duration never scores lower and a
    stronger signal never scores lower. *)
Theorem normalized_scores_bounds scores normed :
  normalize_scores scores = Return normed →
  (∀ n, n ∈ normed →
     0 <= norm_duration n <= 1
     ∧ 0 <= norm_signal n <= 1
     ∧ 0 <= balanced_score n <= 1
     ∧ ((∀ x, x ∈ normed → duration (score n) <= duration (score x)) →
        norm_duration n = 1)
     ∧ ((∀ x, x ∈ normed → avg_signal (score n) <= avg_signal (score x)) →
        norm_signal n = 0))
  ∧ (∀ n n', n ∈ normed → n' ∈ normed →
       (duration (score n) <= duration (score n') →
        norm_duration n' <= norm_duration n)
       ∧ (avg_signal (score n) <= avg_signal (score n') →
          norm_signal n <= norm_signal n')).
Proof.
  intros (mind & maxd & mins & maxs & Hmind & _ & Hmins & _ & ->)
    %normalize_scores_Return.
  pose proof (guarded_range_pos mind maxd) as Hrd.
  pose proof (guarded_range_pos mins maxs) as Hrs.
  split.
  - intros n (s & -> & Hs)%list_elem_of_fmap. simpl.
    fold (clamp01 ((duration s - mind) / guarded_range mind maxd)).
    fold (clamp01 ((avg_signal s - mins) / guarded_range mins maxs)).
    pose proof (clamp01_bounds ((duration s - mind) / guarded_range mind maxd)).
    pose proof (clamp01_bounds ((avg_signal s - mins) / guarded_range mins maxs)).
    split; [lra |]. split; [lra |]. split; [lra |]. split.
    + intros Hleast. destruct Hmind as [Hin _].
      apply list_elem_of_fmap in Hin as (s' & -> & Hs').
      assert (duration s <= duration s') as Hle.
      { apply (Hleast (normalize_one (duration s') (guarded_range (duration s') maxd)
                         mins (guarded_range mins maxs) s')).
        by apply list_elem_of_fmap_2. }
      rewrite clamp01_nonpos; [lra |].
      replace 0 with (0 / guarded_range (duration s') maxd) by (unfold Rdiv; lra).
      apply div_range_mono; [done | lra].
    + intros Hleast. destruct Hmins as [Hin _].
      apply list_elem_of_fmap in Hin as (s' & -> & Hs').
      assert (avg_signal s <= avg_signal s') as Hle.
      { apply (Hleast (normalize_one mind (guarded_range mind maxd)
                         (avg_signal s') (guarded_range (avg_signal s') maxs) s')).
        by apply list_elem_of_fmap_2. }
      apply clamp01_nonpos.
      replace 0 with (0 / guarded_range (avg_signal s') maxs) by (unfold Rdiv; lra).
      apply div_range_mono; [done | lra].
  - intros n n' (s & -> & Hs)%list_elem_of_fmap (s' & -> & Hs')%list_elem_of_fmap.
    simpl.
    fold (clamp01 ((duration s - mind) / guarded_range mind maxd)).
    fold (clamp01 ((duration s' - mind) / guarded_range mind maxd)).
    fold (clamp01 ((avg_signal s - mins) / guarded_range mins maxs)).
    fold (clamp01 ((avg_signal s' - mins) / guarded_range mins maxs)).
    split; intros Hle.
    + assert (clamp01 ((duration s - mind) / guarded_range mind maxd)
              <= clamp01 ((duration s' - mind) / guarded_range mind maxd));
        [| lra].
      apply clamp01_mono, div_range_mono; [done | lra].
    + apply clamp01_mono, div_range_mono; [done | lra].
Qed.

(** X6, witness. *)
Lemma normalized_scores_bounds_witness :
  Forall (λ n, 0 <= balanced_score n <= 1) three_normed.
Proof.
  apply Forall_forall. intros n Hn.
  destruct (normalized_scores_bounds three_scores three_normed
              three_scores_normed) as [Hall _].
  destruct (Hall n Hn) as (_ & _ & Hb & _). exact Hb.
Defined.

(** ** What the three picks optimise *)



Lemma index_of_lookup (l : list scored_route) a n i x :
  candidate_index <$> l = seq a n → l !! i = Some x →
  candidate_index x = (a + i)%nat.
Proof.
  intros Hl Hx.
  assert ((candidate_index <$> l) !! i = Some (candidate_index x)) as H
    by (by rewrite list_lookup_fmap, Hx).
  rewrite Hl in H. apply lookup_seq in H as [-> _]. done.
Qed.


Lemma fastest_pick_least routes towers_in_area scores normed f :
  score_routes 0 routes towers_in_area = Return scores →
  normalize_scores scores = Return normed →
  pick_fastest (final_route_selection normed) = Some f →
  f ∈ normed
  ∧ ∀ x, x ∈ normed →
      duration (score f) <= duration (score x)
      ∧ (duration (score x) = duration (score f) →
         (candidate_index f <= candidate_index x)%nat).
Proof.
  intros Hscores Hnormed Hf.
  pose proof (normalized_indices _ _ _ _ _ Hscores Hnormed) as Hidx.
  unfold final_route_selection in Hf. cbv zeta in Hf. simpl in Hf.
  apply (head_sorted_leftmost _ (key_lt_strict_weak_order _)) in Hf
    as (l1 & l2 & -> & H1 & H2).
  rewrite Forall_forall in H1, H2.
  assert (Hfi : candidate_index f = length l1).
  { rewrite (index_of_lookup _ _ _ (length l1) f Hidx); [done |].
    by rewrite list_lookup_middle. }
  split; [set_solver |]. intros x Hx.
  apply elem_of_app in Hx as [Hx | Hx].
  - apply H1, bool_decide_eq_true in Hx. simpl in Hx. split; lra.
  - apply elem_of_cons in Hx as [-> | Hx]; [split; [lra | lia] |].
    pose proof (H2 _ Hx) as Hle. apply bool_decide_eq_false in Hle.
    simpl in Hle. split; [lra |]. intros _.
    apply list_elem_of_lookup in Hx as [j Hj].
    rewrite (index_of_lookup _ _ _ (length l1 + S j) x Hidx).
    + lia.
    + rewrite lookup_app_r by lia.
      replace (length l1 + S j - length l1)%nat with (S j) by lia. done.
Qed.

(** X7: the fastest pick has the least duration of all candidates, and
    among candidates of that duration the lowest index. *)
Theorem fastest_pick_is_first_minimum routes towers_in_area scores normed f :
  score_routes 0 routes towers_in_area = Return scores →
  normalize_scores scores = Return normed →
  pick_fastest (final_route_selection normed) = Some f →
  f ∈ normed
  ∧ ∀ x, x ∈ normed →
      duration (score f) <= duration (score x)
      ∧ (duration (score x) = duration (score f) →
         (candidate_index f <= candidate_index x)%nat).
Proof. apply fastest_pick_least. Qed.



(** X7, witness. *)
Lemma fastest_pick_is_first_minimum_witness :
  ∃ f, pick_fastest (final_route_selection three_normed) = Some f
       ∧ Forall (λ x, duration (score f) <= duration (score x)) three_normed.
Proof.
  destruct three_candidates_picks as (f & c & b & Hsel & _).
  exists f. assert (Hf : pick_fastest (final_route_selection three_normed) = Some f)
    by (by rewrite Hsel).
  split; [exact Hf |].
  destruct (fastest_pick_is_first_minimum three_candidates (PyList [])
              three_scores three_normed f three_candidates_scores
              three_scores_normed Hf) as [_ Hmin].
  apply Forall_forall. intros x Hx. by apply (Hmin x Hx).
Defined.

(** ** The selector as a whole *)

Lemma score_routes_elem i routes towers_in_area scores s :
  score_routes i routes towers_in_area = Return scores →
  s ∈ scores →
  ∃ j r, r ∈ routes ∧ score_route j r towers_in_area = Return s.
Proof.
  revert i scores. induction routes as [|r routes IH]; intros i scores; simpl.
  - intros [= <-] Hs. by apply elem_of_nil in Hs.
  - destruct (score_route i r towers_in_area) as [s0|] eqn:Es; simpl; [| done].
    destruct (score_routes (S i) routes towers_in_area) as [ss|] eqn:Ess;
      simpl; [| done].
    intros [= <-] [-> | Hs]%elem_of_cons.
    + exists i, r. split; [left | done].
    + destruct (IH _ _ Ess Hs) as (j & r' & Hr' & Hj).
      exists j, r'. split; [by right | done].
Qed.

Lemma select_optimized_routes_Return r routes towers_in_area selection :
  _select_optimized_routes (r :: routes) towers_in_area = Return selection →
  ∃ scores normed,
    score_routes 0 (r :: routes) towers_in_area = Return scores
    ∧ normalize_scores scores = Return normed
    ∧ selection = structure_output (final_route_selection normed).
Proof.
  unfold _select_optimized_routes.
  destruct (score_routes 0 (r :: routes) towers_in_area) as [scores|] eqn:Es;
    simpl; [| done].
  destruct scores as [|s scores].
  { apply score_routes_indices in Es. done. }
  destruct (normalize_scores (s :: scores)) as [normed|] eqn:En; simpl; [| done].
  intros [= <-]. by exists (s :: scores), normed.
Qed.

Lemma pick_entry_for routes towers_in_area scores normed p i :
  score_routes i routes towers_in_area = Return scores →
  normalize_scores scores = Return normed →
  p ∈ normed →
  entry_for routes towers_in_area (structure_entry (Some p)).
Proof.
  intros Hs Hn Hp.
  apply normalize_scores_inv in Hn.
  assert (score p ∈ scores) as Hsp
    by (rewrite <- Hn; by apply list_elem_of_fmap_2).
  destruct (score_routes_elem _ _ _ _ _ Hs Hsp) as (j & r & Hr & Hj).
  apply score_route_inv in Hj as (Htowers & Hroute & _).
  exists r. simpl. rewrite Hroute. by repeat split.
Qed.

Lemma select_optimized_routes_entries_lemma r routes towers_in_area scores
    normed :
  score_routes 0 (r :: routes) towers_in_area = Return scores →
  normalize_scores scores = Return normed →
  let selection := structure_output (final_route_selection normed) in
  entry_for (r :: routes) towers_in_area (fastest selection)
  ∧ entry_for (r :: routes) towers_in_area (cell_coverage selection)
  ∧ entry_for (r :: routes) towers_in_area (balanced selection).
Proof.
  intros Hs Hn.
  assert (Hne : ∀ lt, sorted lt normed ≠ []).
  { intros lt Hnil. pose proof (normalize_scores_inv _ _ Hn) as Hsc.
    pose proof (sorted_Permutation lt normed) as Hp. rewrite Hnil in Hp.
    apply Permutation_nil_l in Hp. subst normed. simpl in Hsc. subst scores.
    done. }
  unfold final_route_selection. cbv zeta. simpl.
  destruct (sorted duration_lt normed) as [|f rest] eqn:Ef;
    [by destruct (Hne duration_lt) |].
  cbn [head].
  destruct (diversify_is_Some (add_index (Some f) ∅) (sorted signal_lt normed)
              (Hne _)) as [c Hc].
  destruct (diversify_is_Some (add_index (Some c) (add_index (Some f) ∅))
              (sorted balanced_lt normed) (Hne _)) as [b Hb].
  rewrite Hc, Hb.
  split; [| split]; apply (pick_entry_for _ _ _ _ _ _ Hs Hn).
  - apply (sorted_elem duration_lt). rewrite Ef. left.
  - by eapply sorted_elem, diversify_elem.
  - by eapply sorted_elem, diversify_elem.
Qed.

(** X9: for a non-empty candidate list, whenever the selector returns,
    each of the three keys holds one of the candidate routes together with
    the towers that [find_towers_along_route] finds along that route; no
    key is left without a route. *)
Theorem select_optimized_routes_entries r routes towers_in_area selection :
  _select_optimized_routes (r :: routes) towers_in_area = Return selection →
  entry_for (r :: routes) towers_in_area (fastest selection)
  ∧ entry_for (r :: routes) towers_in_area (cell_coverage selection)
  ∧ entry_for (r :: routes) towers_in_area (balanced selection).
Proof.
  intros (scores & normed & Hs & Hn & ->)%select_optimized_routes_Return.
  exact (select_optimized_routes_entries_lemma _ _ _ _ _ Hs Hn).
Qed.

Lemma select_three_candidates :
  _select_optimized_routes (candidate_east :: [candidate_half; candidate_slow])
    (PyList [])
  = Return (structure_output (final_route_selection three_normed)).
Proof.
  unfold _select_optimized_routes.
  pose proof three_candidates_scores as Hs. unfold three_candidates in Hs.
  rewrite Hs. unfold mbind, exn_bind.
  pose proof three_scores_normed as Hn. unfold three_scores in Hn |- *.
  by rewrite Hn.
Qed.

(** X9, witness. *)
Lemma select_optimized_routes_entries_witness :
  entry_for three_candidates (PyList [])
    (fastest (structure_output (final_route_selection three_normed))).
Proof.
  apply (select_optimized_routes_entries candidate_east
           [candidate_half; candidate_slow] (PyList []) _
           select_three_candidates).
Defined.

Section OrchestratorMore.
Variable routing : R → R → R → R → routing_response.
Variable cell_towers : R → R → R → R → towers_response.

Local Abbreviation run := (_get_optimized_route routing cell_towers).

Lemma get_optimized_route_near start_lat start_lng end_lat end_lng ty calls d :
  precheck_distance_km start_lat start_lng end_lat end_lng = Return d →
  d <= 900 →
  run start_lat start_lng end_lat end_lng ty calls
  = fetch_and_select routing cell_towers start_lat start_lng end_lat end_lng
      ty calls.
Proof.
  intros Hd Hle. unfold _get_optimized_route, lift_exn.
  unfold mbind, io_bind. rewrite Hd. by rewrite decide_False by lra.
Qed.

(** X10: within the distance limit, a failure of the routing provider is
    returned unchanged and an answer without routes becomes a [NoRoute]
    failure; in both cases the routing provider has been called once and
    the tower provider not at all. *)
Theorem routing_failure_is_propagated start_lat start_lng end_lat end_lng
    optimization_type calls d :
  precheck_distance_km start_lat start_lng end_lat end_lng = Return d →
  d <= 900 →
  (∀ code message,
     routing start_lat start_lng end_lat end_lng
     = RoutingFailure code message →
     run start_lat start_lng end_lat end_lng optimization_type calls
     = (Return (Failure code message),
        calls ++ [RoutingCall start_lat start_lng end_lat end_lng]))
  ∧ (∀ waypoints,
       routing start_lat start_lng end_lat end_lng = RoutingOk [] waypoints →
       run start_lat start_lng end_lat end_lng optimization_type calls
       = (Return (Failure NoRoute
                    "No routes found between the specified points."),
          calls ++ [RoutingCall start_lat start_lng end_lat end_lng])).
Proof.
  intros Hd Hle.
  rewrite (get_optimized_route_near _ _ _ _ _ _ _ Hd Hle).
  unfold fetch_and_select, call_routing. unfold mbind, io_bind, mret, io_ret.
  split.
  - intros code message ->. done.
  - intros waypoints ->. done.
Qed.

Lemma entry_for_has_route routes towers_in_area entry :
  entry_for routes towers_in_area entry → has_route (Some entry) = Some entry.
Proof. intros (r & _ & Hr & _). unfold has_route. by rewrite Hr. Qed.

Lemma select_response_success r routes towers_in_area selection
    optimization_type waypoints source :
  _select_optimized_routes (r :: routes) towers_in_area = Return selection →
  success_from (r :: routes) waypoints towers_in_area optimization_type source
    (select_response selection optimization_type waypoints source).
Proof.
  intros (scores & normed & Hs & Hn & ->)%select_optimized_routes_Return.
  pose proof (select_optimized_routes_entries_lemma r routes towers_in_area
                scores normed Hs Hn) as (Hf & Hc & Hb).
  set (selection := structure_output (final_route_selection normed)) in *.
  assert (Hany : ∀ e, entry_for (r :: routes) towers_in_area e →
            success_from (r :: routes) waypoints towers_in_area
              optimization_type source
              (match e with
               | {| entry_route := Some final_route;
                    entry_towers := final_towers |} =>
                   Success [final_route] waypoints final_towers
                     optimization_type source
               | _ => Failure NoRoute
                        ("Could not determine any suitable route for '"
                         +:+ optimization_type +:+ "'.")
               end)).
  { intros [[r0|] ts] (r1 & Hr1 & Hroute & Htowers); simpl in *; [| done].
    injection Hroute as ->. by exists r1, ts. }
  unfold select_response.
  change (selection_get selection "fastest") with (Some (fastest selection)).
  unfold selection_get.
  repeat case_decide;
    rewrite ?(entry_for_has_route _ _ _ Hf), ?(entry_for_has_route _ _ _ Hc),
      ?(entry_for_has_route _ _ _ Hb); simpl;
    rewrite ?(entry_for_has_route _ _ _ Hf); by apply Hany.
Qed.

Lemma get_optimized_route_Success start_lat start_lng end_lat end_lng
    optimization_type calls calls' routes waypoints towers_along
    returned_type source :
  run start_lat start_lng end_lat end_lng optimization_type calls
  = (Return (Success routes waypoints towers_along returned_type source),
     calls') →
  let data := cell_towers (Rmin start_lat end_lat - TOWER_SEARCH_BUFFER)
                (Rmin start_lng end_lng - TOWER_SEARCH_BUFFER)
                (Rmax start_lat end_lat + TOWER_SEARCH_BUFFER)
                (Rmax start_lng end_lng + TOWER_SEARCH_BUFFER) in
  ∃ d alternatives r,
    precheck_distance_km start_lat start_lng end_lat end_lng = Return d
    ∧ d <= 900
    ∧ routing start_lat start_lng end_lat end_lng
      = RoutingOk alternatives waypoints
    ∧ calls' = calls ++ [RoutingCall start_lat start_lng end_lat end_lng;
                         tower_search_box start_lat start_lng end_lat end_lng]
    ∧ routes = [r]
    ∧ r ∈ alternatives
    ∧ find_towers_along_route (coordinates r)
        (PyList (PyDict <$> response_towers data))
        (PyNum TOWER_PROXIMITY_METERS) = Return towers_along
    ∧ returned_type = optimization_type
    ∧ source = response_source data.
Proof.
  intros Hrun data.
  pose proof (precheck_distance_km_returns start_lat start_lng end_lat end_lng)
    as Hd.
  eexists. unfold _get_optimized_route, lift_exn in Hrun.
  unfold mbind, io_bind, mret, io_ret in Hrun. rewrite Hd in Hrun.
  case_decide as Hfar; [done |].
  unfold fetch_and_select, call_routing, call_towers, lift_exn in Hrun.
  unfold mbind, io_bind, mret, io_ret in Hrun.
  destruct (routing start_lat start_lng end_lat end_lng)
    as [[|r0 alternatives] waypoints0 | code message] eqn:Hrouting;
    [done | | done].
  fold data in Hrun.
  destruct (_select_optimized_routes (r0 :: alternatives)
              (PyList (PyDict <$> response_towers data))) as [sel|e] eqn:Hsel;
    [| done].
  injection Hrun as Hresult <-.
  destruct (select_response_success r0 alternatives _ sel optimization_type
              waypoints0 (response_source data) Hsel)
    as (r & along & Heq & Hr & Halong).
  rewrite Heq in Hresult. injection Hresult as <- <- <- <- <-.
  exists (r0 :: alternatives), r.
  split; [done |]. split; [lra |]. split; [done |].
  split; [by rewrite <- app_assoc |]. by repeat split.
Qed.

(** X11: a successful result can only come from the full pipeline: the
    distance is within the limit, the routing provider returned
    alternatives, both providers were called once (routing first, then
    the towers of the bounding box widened by 0.1 degrees), and the result
    holds exactly one route, taken from the alternatives, with the towers
    along it, the waypoints of the routing provider, the requested
    optimization type and the source label of the tower provider. *)
Theorem success_comes_from_the_pipeline start_lat start_lng end_lat end_lng
    optimization_type calls calls' routes waypoints towers_along
    returned_type source :
  run start_lat start_lng end_lat end_lng optimization_type calls
  = (Return (Success routes waypoints towers_along returned_type source),
     calls') →
  let data := cell_towers (Rmin start_lat end_lat - TOWER_SEARCH_BUFFER)
                (Rmin start_lng end_lng - TOWER_SEARCH_BUFFER)
                (Rmax start_lat end_lat + TOWER_SEARCH_BUFFER)
                (Rmax start_lng end_lng + TOWER_SEARCH_BUFFER) in
  ∃ d alternatives r,
    precheck_distance_km start_lat start_lng end_lat end_lng = Return d
    ∧ d <= 900
    ∧ routing start_lat start_lng end_lat end_lng
      = RoutingOk alternatives waypoints
    ∧ calls' = calls ++ [RoutingCall start_lat start_lng end_lat end_lng;
                         tower_search_box start_lat start_lng end_lat end_lng]
    ∧ routes = [r]
    ∧ r ∈ alternatives
    ∧ find_towers_along_route (coordinates r)
        (PyList (PyDict <$> response_towers data))
        (PyNum TOWER_PROXIMITY_METERS) = Return towers_along
    ∧ returned_type = optimization_type
    ∧ source = response_source data.
Proof. apply get_optimized_route_Success. Qed.

End OrchestratorMore.

Lemma score_routes_cover i routes towers_in_area scores r :
  score_routes i routes towers_in_area = Return scores →
  r ∈ routes →
  ∃ s, s ∈ scores ∧ route s = r ∧ duration s = route_duration r.
Proof.
  revert i scores. induction routes as [|r0 routes IH]; intros i scores; simpl.
  - intros _ Hr. by apply elem_of_nil in Hr.
  - destruct (score_route i r0 towers_in_area) as [s0|] eqn:Es; simpl; [| done].
    destruct (score_routes (S i) routes towers_in_area) as [ss|] eqn:Ess;
      simpl; [| done].
    intros [= <-] [-> | Hr]%elem_of_cons.
    + apply score_route_inv in Es as (_ & Hroute & _ & Hdur & _).
      exists s0. split; [left | done].
    + destruct (IH _ _ Ess Hr) as (s & Hs & Hrs).
      exists s. split; [by right | done].
Qed.

Lemma score_routes_duration i routes towers_in_area scores s :
  score_routes i routes towers_in_area = Return scores →
  s ∈ scores → duration s = route_duration (route s).
Proof.
  intros Hs Hin.
  destruct (score_routes_elem _ _ _ _ _ Hs Hin) as (j & r & _ & Hj).
  apply score_route_inv in Hj as (_ & -> & _ & -> & _). done.
Qed.

Lemma select_response_fastest selection waypoints source :
  select_response selection "fastest" waypoints source
  = match entry_route (fastest selection) with
    | Some r =>
        Success [r] waypoints (entry_towers (fastest selection)) "fastest"
          source
    | None => Failure NoRoute (no_suitable_route_message "fastest")
    end.
Proof.
  unfold select_response.
  change (selection_get selection "fastest") with (Some (fastest selection)).
  unfold has_route. by destruct (fastest selection) as [[r|] ts].
Qed.

Section FastestRoute.
Variable routing : R → R → R → R → routing_response.
Variable cell_towers : R → R → R → R → towers_response.

(** X12: the route that [get_route_fastest] returns is one of the
    alternatives of the routing provider and no alternative has a shorter
    duration. *)
Theorem get_route_fastest_is_fastest start_lat start_lng end_lat end_lng
    calls calls' routes waypoints towers_along returned_type source :
  get_route_fastest routing cell_towers start_lat start_lng end_lat end_lng
    calls
  = (Return (Success routes waypoints towers_along returned_type source),
     calls') →
  ∃ alternatives r,
    routing start_lat start_lng end_lat end_lng
    = RoutingOk alternatives waypoints
    ∧ routes = [r]
    ∧ r ∈ alternatives
    ∧ ∀ x, x ∈ alternatives → route_duration r <= route_duration x.
Proof.
  unfold get_route_fastest, _get_optimized_route, lift_exn.
  unfold mbind, io_bind, mret, io_ret.
  rewrite precheck_distance_km_returns.
  case_decide as Hfar; [done |].
  unfold fetch_and_select, call_routing, call_towers, lift_exn.
  unfold mbind, io_bind, mret, io_ret.
  destruct (routing start_lat start_lng end_lat end_lng)
    as [[|r0 alternatives] waypoints0 | code message] eqn:Hrouting;
    [done | | done].
  match goal with
  | |- context [_select_optimized_routes ?rs ?ts] =>
      destruct (_select_optimized_routes rs ts) as [sel|e] eqn:Hsel
  end; [| done].
  apply select_optimized_routes_Return in Hsel
    as (scores & normed & Hs & Hn & ->).
  rewrite select_response_fastest.
  change (fastest (structure_output (final_route_selection normed)))
    with (structure_entry (pick_fastest (final_route_selection normed))).
  destruct (pick_fastest (final_route_selection normed)) as [f|] eqn:Hf;
    [| done].
  destruct (fastest_pick_least _ _ _ _ _ Hs Hn Hf) as [Hfin Hmin].
  cbn [structure_entry entry_route entry_towers].
  intros [= <- <- <- <- <- <-].
  pose proof (normalize_scores_inv _ _ Hn) as Hscore.
  assert (score f ∈ scores) as Hsf
    by (rewrite <- Hscore; by apply list_elem_of_fmap_2).
  exists (r0 :: alternatives), (route (score f)).
  split; [done |]. split; [done |]. split.
  - destruct (score_routes_elem _ _ _ _ _ Hs Hsf) as (j & r & Hr & Hj).
    apply score_route_inv in Hj as (_ & -> & _). done.
  - intros x Hx.
    destruct (score_routes_cover _ _ _ _ _ Hs Hx) as (s & Hsin & <- & Hdur).
    rewrite <- Hscore in Hsin.
    apply list_elem_of_fmap in Hsin as (n & -> & Hn').
    rewrite <- (score_routes_duration _ _ _ _ _ Hs Hsf).
    rewrite <- Hdur. by apply Hmin.
Qed.

End FastestRoute.

Lemma precheck_same_point :
  precheck_distance_km 0 0 0 0 = Return (6371 * central_angle 0 0 0 0)
  ∧ 6371 * central_angle 0 0 0 0 <= 900.
Proof.
  split; [apply precheck_distance_km_returns |].
  rewrite central_angle_same. lra.
Qed.

(** X10, witness. *)
Lemma routing_failure_is_propagated_witness :
  _get_optimized_route routing_fails towers_none 0 0 0 0 "fastest" []
  = (Return (Failure PointNotFound "Cannot find point"), [RoutingCall 0 0 0 0]).
Proof.
  destruct precheck_same_point as [Hd Hle].
  destruct (routing_failure_is_propagated routing_fails towers_none 0 0 0 0
              "fastest" [] _ Hd Hle) as [Hfail _].
  apply (Hfail PointNotFound "Cannot find point"). reflexivity.
Defined.

Lemma get_route_fastest_three :
  ∃ r along,
    get_route_fastest routing_three towers_none 0 0 0 0 []
    = (Return (Success [r] [] along "fastest" "mock"),
       [RoutingCall 0 0 0 0; tower_search_box 0 0 0 0]).
Proof.
  destruct precheck_same_point as [Hd Hle].
  destruct (select_response_success candidate_east
              [candidate_half; candidate_slow] (PyList []) _ "fastest" []
              "mock" select_three_candidates) as (r & along & Heq & _).
  exists r, along. unfold get_route_fastest.
  rewrite (get_optimized_route_near _ _ _ _ _ _ _ _ _ Hd Hle).
  rewrite (fetch_and_select_result routing_three towers_none 0 0 0 0 "fastest"
             [] candidate_east [candidate_half; candidate_slow] []
             (structure_output (final_route_selection three_normed))
             eq_refl select_three_candidates).
  cbv zeta. cbn [towers_none response_source]. rewrite Heq. reflexivity.
Qed.

(** X11, witness. *)
Lemma success_comes_from_the_pipeline_witness :
  ∃ r, r ∈ three_candidates
       ∧ ∃ along,
           get_route_fastest routing_three towers_none 0 0 0 0 []
           = (Return (Success [r] [] along "fastest" "mock"),
              [RoutingCall 0 0 0 0; tower_search_box 0 0 0 0]).
Proof.
  destruct get_route_fastest_three as (r & along & Hrun).
  destruct (success_comes_from_the_pipeline routing_three towers_none 0 0 0 0
              "fastest" [] _ _ _ _ _ _ Hrun)
    as (d & alternatives & r' & _ & _ & Hrouting & _ & Hr & Hin & _).
  injection Hr as <-. injection Hrouting as <-.
  exists r. split; [exact Hin |]. exists along. exact Hrun.
Defined.

(** X12, witness. *)
Lemma get_route_fastest_is_fastest_witness :
  ∃ r, Forall (λ x, route_duration r <= route_duration x) three_candidates
       ∧ ∃ along,
           get_route_fastest routing_three towers_none 0 0 0 0 []
           = (Return (Success [r] [] along "fastest" "mock"),
              [RoutingCall 0 0 0 0; tower_search_box 0 0 0 0]).
Proof.
  destruct get_route_fastest_three as (r & along & Hrun).
  destruct (get_route_fastest_is_fastest routing_three towers_none 0 0 0 0
              [] _ _ _ _ _ _ Hrun)
    as (alternatives & r' & Hrouting & Hr & _ & Hmin).
  injection Hr as <-. injection Hrouting as <-.
  exists r. split; [| by exists along].
  apply Forall_forall. exact Hmin.
Defined.

(** ** Parsing a GraphHopper path *)

Lemma slice_bound_IZR z : slice_bound (IZR z) = Return (Z.to_nat z).
Proof.
  unfold slice_bound.
  assert (Int_part (IZR z) = z) as ->.
  { symmetry. apply Int_part_spec. lra. }
  by rewrite decide_True.
Qed.

Lemma clamped_bound_IZR (i : Z) (n : nat) :
  min_with_len (max_with_0 (IZR i)) n
  = IZR (Z.min (Z.max 0 i) (Z.of_nat n)).
Proof.
  unfold min_with_len, max_with_0. rewrite INR_IZR_INZ.
  destruct (decide (0 < IZR i)) as [Hi | Hi].
  - apply lt_IZR in Hi. rewrite (Z.max_r 0 i) by lia.
    destruct (decide (IZR (Z.of_nat n) < IZR i)) as [Hn | Hn].
    + apply lt_IZR in Hn. by rewrite Z.min_r by lia.
    + rewrite Z.min_l; [done |].
      apply Z.le_ngt. intros H. apply Hn. by apply IZR_lt.
  - assert (i <= 0)%Z as Hle.
    { apply Z.le_ngt. intros H. apply Hi. by apply (IZR_lt 0). }
    rewrite (Z.max_l 0 i) by lia.
    destruct (decide (IZR (Z.of_nat n) < 0)) as [Hn | Hn].
    + apply (lt_IZR _ 0) in Hn. lia.
    + by rewrite Z.min_l by lia.
Qed.

Lemma segment_coordinates_integers xs (a b : Z) :
  segment_coordinates (PyList xs) (PyList [PyNum (IZR a); PyNum (IZR b)])
  = Return (PyList (slice xs (clamp_index a (length xs))
                             (clamp_index (b + 1) (length xs)))).
Proof.
  unfold segment_coordinates. cbn [py_truthy py_len mbind exn_bind].
  rewrite bool_decide_eq_true_2 by done.
  destruct xs as [|x xs];
    [simpl; unfold slice; by rewrite drop_nil, take_nil |].
  cbn [andb py_truthy py_item lookup list_lookup py_float mbind exn_bind py_len].
  rewrite clamped_bound_IZR. rewrite <- plus_IZR. rewrite clamped_bound_IZR.
  rewrite !slice_bound_IZR. done.
Qed.

Lemma slice_sublist {A} (xs : list A) start stop :
  slice xs start stop `sublist_of` xs.
Proof.
  unfold slice. etrans; [apply sublist_take | apply sublist_drop].
Qed.

Lemma slice_lookup {A} (xs : list A) start stop k :
  (start + k < stop)%nat →
  slice xs start stop !! k = xs !! (start + k)%nat.
Proof.
  intros Hk. unfold slice. rewrite lookup_take_lt by lia.
  by rewrite lookup_drop.
Qed.

Lemma slice_length {A} (xs : list A) start stop :
  (stop <= length xs)%nat →
  length (slice xs start stop) = (stop - start)%nat.
Proof.
  intros Hstop. unfold slice. rewrite length_take, length_drop. lia.
Qed.

(** X15: the coordinates of a step are the slice of the route's coordinates
    named by the instruction's interval, with both bounds clamped to the
    route: for integer bounds the slice is always defined and is a
    contiguous part of the route; for an interval [[a, b]] within the route
    it runs from point [a] to point [b] inclusive. *)
Theorem segment_is_clamped_slice xs (a b : Z) :
  ∃ segment,
    segment_coordinates (PyList xs) (PyList [PyNum (IZR a); PyNum (IZR b)])
    = Return (PyList segment)
    ∧ segment = slice xs (clamp_index a (length xs))
                         (clamp_index (b + 1) (length xs))
    ∧ segment `sublist_of` xs
    ∧ ((0 <= a <= b)%Z → (b < Z.of_nat (length xs))%Z →
       length segment = Z.to_nat (b - a + 1)
       ∧ ∀ k, (k <= Z.to_nat (b - a))%nat →
              segment !! k = xs !! (Z.to_nat a + k)%nat).
Proof.
  eexists. split; [apply segment_coordinates_integers |].
  split; [done |]. split; [apply slice_sublist |].
  intros Hab Hb.
  assert (clamp_index a (length xs) = Z.to_nat a) as ->
    by (unfold clamp_index; lia).
  assert (clamp_index (b + 1) (length xs) = Z.to_nat (b + 1)) as ->
    by (unfold clamp_index; lia).
  split.
  - rewrite slice_length by lia. lia.
  - intros k Hk. apply slice_lookup. lia.
Qed.

Lemma py_getitem_Return v k x :
  py_getitem v k = Return x → ∃ d, v = PyDict d ∧ d !! k = Some x.
Proof.
  destruct v as [| | | |d]; try done. simpl.
  destruct (d !! k) as [y|] eqn:E; [| done].
  intros [= <-]. by exists d.
Qed.

Lemma parse_legs_Return d coordinates legs :
  parse_legs (PyDict d) coordinates = Return legs →
  (∀ l, d !! "instructions" = Some (PyList l) →
        ∃ steps, legs = [py_dict [("steps", PyList steps)]]
                 ∧ Forall2 (λ instruction step,
                      parse_instruction coordinates instruction = Return step)
                      l steps)
  ∧ ((∀ l, d !! "instructions" ≠ Some (PyList l)) → legs = []).
Proof.
  unfold parse_legs. cbn [py_contains mbind exn_bind py_getitem].
  destruct (d !! "instructions") as [instructions|] eqn:E.
  - rewrite bool_decide_eq_true_2 by done.
    destruct instructions as [| | |l|]; cbn [mbind exn_bind];
      try (intros [= <-]; split; [by intros l [=] | done]).
    destruct (mapM (parse_instruction coordinates) l) as [steps|] eqn:Es;
      simpl; [| done].
    intros [= <-]. split.
    + intros l' [= <-].
      exists steps. split; [done |].
      clear E. revert steps Es. induction l as [|x l IH]; intros steps; simpl.
      * intros [= <-]. constructor.
      * destruct (parse_instruction coordinates x) as [y|] eqn:Ey; simpl;
          [| done].
        destruct (mapM (parse_instruction coordinates) l) as [k|]; simpl;
          [| done].
        intros [= <-]. constructor; [done | by apply IH].
    + intros Hno. by destruct (Hno l).
  - rewrite bool_decide_eq_false_2 by (by intros [? ?]).
    intros [= <-]. split; [by intros l [=] | done].
Qed.

Lemma parse_path_Return path_data profile result :
  _parse_graphhopper_path path_data profile = Return result →
  (result = None
   ∧ ∃ has_points, py_contains "points" path_data = Return has_points
       ∧ (has_points = false
          ∨ ∃ points, py_getitem path_data "points" = Return points
                      ∧ py_contains "coordinates" points = Return false))
  ∨ ∃ d points coordinates time legs,
      path_data = PyDict d
      ∧ d !! "points" = Some (PyDict points)
      ∧ points !! "coordinates" = Some coordinates
      ∧ default (PyNum 0) (d !! "time") = PyNum time
      ∧ parse_legs path_data coordinates = Return legs
      ∧ result = Some (list_to_map
          [("geometry", geojson_line coordinates);
           ("legs", PyList legs);
           ("distance", default (PyNum 0) (d !! "distance"));
           ("duration", PyNum (time / 1000));
           ("weight", default (PyNum 0) (d !! "weight"));
           ("weight_name", PyStr "routability");
           ("ascend", default (PyNum 0) (d !! "ascend"));
           ("descend", default (PyNum 0) (d !! "descend"));
           ("profile_used", PyStr profile)]).
Proof.
  unfold _parse_graphhopper_path.
  destruct (py_contains "points" path_data) as [has_points|] eqn:Hp;
    cbn [mbind exn_bind]; [| done].
  destruct has_points.
  - destruct (py_getitem path_data "points") as [points|] eqn:Hpoints;
      cbn [mbind exn_bind]; [| done].
    destruct (py_contains "coordinates" points) as [has|] eqn:Hc;
      cbn [mbind exn_bind]; [| done].
    destruct has.
    + destruct (py_getitem points "coordinates") as [coordinates|] eqn:Hcs;
        cbn [mbind exn_bind]; [| done].
      apply py_getitem_Return in Hpoints as (d & -> & Hd).
      apply py_getitem_Return in Hcs as (p & -> & Hcs).
      cbn [py_get mbind exn_bind].
      destruct (default (PyNum 0) (d !! "time")) as [|time| | |] eqn:Ht;
        cbn [py_float mbind exn_bind]; try done.
      destruct (parse_legs (PyDict d) coordinates) as [legs|] eqn:Hl;
        cbn [mbind exn_bind]; [| done].
      intros [= <-]. right. by exists d, p, coordinates, time, legs.
    + intros [= <-]. left. split; [done |]. exists true.
      split; [done |]. right. by exists points.
  - cbn [mbind exn_bind]. intros [= <-]. left. split; [done |].
    exists false. by split; [| left].
Qed.

(** X13: for a path that is a JSON object, [_parse_graphhopper_path]
    returns [None] exactly when the path has no ["points"] or its
    ["points"] hold no ["coordinates"]. *)
Theorem parse_path_none_iff_no_coordinates (d : gmap string pyval) profile :
  _parse_graphhopper_path (PyDict d) profile = Return None
  ↔ d !! "points" = None
    ∨ ∃ points, d !! "points" = Some points
                ∧ py_contains "coordinates" points = Return false.
Proof.
  split.
  - intros [(_ & has_points & Hp & Hcases) | H]%parse_path_Return.
    + simpl in Hp. injection Hp as <-.
      destruct Hcases as [Hno | (points & Hpoints & Hc)].
      * left. apply bool_decide_eq_false in Hno.
        destruct (d !! "points"); [| done]. by destruct Hno.
      * right. exists points. split; [| done].
        by apply py_getitem_Return in Hpoints as (d' & [= <-] & ?).
    + by destruct H as (? & ? & ? & ? & ? & _ & _ & _ & _ & _ & ?).
  - unfold _parse_graphhopper_path.
    change (py_contains "points" (PyDict d))
      with (Return (bool_decide (is_Some (d !! "points")))).
    cbn [mbind exn_bind py_getitem].
    intros [Hno | (points & Hpoints & Hc)].
    + rewrite Hno. by rewrite bool_decide_eq_false_2 by (by intros [? ?]).
    + rewrite Hpoints. rewrite bool_decide_eq_true_2 by done.
      cbn [mbind exn_bind]. rewrite Hc. done.
Qed.

(** X14: a route that [_parse_graphhopper_path] returns carries the
    coordinates of the path as its geometry, the path's time divided by
    1000 as its duration (0 when the path has no time), the path's
    distance, and the profile; when the path has a list of instructions
    the route has one leg with exactly one step per instruction, in order,
    and otherwise no leg. *)
Theorem parsed_route_fields path_data profile route :
  _parse_graphhopper_path path_data profile = Return (Some route) →
  ∃ d points coordinates time legs,
    path_data = PyDict d
    ∧ d !! "points" = Some (PyDict points)
    ∧ points !! "coordinates" = Some coordinates
    ∧ default (PyNum 0) (d !! "time") = PyNum time
    ∧ route !! "geometry" = Some (geojson_line coordinates)
    ∧ route !! "duration" = Some (PyNum (time / 1000))
    ∧ route !! "distance" = Some (default (PyNum 0) (d !! "distance"))
    ∧ route !! "profile_used" = Some (PyStr profile)
    ∧ route !! "legs" = Some (PyList legs)
    ∧ (∀ l, d !! "instructions" = Some (PyList l) →
          ∃ steps, legs = [py_dict [("steps", PyList steps)]]
                   ∧ Forall2 (λ instruction step,
                        parse_instruction coordinates instruction
                        = Return step) l steps)
    ∧ ((∀ l, d !! "instructions" ≠ Some (PyList l)) → legs = []).
Proof.
  intros [[[=] _] | (d & points & coordinates & time & legs & -> & Hp & Hc
                     & Ht & Hl & [= ->])]%parse_path_Return.
  exists d, points, coordinates, time, legs.
  do 4 (split; [done |]).
  apply parse_legs_Return in Hl as [Hlist Hnone].
  repeat split; try done.
Qed.

Lemma parse_instruction_interval xs (a b : Z) i time :
  i !! "interval" = Some (PyList [PyNum (IZR a); PyNum (IZR b)]) →
  default (PyNum 0) (i !! "time") = PyNum time →
  ∃ step, parse_instruction (PyList xs) (PyDict i) = Return (PyDict step)
    ∧ step !! "geometry"
      = Some (geojson_line (PyList (slice xs (clamp_index a (length xs))
                                           (clamp_index (b + 1) (length xs))))).
Proof.
  intros Hi Ht. unfold parse_instruction. cbn [py_get mbind exn_bind].
  rewrite Hi. cbn [default from_option Datatypes.id mbind exn_bind].
  rewrite segment_coordinates_integers. cbn [mbind exn_bind].
  rewrite Ht. cbn [py_float mbind exn_bind].
  eexists. split; [reflexivity |]. reflexivity.
Qed.

Lemma parse_path_returns d points coordinates time l profile :
  d !! "points" = Some (PyDict points) →
  points !! "coordinates" = Some coordinates →
  default (PyNum 0) (d !! "time") = PyNum time →
  d !! "instructions" = Some (PyList l) →
  Forall (λ instruction, returns (parse_instruction coordinates instruction))
    l →
  ∃ route, _parse_graphhopper_path (PyDict d) profile = Return (Some route).
Proof.
  intros Hp Hc Ht Hi Hl.
  destruct (mapM_exn_returns _ _ Hl) as (steps & Hsteps & _).
  unfold _parse_graphhopper_path, parse_legs.
  cbn [py_contains py_getitem py_get mbind exn_bind].
  rewrite Hp. rewrite bool_decide_eq_true_2 by done.
  cbn [py_contains py_getitem py_get mbind exn_bind].
  rewrite Hc. rewrite bool_decide_eq_true_2 by done.
  cbn [mbind exn_bind]. rewrite Ht. cbn [py_float mbind exn_bind].
  rewrite Hi. rewrite bool_decide_eq_true_2 by done.
  cbn [mbind exn_bind]. rewrite Hsteps. cbn [mbind exn_bind].
  by eexists.
Qed.

Lemma parse_path_example :
  ∃ route, _parse_graphhopper_path (PyDict path_example) "car"
           = Return (Some route).
Proof.
  eapply (parse_path_returns path_example _ (PyList three_points) 60000);
    [reflexivity .. |].
  repeat constructor.
  - destruct (parse_instruction_interval three_points 0 1
                (list_to_map [("interval", PyList [PyNum 0; PyNum 1]);
                              ("time", PyNum 20000)]) 20000)
      as (step & Hstep & _); [done .. |].
    by exists (PyDict step).
  - destruct (parse_instruction_interval three_points 1 2
                (list_to_map [("interval", PyList [PyNum 1; PyNum 2]);
                              ("time", PyNum 40000)]) 40000)
      as (step & Hstep & _); [done .. |].
    by exists (PyDict step).
Qed.

(** X14, witness. *)
Lemma parsed_route_fields_witness :
  ∃ route legs,
    _parse_graphhopper_path (PyDict path_example) "car" = Return (Some route)
    ∧ route !! "duration" = Some (PyNum (60000 / 1000))
    ∧ route !! "legs" = Some (PyList legs)
    ∧ length legs = 1%nat.
Proof.
  destruct parse_path_example as (route & Hroute).
  destruct (parsed_route_fields (PyDict path_example) "car" route Hroute)
    as (d & points & coordinates & time & legs & Hd & _ & _ & Ht & _ & Hdur
        & _ & _ & Hlegs & Hsteps & _).
  injection Hd as <-. injection Ht as <-.
  exists route, legs. split; [exact Hroute |]. split; [exact Hdur |].
  split; [exact Hlegs |].
  destruct (Hsteps _ eq_refl) as (steps & -> & _). reflexivity.
Defined.

(** ** The GraphHopper request *)

Lemma mapM_exn_Forall2 {A B} (f : A → exn B) l k :
  mapM f l = Return k → Forall2 (λ x y, f x = Return y) l k.
Proof.
  revert k. induction l as [|x l IH]; intros k; simpl.
  - intros [= <-]. constructor.
  - destruct (f x) as [y|] eqn:Ey; simpl; [| done].
    destruct (mapM f l) as [k'|]; simpl; [| done].
    intros [= <-]. constructor; [done | by apply IH].
Qed.

Lemma mapM_exn_Raise {A B} (f : A → exn B) l x e :
  x ∈ l → f x = Raise e → ∃ e', mapM f l = Raise e'.
Proof.
  intros Hx Hf. induction Hx as [x l | x y l Hx IH]; simpl.
  - rewrite Hf. by eexists.
  - destruct (f y); simpl; [| by eexists].
    destruct (IH Hf) as [e' ->]. by eexists.
Qed.

Section GraphHopperFacts.
Variable GRAPHHOPPER_KEY : option string.
Variable requests_get : route_request → http_outcome.
Variable py_repr : pyval → string.

Local Abbreviation provider :=
  (_calculate_graphhopper_routes GRAPHHOPPER_KEY requests_get py_repr).

Lemma key_cases :
  (∃ k, configured GRAPHHOPPER_KEY k)
  ∨ (GRAPHHOPPER_KEY = None ∨ GRAPHHOPPER_KEY = Some EmptyString).
Proof.
  destruct GRAPHHOPPER_KEY as [[|c k]|]; [right; by right | | right; by left].
  left. by exists (String c k).
Qed.

Lemma provider_configured k start_lat start_lng end_lat end_lng alternatives :
  configured GRAPHHOPPER_KEY k →
  provider start_lat start_lng end_lat end_lng alternatives
  = match requests_get (graphhopper_request start_lat start_lng
                          end_lat end_lng alternatives k) with
    | HttpJson data =>
        Return (except_Exception
                  (process_response py_repr data start_lat start_lng
                     end_lat end_lng)
                  unexpected_error)
    | HttpTimeout =>
        Return (GraphhopperFailure Error "Routing service request timed out.")
    | HttpRequestException status_code error_body =>
        request_exception_response py_repr status_code error_body
    | HttpException => Return unexpected_error
    end.
Proof.
  intros [Hk Hne]. unfold _calculate_graphhopper_routes. rewrite Hk.
  by destruct k.
Qed.

Lemma provider_not_configured start_lat start_lng end_lat end_lng alternatives :
  GRAPHHOPPER_KEY = None ∨ GRAPHHOPPER_KEY = Some EmptyString →
  provider start_lat start_lng end_lat end_lng alternatives
  = Return (GraphhopperFailure Error
              "Routing service configuration error: API key missing.").
Proof.
  unfold _calculate_graphhopper_routes. by intros [-> | ->].
Qed.

Lemma request_exception_response_Raise status_code error_body e :
  request_exception_response py_repr status_code error_body = Raise e
  ↔ (status_code = None ∧ e = TypeError)
    ∨ (status_code = Some 400%Z
       ∧ (error_body = Raise e
          ∨ ∃ body, error_body = Return body
                    ∧ py_get body "message" (PyStr "Bad Request") = Raise e)).
Proof.
  unfold request_exception_response.
  destruct status_code as [status|].
  2: { split; [intros [= <-]; by left | by intros [[_ ->] | [[=] _]]]. }
  destruct (decide (status = 401%Z)) as [-> | H401].
  { split; [done | by intros [[[=] _] | [[=] _]]]. }
  destruct (decide (status = 400%Z)) as [-> | H400].
  { destruct error_body as [body|e']; cbn [mbind exn_bind].
    - destruct (py_get body "message" (PyStr "Bad Request")) as [detail|e']
        eqn:Hd; cbn [mbind exn_bind].
      + split; [done |].
        intros [[[=] _] | [_ [[=] | (b & [= <-] & Hb)]]]. congruence.
      + split.
        * intros [= <-]. right. split; [done |]. right. by exists body.
        * intros [[[=] _] | [_ [[=] | (b & [= <-] & Hb)]]]. congruence.
    - split.
      + intros [= <-]. right. split; [done |]. by left.
      + intros [[[=] _] | [_ [[= <-] | (b & [=] & _)]]]. done. }
  split.
  - repeat case_decide; done.
  - intros [[[=] _] | [[= ->] _]]. done.
Qed.

Lemma request_exception_response_Return status_code error_body r :
  request_exception_response py_repr status_code error_body = Return r →
  ∃ message, r = GraphhopperFailure Error message.
Proof.
  unfold request_exception_response.
  destruct status_code as [status|]; [| done].
  repeat case_decide; try (intros [= <-]; by eexists).
  destruct error_body as [body|]; cbn [mbind exn_bind]; [| done].
  destruct (py_get body "message" (PyStr "Bad Request")); cbn [mbind exn_bind];
    [| done].
  intros [= <-]. by eexists.
Qed.

(** X16: [_calculate_graphhopper_routes] lets an exception escape only from
    the handler of a request exception: a [TypeError] when the exception
    carries no status code, and, for status 400, whatever reading the
    message of the error body raises.  In every other case it returns a
    result. *)
Theorem calculate_routes_raises_iff start_lat start_lng end_lat end_lng
    alternatives e :
  provider start_lat start_lng end_lat end_lng alternatives = Raise e
  ↔ ∃ k status_code error_body,
      configured GRAPHHOPPER_KEY k
      ∧ requests_get (graphhopper_request start_lat start_lng end_lat end_lng
                        alternatives k)
        = HttpRequestException status_code error_body
      ∧ ((status_code = None ∧ e = TypeError)
         ∨ (status_code = Some 400%Z
            ∧ (error_body = Raise e
               ∨ ∃ body, error_body = Return body
                         ∧ py_get body "message" (PyStr "Bad Request")
                           = Raise e))).
Proof.
  destruct key_cases as [[k Hk] | Hno].
  - rewrite (provider_configured k) by done.
    split.
    + destruct (requests_get _) as [data| |status_code error_body|] eqn:Hreq;
        try done.
      intros H%request_exception_response_Raise.
      by exists k, status_code, error_body.
    + intros (k' & status_code & error_body & [Hk' _] & Hreq & H).
      destruct Hk as [Hk _]. rewrite Hk in Hk'. injection Hk' as <-.
      rewrite Hreq. by apply request_exception_response_Raise.
  - rewrite provider_not_configured by done.
    split; [done |].
    intros (k & _ & _ & [Hk Hne] & _).
    destruct Hno as [Hno | Hno]; rewrite Hno in Hk; [done |].
    by injection Hk as <-.
Qed.

Lemma no_paths_response_Return data r :
  no_paths_response py_repr data = Return r →
  ∃ code message, r = GraphhopperFailure code message
                  ∧ (code = PointNotFound ∨ code = NoRoute).
Proof.
  unfold no_paths_response.
  destruct (py_get data "message" (PyStr "No route found")) as [m|];
    cbn [mbind exn_bind]; [| done].
  destruct (py_contains "Cannot find point" m) as [[]|]; cbn [mbind exn_bind];
    [intros [= <-]; eexists _, _; split; [done | by left] | | done].
  destruct (py_contains "Connection between locations not found" m) as [[]|];
    cbn [mbind exn_bind]; [| | done];
    intros [= <-]; eexists _, _; (split; [done | by right]).
Qed.

Lemma snapped_waypoints_Return data start_lat start_lng end_lat end_lng
    waypoints :
  snapped_waypoints data start_lat start_lng end_lat end_lng = Return waypoints →
  origin_and_destination waypoints.
Proof.
  unfold snapped_waypoints.
  repeat (match goal with
          | |- context [?m ≫= _] =>
              lazymatch m with
              | Return _ => fail
              | _ => destruct m; cbn [mbind exn_bind]; [| done]
              end
          end).
  intros [= <-]. by eexists _, _.
Qed.

(** The paths of a response, as the loop visits them. *)
Lemma process_response_Return data start_lat start_lng end_lat end_lng r :
  process_response py_repr data start_lat start_lng end_lat end_lng = Return r →
  (∃ code message, r = GraphhopperFailure code message
                   ∧ code ≠ DistanceLimitExceeded)
  ∨ ∃ paths path_list parsed waypoints,
      py_getitem data "paths" = Return paths
      ∧ py_iter paths = Return path_list
      ∧ Forall2 (λ path result,
           _parse_graphhopper_path path "car" = Return result)
          path_list parsed
      ∧ omap Datatypes.id parsed ≠ []
      ∧ origin_and_destination waypoints
      ∧ r = GraphhopperOk (omap Datatypes.id parsed) waypoints.
Proof.
  unfold process_response.
  destruct (py_contains "paths" data) as [has_paths|]; cbn [mbind exn_bind];
    [| done].
  assert (no_paths_response py_repr data = Return r →
          ∃ code message, r = GraphhopperFailure code message
                          ∧ code ≠ DistanceLimitExceeded) as Hno.
  { intros (code & message & -> & Hcode)%no_paths_response_Return.
    exists code, message. split; [done |]. by destruct Hcode as [-> | ->]. }
  destruct has_paths; cbn [mbind exn_bind]; [| intros; left; by apply Hno].
  destruct (py_getitem data "paths") as [paths|] eqn:Hpaths;
    cbn [mbind exn_bind]; [| done].
  destruct (negb (py_truthy paths)); [intros; left; by apply Hno |].
  destruct (py_len paths); cbn [mbind exn_bind]; [| done].
  destruct (py_iter paths) as [path_list|] eqn:Hlist; cbn [mbind exn_bind];
    [| done].
  unfold parse_paths.
  destruct (mapM _ path_list) as [parsed|] eqn:Hparsed; cbn [mbind exn_bind];
    [| done].
  apply mapM_exn_Forall2 in Hparsed.
  destruct (omap Datatypes.id parsed) as [|route routes] eqn:Hroutes.
  { intros [= <-]. left. by eexists _, _. }
  destruct (snapped_waypoints data start_lat start_lng end_lat end_lng)
    as [waypoints|] eqn:Hw; cbn [mbind exn_bind]; [| done].
  apply snapped_waypoints_Return in Hw.
  intros [= <-]. right. exists paths, path_list, parsed, waypoints.
  by rewrite Hroutes.
Qed.

(** X17: a result of [_calculate_graphhopper_routes] is either a failure
    with one of the codes Error, PointNotFound and NoRoute, or a success
    that carries at least one route and the two waypoints Origin and
    Destination; the routes of a success are the parsed paths of the
    response in the order of the response, the paths without coordinates
    left out, and the request asked for between 1 and 10 paths. *)
Theorem calculate_routes_result start_lat start_lng end_lat end_lng
    alternatives r :
  provider start_lat start_lng end_lat end_lng alternatives = Return r →
  (∃ code message, r = GraphhopperFailure code message
                   ∧ code ≠ DistanceLimitExceeded)
  ∨ ∃ k data paths path_list parsed waypoints,
      configured GRAPHHOPPER_KEY k
      ∧ (1 <= max_paths (graphhopper_request start_lat start_lng end_lat
                           end_lng alternatives k) <= 10)%Z
      ∧ requests_get (graphhopper_request start_lat start_lng end_lat end_lng
                        alternatives k) = HttpJson data
      ∧ py_getitem data "paths" = Return paths
      ∧ py_iter paths = Return path_list
      ∧ Forall2 (λ path result,
           _parse_graphhopper_path path "car" = Return result)
          path_list parsed
      ∧ omap Datatypes.id parsed ≠ []
      ∧ origin_and_destination waypoints
      ∧ r = GraphhopperOk (omap Datatypes.id parsed) waypoints.
Proof.
  destruct key_cases as [[k Hk] | Hno].
  2: { rewrite provider_not_configured by done.
       intros [= <-]. left. by eexists _, _. }
  rewrite (provider_configured k) by done.
  destruct (requests_get _) as [data| |status_code error_body|] eqn:Hreq.
  - destruct (process_response py_repr data start_lat start_lng end_lat end_lng)
      as [r'|] eqn:Hr; cbn [except_Exception].
    + intros [= <-].
      apply process_response_Return in Hr
        as [Hfail | (paths & path_list & parsed & waypoints & H)];
        [by left |].
      right. exists k, data, paths, path_list, parsed, waypoints.
      split; [done |]. split; [| done].
      unfold graphhopper_request, MAX_ALTERNATIVES. cbn [max_paths]. lia.
    + intros [= <-]. left. by eexists _, _.
  - intros [= <-]. left. by eexists _, _.
  - intros (message & ->)%request_exception_response_Return.
    left. by eexists _, _.
  - intros [= <-]. left. by eexists _, _.
Qed.

(** X18: one path on which [_parse_graphhopper_path] raises spoils the
    whole response: the result is the failure "An unexpected error
    occurred during route calculation.", whatever the other paths hold. *)
Theorem malformed_path_spoils_response start_lat start_lng end_lat end_lng
    alternatives k d paths path e :
  configured GRAPHHOPPER_KEY k →
  requests_get (graphhopper_request start_lat start_lng end_lat end_lng
                  alternatives k) = HttpJson (PyDict d) →
  d !! "paths" = Some (PyList paths) →
  path ∈ paths →
  _parse_graphhopper_path path "car" = Raise e →
  provider start_lat start_lng end_lat end_lng alternatives
  = Return unexpected_error.
Proof.
  intros Hk Hreq Hpaths Hpath He.
  rewrite (provider_configured k) by done. rewrite Hreq.
  unfold process_response. cbn [py_contains py_getitem mbind exn_bind].
  rewrite Hpaths. rewrite bool_decide_eq_true_2 by done.
  cbn [mbind exn_bind].
  destruct paths as [|p paths]; [by apply elem_of_nil in Hpath |].
  cbn [py_truthy negb py_len py_iter mbind exn_bind].
  unfold parse_paths.
  destruct (mapM_exn_Raise (λ path, _parse_graphhopper_path path "car")
              (p :: paths) path e Hpath He) as [e' ->].
  done.
Qed.

End GraphHopperFacts.

Lemma lookup_singleton_dict k (v : pyval) :
  (list_to_map [(k, v)] : gmap string pyval) !! k = Some v.
Proof. simpl. apply lookup_insert_eq. Qed.

Lemma calculate_routes_example :
  ∃ route waypoints,
    _calculate_graphhopper_routes (Some "key") requests_get_example repr_stub
      0 0 0 2 DEFAULT_ALTERNATIVES
    = Return (GraphhopperOk [route] waypoints).
Proof.
  destruct parse_path_example as (route & Hroute).
  exists route.
  rewrite (provider_configured _ _ _ "key") by done.
  unfold requests_get_example, process_response.
  cbn [py_dict py_contains py_getitem mbind exn_bind].
  rewrite bool_decide_eq_true_2 by done.
  cbn [mbind exn_bind]. rewrite lookup_singleton_dict.
  cbn [mbind exn_bind py_truthy negb py_len py_iter].
  unfold parse_paths. cbn [mapM mbind exn_bind].
  rewrite Hroute. cbn [mbind exn_bind omap option_bind list_omap].
  by eexists.
Qed.

(** X17, witness. *)
Lemma calculate_routes_result_witness :
  ∃ routes waypoints,
    _calculate_graphhopper_routes (Some "key") requests_get_example repr_stub
      0 0 0 2 DEFAULT_ALTERNATIVES
    = Return (GraphhopperOk routes waypoints)
    ∧ routes ≠ []
    ∧ origin_and_destination waypoints.
Proof.
  destruct calculate_routes_example as (route & waypoints & Hr).
  exists [route], waypoints. split; [exact Hr |]. split; [done |].
  destruct (calculate_routes_result (Some "key") requests_get_example repr_stub
              0 0 0 2 DEFAULT_ALTERNATIVES _ Hr)
    as [(code & message & Hfail & _)
       | (k & data & paths & path_list & parsed & waypoints' & _ & _ & _ & _
          & _ & _ & _ & Hw & Hok)].
  - discriminate Hfail.
  - injection Hok as _ ->. exact Hw.
Defined.

(** X18, witness: a response whose second path is [null]. *)
Lemma malformed_path_spoils_response_witness :
  _calculate_graphhopper_routes (Some "key") requests_get_malformed repr_stub
    0 0 0 2 DEFAULT_ALTERNATIVES
  = Return unexpected_error.
Proof.
  apply (malformed_path_spoils_response (Some "key") requests_get_malformed
           repr_stub 0 0 0 2 DEFAULT_ALTERNATIVES "key"
           (list_to_map [("paths", PyList [PyDict path_example; PyNone])])
           [PyDict path_example; PyNone] PyNone TypeError).
  - split; [reflexivity | discriminate].
  - reflexivity.
  - reflexivity.
  - apply list_elem_of_further, list_elem_of_here.
  - reflexivity.
Defined.

(** X16, an instance: a request that fails without a response. *)
Lemma calculate_routes_refused :
  _calculate_graphhopper_routes (Some "key") requests_get_refused repr_stub
    0 0 0 2 DEFAULT_ALTERNATIVES
  = Raise TypeError.
Proof. reflexivity. Qed.

(** ** The endpoint [/routing/calculate] *)

Lemma ascii_lower_idemp c : ascii_lower (ascii_lower c) = ascii_lower c.
Proof. by destruct c as [[] [] [] [] [] [] [] []]. Qed.

Lemma lower_idemp s : lower (lower s) = lower s.
Proof.
  induction s as [|c s IH]; simpl; [done |].
  by rewrite ascii_lower_idemp, IH.
Qed.

Lemma requested_route_type_valid args :
  requested_route_type args ∈ valid_route_types.
Proof.
  unfold requested_route_type. cbv zeta. case_bool_decide; [done |].
  unfold valid_route_types. set_solver.
Qed.

Lemma requested_route_type_insert args t :
  requested_route_type (<["route_type" := t]> args)
  = if bool_decide (lower t ∈ valid_route_types) then lower t else "balanced".
Proof. unfold requested_route_type. by rewrite lookup_insert_eq. Qed.

Lemma select_response_Failure selection optimization_type waypoints source
    code message :
  select_response selection optimization_type waypoints source
  = Failure code message →
  code = NoRoute.
Proof.
  unfold select_response. cbv zeta.
  destruct (match has_route (selection_get selection optimization_type) with
            | Some info => Some info
            | None => has_route (selection_get selection "fastest")
            end) as [[[r|] ts]|]; [done | |]; by intros [= <- _].
Qed.

Section EndpointFacts.
Variable float : string → option R.
Variable routing : R → R → R → R → routing_response.
Variable cell_towers : R → R → R → R → towers_response.

Local Abbreviation endpoint := (calculate_route float routing cell_towers).

Lemma get_optimized_route_Failure start_lat start_lng end_lat end_lng
    optimization_type calls calls' code message :
  _get_optimized_route routing cell_towers start_lat start_lng end_lat end_lng
    optimization_type calls
  = (Return (Failure code message), calls') →
  (code = DistanceLimitExceeded ∧ calls' = calls)
  ∨ routing start_lat start_lng end_lat end_lng = RoutingFailure code message
  ∨ code = NoRoute.
Proof.
  unfold _get_optimized_route, lift_exn. unfold mbind, io_bind, mret, io_ret.
  rewrite precheck_distance_km_returns.
  case_decide as Hfar; [intros [= <- _ <-]; by left |].
  unfold fetch_and_select, call_routing, call_towers, lift_exn.
  unfold mbind, io_bind, mret, io_ret.
  destruct (routing start_lat start_lng end_lat end_lng)
    as [[|r alternatives] waypoints | code' message'].
  - intros [= <- _ _]. by right; right.
  - match goal with
    | |- context [_select_optimized_routes ?rs ?ts] =>
        destruct (_select_optimized_routes rs ts) as [sel|e]
    end; [| done].
    intros [= H _]. apply select_response_Failure in H. by right; right.
  - intros [= <- <- _]. by right; left.
Qed.

Lemma get_optimized_route_far start_lat start_lng end_lat end_lng
    optimization_type calls d :
  precheck_distance_km start_lat start_lng end_lat end_lng = Return d →
  900 < d →
  _get_optimized_route routing cell_towers start_lat start_lng end_lat end_lng
    optimization_type calls
  = (Return (Failure DistanceLimitExceeded
       "Route exceeds the maximum waypoint distance limit of the GraphHopper API free tier."),
     calls).
Proof.
  intros Hd Hfar. unfold _get_optimized_route, lift_exn.
  unfold mbind, io_bind, mret, io_ret. rewrite Hd.
  by rewrite decide_True by done.
Qed.

(** The service function that the endpoint calls. *)
Lemma calculate_route_service args calls start_lat start_lng end_lat end_lng :
  forallb provided [args !! "start_lat"; args !! "start_lng";
                    args !! "end_lat"; args !! "end_lng"] = true →
  request_coordinates float args
  = Some (start_lat, start_lng, end_lat, end_lng) →
  endpoint args calls
  = match _get_optimized_route routing cell_towers start_lat start_lng
            end_lat end_lng (requested_route_type args) calls with
    | (Return (Failure code message), calls') =>
        ((ErrorBody message, failure_status code), calls')
    | (Return result, calls') => ((ResultBody result, 200%nat), calls')
    | (Raise _, calls') => ((unexpected_error_body, 500%nat), calls')
    end.
Proof.
  intros Hprovided Hcoords. unfold calculate_route. cbv zeta.
  rewrite Hprovided. cbn [negb].
  unfold request_coordinates in Hcoords. rewrite Hcoords.
  pose proof (requested_route_type_valid args) as Hvalid.
  unfold get_route_cell_coverage, get_route_fastest, get_route_balanced.
  destruct (decide (requested_route_type args = "cell_coverage")) as [<- | H1];
    [done |].
  destruct (decide (requested_route_type args = "fastest")) as [<- | H2];
    [done |].
  assert (requested_route_type args = "balanced") as Hb
    by (unfold valid_route_types in Hvalid; set_solver).
  by rewrite <- Hb.
Qed.

(** X19: the statuses of [/routing/calculate].  The endpoint answers 200,
    400, 500 or 503 and never raises.  A 503 means that the routing
    provider reported the code Error, whose message is passed on; a 200
    carries one route, which is one of the provider's alternatives, for the
    requested route type after defaulting; every other answer is an error
    body. *)
Theorem calculate_route_status args calls body status calls' :
  endpoint args calls = ((body, status), calls') →
  (status = 400%nat ∧ ∃ message, body = ErrorBody message)
  ∨ (status = 500%nat ∧ body = unexpected_error_body)
  ∨ ∃ start_lat start_lng end_lat end_lng,
      request_coordinates float args
      = Some (start_lat, start_lng, end_lat, end_lng)
      ∧ ((status = 503%nat
          ∧ ∃ message,
              routing start_lat start_lng end_lat end_lng
              = RoutingFailure Error message
              ∧ body = ErrorBody message)
         ∨ (status = 200%nat
            ∧ ∃ alternatives route waypoints towers source,
                routing start_lat start_lng end_lat end_lng
                = RoutingOk alternatives waypoints
                ∧ route ∈ alternatives
                ∧ body = ResultBody
                           (Success [route] waypoints towers
                              (requested_route_type args) source))).
Proof.
  destruct (forallb provided [args !! "start_lat"; args !! "start_lng";
                              args !! "end_lat"; args !! "end_lng"])
    eqn:Hprovided.
  2: { unfold calculate_route. cbv zeta. rewrite Hprovided. cbn [negb].
       intros [= <- <- _]. left. split; [done |]. by eexists. }
  destruct (request_coordinates float args)
    as [[[[start_lat start_lng] end_lat] end_lng]|] eqn:Hcoords.
  2: { unfold calculate_route. cbv zeta. rewrite Hprovided. cbn [negb].
       unfold request_coordinates in Hcoords. rewrite Hcoords.
       intros [= <- <- _]. left. split; [done |]. by eexists. }
  rewrite (calculate_route_service args calls _ _ _ _ Hprovided Hcoords).
  destruct (_get_optimized_route routing cell_towers start_lat start_lng
              end_lat end_lng (requested_route_type args) calls)
    as [[[code message | routes waypoints towers ty source] | e] calls'']
    eqn:Hrun.
  - intros [= <- <- _].
    apply get_optimized_route_Failure in Hrun
      as [[-> _] | [Hrouting | ->]].
    + left. split; [done |]. by eexists.
    + destruct code; try (left; split; [done | by eexists]).
      right; right. exists start_lat, start_lng, end_lat, end_lng.
      split; [done |]. left. split; [done |]. by exists message.
    + left. split; [done |]. by eexists.
  - intros [= <- <- _].
    apply get_optimized_route_Success in Hrun
      as (d & alternatives & r & _ & _ & Hrouting & _ & -> & Hr & _ & -> & _).
    right; right. exists start_lat, start_lng, end_lat, end_lng.
    split; [done |]. right. split; [done |].
    by exists alternatives, r, waypoints, towers, source.
  - intros [= <- <- _]. right; left. done.
Qed.

(** X20: a request in which one of the four coordinates is missing, empty
    or not a number is answered with status 400, and no provider is
    called. *)
Theorem calculate_route_rejects_bad_coordinates args calls name :
  name ∈ coordinate_names →
  provided (args !! name) = false
  ∨ (∃ s, args !! name = Some s ∧ float s = None) →
  ∃ message, endpoint args calls = ((ErrorBody message, 400%nat), calls).
Proof.
  intros Hname Hbad. unfold calculate_route. cbv zeta.
  destruct (forallb provided [args !! "start_lat"; args !! "start_lng";
                              args !! "end_lat"; args !! "end_lng"])
    eqn:Hprovided; cbn [negb]; [| by eexists].
  destruct (coordinates_of float (args !! "start_lat") (args !! "start_lng")
              (args !! "end_lat") (args !! "end_lng"))
    as [[[[start_lat start_lng] end_lat] end_lng]|] eqn:Hcoords;
    [| by eexists].
  exfalso.
  cbn [forallb] in Hprovided.
  repeat (apply andb_prop in Hprovided as [? Hprovided]).
  unfold coordinates_of in Hcoords.
  destruct (args !! "start_lat") as [s1|] eqn:E1; [| done].
  destruct (args !! "start_lng") as [s2|] eqn:E2; [| done].
  destruct (args !! "end_lat") as [s3|] eqn:E3; [| done].
  destruct (args !! "end_lng") as [s4|] eqn:E4; [| done].
  cbn [mbind option_bind] in Hcoords.
  destruct (float s1) eqn:Ef1; [| done].
  destruct (float s2) eqn:Ef2; [| done].
  destruct (float s3) eqn:Ef3; [| done].
  destruct (float s4) eqn:Ef4; [| done].
  unfold coordinate_names in Hname.
  repeat (apply elem_of_cons in Hname as [-> | Hname]);
    try (by apply elem_of_nil in Hname);
    rewrite ?E1, ?E2, ?E3, ?E4 in Hbad;
    (destruct Hbad as [Hbad | (s & Hs & Hf)]; [congruence |]);
    injection Hs as <-; congruence.
Qed.

(** X21: the route type of a request is read without regard to case, and a
    missing or unknown route type is served as [balanced]. *)
Theorem route_type_is_normalised args t calls :
  endpoint (<["route_type" := t]> args) calls
  = endpoint (<["route_type" := lower t]> args) calls
  ∧ (lower t ∉ valid_route_types →
     endpoint (<["route_type" := t]> args) calls
     = endpoint (<["route_type" := "balanced"]> args) calls)
  ∧ endpoint (delete "route_type" args) calls
    = endpoint (<["route_type" := "balanced"]> args) calls.
Proof.
  assert (Hsame : ∀ args1 args2,
            (∀ name, name ≠ "route_type" → args1 !! name = args2 !! name) →
            requested_route_type args1 = requested_route_type args2 →
            endpoint args1 calls = endpoint args2 calls).
  { intros args1 args2 Hargs Htype. unfold calculate_route. cbv zeta.
    rewrite !(Hargs "start_lat"), !(Hargs "start_lng"), !(Hargs "end_lat"),
      !(Hargs "end_lng") by done.
    by rewrite Htype. }
  split; [| split].
  - apply Hsame.
    + intros name Hname. by rewrite !lookup_insert_ne.
    + rewrite !requested_route_type_insert. by rewrite lower_idemp.
  - intros Hunknown. apply Hsame.
    + intros name Hname. by rewrite !lookup_insert_ne.
    + rewrite !requested_route_type_insert.
      by rewrite bool_decide_eq_false_2.
  - apply Hsame.
    + intros name Hname.
      by rewrite lookup_delete_ne, lookup_insert_ne.
    + rewrite requested_route_type_insert. unfold requested_route_type.
      by rewrite lookup_delete_eq.
Qed.

(** X22: a request whose start and end are more than 900 km apart on the
    great circle is answered with status 400 and the message of the
    distance limit, and no provider is called. *)
Theorem calculate_route_too_far args calls start_lat start_lng end_lat
    end_lng d :
  forallb provided [args !! "start_lat"; args !! "start_lng";
                    args !! "end_lat"; args !! "end_lng"] = true →
  request_coordinates float args
  = Some (start_lat, start_lng, end_lat, end_lng) →
  precheck_distance_km start_lat start_lng end_lat end_lng = Return d →
  900 < d →
  endpoint args calls
  = ((ErrorBody
        "Route exceeds the maximum waypoint distance limit of the GraphHopper API free tier.",
      400%nat), calls).
Proof.
  intros Hprovided Hcoords Hd Hfar.
  rewrite (calculate_route_service args calls _ _ _ _ Hprovided Hcoords).
  by rewrite (get_optimized_route_far _ _ _ _ _ _ d Hd Hfar).
Qed.

End EndpointFacts.

Lemma calculate_route_near :
  ∃ r along,
    calculate_route float_example routing_three towers_none args_near []
    = ((ResultBody (Success [r] [] along "fastest" "mock"), 200%nat),
       [RoutingCall 0 0 0 0; tower_search_box 0 0 0 0]).
Proof.
  destruct get_route_fastest_three as (r & along & Hrun).
  exists r, along.
  rewrite (calculate_route_service float_example routing_three towers_none
             args_near [] 0 0 0 0 eq_refl eq_refl).
  change (requested_route_type args_near) with "fastest".
  unfold get_route_fastest in Hrun. by rewrite Hrun.
Qed.

(** X19, witness: a request for the FASTEST route from a point to
    itself. *)
Lemma calculate_route_status_witness :
  ∃ route along calls,
    calculate_route float_example routing_three towers_none args_near []
    = ((ResultBody (Success [route] [] along "fastest" "mock"), 200%nat), calls)
    ∧ route ∈ three_candidates.
Proof.
  destruct calculate_route_near as (r & along & Hrun).
  exists r, along. eexists. split; [exact Hrun |].
  destruct (calculate_route_status float_example routing_three towers_none
              args_near [] _ _ _ Hrun)
    as [[Hstatus _] | [[Hstatus _]
       | (start_lat & start_lng & end_lat & end_lng & _
          & [[Hstatus _]
            | (_ & alternatives & route & waypoints & towers & source
               & Hrouting & Hroute & Hbody)])]];
    try discriminate Hstatus.
  injection Hrouting as <- _. injection Hbody as <- _ _ _. exact Hroute.
Defined.

(** X20, witness: a request without [end_lng]. *)
Lemma calculate_route_rejects_bad_coordinates_witness :
  ∃ message,
    calculate_route float_example routing_three towers_none args_incomplete []
    = ((ErrorBody message, 400%nat), []).
Proof.
  apply (calculate_route_rejects_bad_coordinates float_example routing_three
           towers_none args_incomplete [] "end_lng").
  - unfold coordinate_names.
    do 3 apply list_elem_of_further. apply list_elem_of_here.
  - left. reflexivity.
Defined.

(** X22, witness: a request from a point to its antipode. *)
Lemma calculate_route_too_far_witness :
  calculate_route float_example routing_three towers_none args_far []
  = ((ErrorBody
        "Route exceeds the maximum waypoint distance limit of the GraphHopper API free tier.",
      400%nat), []).
Proof.
  destruct precheck_far as (d & Hd & Hfar).
  exact (calculate_route_too_far float_example routing_three towers_none
           args_far [] 0 0 0 180 d eq_refl eq_refl Hd Hfar).
Defined.

(** ** Mock towers *)

Section MockTowerFacts.
Context {rng : Type}.
Variable random_random : rng → R * rng.
Variable random_randint : Z → Z → rng → Z * rng.
Variable random_choice : list string → rng → string * rng.
Variable time_time : Z.

(** What the [random] module promises. *)
Hypothesis random_unit : ∀ g, 0 <= (random_random g).1 < 1.
Hypothesis randint_range :
  ∀ a b g, (a <= b)%Z → (a <= (random_randint a b g).1 <= b)%Z.

Local Abbreviation tower :=
  (mock_tower random_random random_randint random_choice time_time).
Local Abbreviation loop :=
  (mock_loop random_random random_randint random_choice time_time).
Local Abbreviation generate :=
  (_generate_mock_towers random_random random_randint random_choice time_time).

Lemma mock_tower_fields min_latitude min_longitude latitude_range
    longitude_range i g :
  0 < latitude_range → 0 < longitude_range →
  let t := (tower min_latitude min_longitude latitude_range longitude_range
              i g).1 in
  t !! "id" = Some (PyStr ("mock_" +:+ pretty i))
  ∧ tower_in_box min_latitude min_longitude (min_latitude + latitude_range)
      (min_longitude + longitude_range) t.
Proof.
  intros Hlat Hlon. unfold mock_tower.
  pose proof (random_unit g) as Hu.
  destruct (random_random g) as [u g1].
  pose proof (random_unit g1) as Hv.
  destruct (random_random g1) as [v g2].
  pose proof (randint_range (-115) (-65) g2 ltac:(lia)) as Hs.
  destruct (random_randint (-115) (-65) g2) as [signal g3].
  destruct (random_choice radio_technologies g3) as [radio g4].
  destruct (if decide (radio = "5G") then random_randint 500 2000 g4
            else random_randint 1000 5000 g4) as [range_meters g5].
  destruct (random_randint 10 410 g5) as [net g6].
  destruct (random_randint 1000 60000 g6) as [area g7].
  destruct (random_randint 10000 999999 g7) as [cell g8].
  destruct (random_randint 1 50 g8) as [samples g9].
  destruct (random_randint 3600 (86400 * 30) g9) as [age g10].
  cbn [fst] in *. split; [done |].
  exists (min_latitude + u * latitude_range),
    (min_longitude + v * longitude_range), signal.
  split; [done |]. split; [nra |]. split; [done |]. split; [nra |].
  split; [done |]. done.
Qed.

Lemma mock_loop_spec min_latitude min_longitude latitude_range
    longitude_range start n g :
  0 < latitude_range → 0 < longitude_range →
  let towers := (loop min_latitude min_longitude latitude_range
                   longitude_range (seq start n) g).1 in
  length towers = n
  ∧ ∀ i t, towers !! i = Some t →
      t !! "id" = Some (PyStr ("mock_" +:+ pretty (start + i)%nat))
      ∧ tower_in_box min_latitude min_longitude
          (min_latitude + latitude_range) (min_longitude + longitude_range) t.
Proof.
  intros Hlat Hlon. revert start g.
  induction n as [|n IH]; intros start g; cbn [seq mock_loop].
  - split; [done |]. by intros i t.
  - pose proof (mock_tower_fields min_latitude min_longitude latitude_range
                  longitude_range start g Hlat Hlon) as Hfirst.
    destruct (tower min_latitude min_longitude latitude_range longitude_range
                start g) as [t0 g1].
    specialize (IH (S start) g1).
    destruct (loop min_latitude min_longitude latitude_range longitude_range
                (seq (S start) n) g1) as [towers g2].
    cbn [fst] in *. destruct IH as [Hlen Hrest].
    split; [simpl; by rewrite Hlen |].
    intros [|i] t; simpl.
    + intros [= <-]. by rewrite Nat.add_0_r.
    + intros Ht. apply Hrest in Ht.
      by replace (start + S i)%nat with (S start + i)%nat by lia.
Qed.

(** X23: [_generate_mock_towers] returns no tower for a box without
    extent; for a proper box it returns exactly the requested number of
    towers (between 30 and 80 when none is requested), tower number [i]
    has the id [mock_i], lies inside the box, and has an average signal
    between -115 and -65. *)
Theorem mock_towers_in_box min_latitude min_longitude max_latitude
    max_longitude num_towers g :
  let towers := (generate min_latitude min_longitude max_latitude
                   max_longitude num_towers g).1 in
  (max_latitude <= min_latitude ∨ max_longitude <= min_longitude →
   towers = [])
  ∧ (min_latitude < max_latitude → min_longitude < max_longitude →
     (∀ n, num_towers = Some n → length towers = Z.to_nat n)
     ∧ (num_towers = None → (30 <= length towers <= 80)%nat)
     ∧ ∀ i t, towers !! i = Some t →
         t !! "id" = Some (PyStr ("mock_" +:+ pretty i))
         ∧ tower_in_box min_latitude min_longitude max_latitude
             max_longitude t).
Proof.
  unfold _generate_mock_towers. cbv zeta.
  pose proof (randint_range 30 80 g ltac:(lia)) as Hcount.
  destruct (match num_towers with
            | Some n => (n, g)
            | None => random_randint 30 80 g
            end) as [n g1] eqn:Hn.
  split.
  - intros Hbox.
    destruct Hbox; [rewrite bool_decide_eq_true_2 by lra; done |].
    rewrite (bool_decide_eq_true_2 (max_longitude - min_longitude <= 0))
      by lra.
    by rewrite orb_true_r.
  - intros Hlat Hlon.
    rewrite !bool_decide_eq_false_2 by lra. cbn [orb].
    destruct (mock_loop_spec min_latitude min_longitude
                (max_latitude - min_latitude) (max_longitude - min_longitude)
                0 (Z.to_nat n) g1 ltac:(lra) ltac:(lra)) as [Hlen Hall].
    split; [| split].
    + intros n' ->. by injection Hn as <- _.
    + intros ->. rewrite Hlen. rewrite Hn in Hcount. cbn [fst] in Hcount. lia.
    + intros i t Ht. apply Hall in Ht as [Hid Hbox]. split; [done |].
      by replace max_latitude with (min_latitude + (max_latitude - min_latitude))
        by lra;
      replace max_longitude
        with (min_longitude + (max_longitude - min_longitude)) by lra.
Qed.

End MockTowerFacts.

(** X23, witness: three towers in the unit box. *)
Lemma mock_towers_in_box_witness :
  length (_generate_mock_towers least_random least_randint first_choice 0
            0 0 1 1 (Some 3%Z) ()).1 = 3%nat.
Proof.
  destruct (mock_towers_in_box least_random least_randint first_choice 0
              (λ g, ltac:(simpl; lra))
              (λ a b g H, ltac:(simpl; lia))
              0 0 1 1 (Some 3%Z) ()) as [_ Hbox].
  destruct (Hbox ltac:(lra) ltac:(lra)) as [Hlen _].
  exact (Hlen 3%Z eq_refl).
Defined.

(** ** A larger search radius *)

Section SortedSublist.
Context {A : Type} (lt : A → A → bool).
Hypothesis Hlt : strict_weak_order lt.

Lemma sublist_insert_sorted x l : l `sublist_of` insert_sorted lt x l.
Proof.
  induction l as [|y l IH]; simpl; [apply sublist_nil_l |].
  destruct (lt y x); [by apply sublist_skip | by apply sublist_cons].
Qed.

Lemma insert_sorted_sublist x l1 l2 :
  l1 `sublist_of` l2 →
  StronglySorted (not_after lt) l2 →
  insert_sorted lt x l1 `sublist_of` insert_sorted lt x l2.
Proof.
  destruct Hlt as [_ Hneg].
  induction 1 as [|y l1 l2 Hsub IH|y l1 l2 Hsub IH]; intros Hsorted.
  - done.
  - apply StronglySorted_inv in Hsorted as [Hl2 _]. simpl.
    destruct (lt y x); [apply sublist_skip; by apply IH |].
    by do 2 apply sublist_skip.
  - apply StronglySorted_inv in Hsorted as [Hl2 Hy]. simpl.
    destruct (lt y x) eqn:Hyx; [apply sublist_cons; by apply IH |].
    destruct l1 as [|z l1]; simpl.
    + apply sublist_skip, sublist_nil_l.
    + assert (lt z x = false) as ->.
      { destruct (lt z x) eqn:Hzx; [| done].
        assert (z ∈ l2) as Hz
          by (eapply elem_of_sublist; [apply list_elem_of_here | exact Hsub]).
        rewrite Forall_forall in Hy. specialize (Hy z Hz).
        unfold not_after in Hy.
        destruct (Hneg z x y Hzx); congruence. }
      by apply sublist_skip, sublist_cons.
Qed.

(** Sorting keeps sub-sequences: the sort is stable. *)
Lemma sorted_sublist l1 l2 :
  l1 `sublist_of` l2 → sorted lt l1 `sublist_of` sorted lt l2.
Proof.
  induction 1 as [|y l1 l2 Hsub IH|y l1 l2 Hsub IH]; simpl.
  - done.
  - apply insert_sorted_sublist; [done |]. by apply sorted_StronglySorted.
  - etrans; [exact IH | apply sublist_insert_sorted].
Qed.

End SortedSublist.

Lemma near_route_mono line m m' lat lon :
  m <= m' → near_route line m lat lon → near_route line m' lat lon.
Proof.
  unfold near_route, within_prefilter. intros Hm [Hdeg Hdist].
  split; lra.
Qed.

Lemma kept_mono line m m' t :
  m <= m' →
  kept line (line_length line) (m / 111000) m t
  `sublist_of` kept line (line_length line) (m' / 111000) m' t.
Proof.
  intros Hm. destruct t as [| | | |d]; try done.
  destruct (well_formed_tower_dec d) as [[[lat lon] Hwf] | Hno].
  - simpl in Hwf. rewrite !(kept_well_formed _ _ _ _ _ Hwf).
    destruct (decide (near_route line m lat lon)) as [Hnear | Hfar].
    + by rewrite decide_True by (by apply (near_route_mono line m m')).
    + apply sublist_nil_l.
  - rewrite !kept_malformed by done. done.
Qed.

Lemma kept_towers_mono line m m' ts :
  m <= m' → kept_towers line m ts `sublist_of` kept_towers line m' ts.
Proof.
  intros Hm. induction ts as [|t ts IH]; [done |].
  rewrite !kept_towers_cons. apply sublist_app; [by apply kept_mono | done].
Qed.

(** What the search does, whatever the radius is. *)
Lemma find_towers_cases route_coords towers :
  (∀ m, find_towers_near_route_shapely route_coords towers (PyNum m)
        = Return [])
  ∨ (∃ line ts,
       ∀ m, find_towers_near_route_shapely route_coords towers (PyNum m)
            = Return (sorted (key_lt position_key) (kept_towers line m ts)))
  ∨ (∀ m, find_towers_near_route_shapely route_coords towers (PyNum m)
          = Raise TypeError).
Proof.
  unfold find_towers_near_route_shapely.
  destruct (py_truthy route_coords); simpl; [| by left].
  destruct (py_len route_coords) as [n|e] eqn:Hlen; simpl.
  2: { right; right. intros _.
       destruct route_coords; simpl in Hlen; congruence. }
  case_bool_decide; [by left |].
  destruct (py_truthy towers); simpl; [| by left].
  unfold find_towers_try.
  destruct (LineString route_coords) as [line|]; simpl; [| by left].
  destruct (py_iter towers) as [ts|]; simpl; [| by left].
  destruct (Forall_Exists_dec (λ t, ¬ not_a_container t) not_a_container
              (λ t, match not_a_container_dec t with
                    | left H => right H
                    | right H => left H
                    end) ts) as [Hc | Hc].
  - right; left. exists line, ts. intros m.
    by rewrite scan_towers_containers by done.
  - left. intros m. by rewrite scan_towers_raises by done.
Qed.

(** X24: a larger search radius never loses a tower: the towers found
    within [m] metres are a sub-sequence, in the same order, of the towers
    found within any [m' >= m] metres of the same route. *)
Theorem larger_radius_keeps_towers route_coords towers m m' out out' :
  m <= m' →
  find_towers_near_route_shapely route_coords towers (PyNum m) = Return out →
  find_towers_near_route_shapely route_coords towers (PyNum m') = Return out' →
  out `sublist_of` out'.
Proof.
  intros Hm Hout Hout'.
  destruct (find_towers_cases route_coords towers)
    as [Hnone | [(line & ts & Hsome) | Hraise]].
  - rewrite Hnone in Hout. injection Hout as <-. apply sublist_nil_l.
  - rewrite Hsome in Hout, Hout'. injection Hout as <-. injection Hout' as <-.
    apply sorted_sublist; [apply key_lt_strict_weak_order |].
    by apply kept_towers_mono.
  - by rewrite Hraise in Hout.
Qed.

(** X24, witness: the tower on the first vertex of the equator route,
    within 2500 and within 5000 metres. *)
Lemma find_towers_origin_5000 :
  find_towers_near_route_shapely route_east (PyList [PyDict tower_origin])
    (PyNum 5000) = Return [copy_origin].
Proof.
  rewrite (find_towers_containers _ line_east)
    by (done || apply (dicts_are_containers [tower_origin])).
  rewrite kept_towers_cons.
  rewrite (kept_well_formed _ _ _ _ _ tower_origin_well_formed).
  rewrite decide_True; [done |].
  apply (near_route_mono _ 2500); [lra | exact tower_origin_near].
Qed.

Lemma larger_radius_keeps_towers_witness :
  [copy_origin] `sublist_of` [copy_origin].
Proof.
  apply (larger_radius_keeps_towers route_east (PyList [PyDict tower_origin])
           2500 5000 [copy_origin] [copy_origin]).
  - lra.
  - exact find_towers_origin.
  - exact find_towers_origin_5000.
Defined.
